(** * Preflight checker: hardware discovery and deployment planning

    A shallow embedding of [src/utils/preflight_checker.py]: the
    [NodeCapabilities] dataclass, the eight probes of
    [PreflightChecker._discover_node_capabilities], the scorer
    [_generate_recommendations], the coordinator [discover_nodes] and the
    planner [build_deployment_plan], followed by the properties the
    specification states about them.

    Conventions.
    - Python [int] is [Z]; Python [float] is the kernel's binary64 [float]
      (the same IEEE 754 format), with its own comparisons and addition.
    - Python [str] is [string]; the helpers below act on ASCII text.
    - A raised exception is the [Raise] branch of [result].
    - [self.nodes] is a list used as a store: a node object is the position
      it occupies in that list, so two names for one object are one index. *)

From Stdlib Require Import ZArith Floats Ascii String.
From stdpp Require Import base list.
From Stdlib Require Import Permutation Sorted Lia.

Local Open Scope Z_scope.

(** ** Exceptions *)

Inductive exn : Set :=
| IndexError
| ValueError.

Inductive result (A : Type) : Type :=
| OK (a : A)
| Raise (e : exn).
Arguments OK {A} a.
Arguments Raise {A} e.

(** ** Text *)

Module Str.

(** The characters [str.strip()] removes, among ASCII ones. *)
Definition is_space (c : ascii) : bool :=
  let n := nat_of_ascii c in
  ((9 <=? n)%nat && (n <=? 13)%nat) || ((28 <=? n)%nat && (n <=? 32)%nat).

Definition is_digit (c : ascii) : bool :=
  let n := nat_of_ascii c in (48 <=? n)%nat && (n <=? 57)%nat.

Definition upper_char (c : ascii) : ascii :=
  let n := nat_of_ascii c in
  if (97 <=? n)%nat && (n <=? 122)%nat then ascii_of_nat (n - 32) else c.

Definition lower_char (c : ascii) : ascii :=
  let n := nat_of_ascii c in
  if (65 <=? n)%nat && (n <=? 90)%nat then ascii_of_nat (n + 32) else c.

Fixpoint map (f : ascii -> ascii) (s : string) : string :=
  match s with
  | EmptyString => EmptyString
  | String c s' => String (f c) (map f s')
  end.

Definition upper : string -> string := map upper_char.
Definition lower : string -> string := map lower_char.

Fixpoint rev_onto (s acc : string) : string :=
  match s with
  | EmptyString => acc
  | String c s' => rev_onto s' (String c acc)
  end.

Definition rev (s : string) : string := rev_onto s EmptyString.

Fixpoint lstrip_by (p : ascii -> bool) (s : string) : string :=
  match s with
  | EmptyString => EmptyString
  | String c s' => if p c then lstrip_by p s' else s
  end.

Definition strip_by (p : ascii -> bool) (s : string) : string :=
  rev (lstrip_by p (rev (lstrip_by p s))).

(** [s.strip()] *)
Definition strip : string -> string := strip_by is_space.

(** [s.strip(chars)] for a one-character [chars]. *)
Definition strip_char (c : ascii) : string -> string :=
  strip_by (Ascii.eqb c).

(** [s.startswith(p)] *)
Definition startswith (p s : string) : bool := String.prefix p s.

(** [s.endswith(p)] *)
Definition endswith (p s : string) : bool := String.prefix (rev p) (rev s).

(** [s[:-1]] *)
Definition drop_last (s : string) : string :=
  match rev s with
  | EmptyString => EmptyString
  | String _ r => rev r
  end.

(** [p in s] *)
Fixpoint contains (p s : string) : bool :=
  String.prefix p s ||
  match s with
  | EmptyString => false
  | String _ s' => contains p s'
  end.

Fixpoint forallb (p : ascii -> bool) (s : string) : bool :=
  match s with
  | EmptyString => true
  | String c s' => p c && forallb p s'
  end.

(** [s.isdigit()] *)
Definition isdigit (s : string) : bool :=
  match s with
  | EmptyString => false
  | _ => forallb is_digit s
  end.

(** [bool(s)]: a string is true when it is not empty. *)
Definition truthy (s : string) : bool :=
  match s with
  | EmptyString => false
  | _ => true
  end.

Fixpoint drop (n : nat) (s : string) : string :=
  match n, s with
  | O, _ => s
  | S n', String _ s' => drop n' s'
  | S _, EmptyString => EmptyString
  end.

(** [s.split(sep)] for a non-empty [sep]; [cur] holds the current piece
    reversed, [skip] the characters of a separator still to pass over. *)
Fixpoint split_go (sep s cur : string) (skip : nat) : list string :=
  match s with
  | EmptyString => [rev cur]
  | String c s' =>
      match skip with
      | S k => split_go sep s' cur k
      | O =>
          if String.prefix sep s
          then rev cur :: split_go sep s' EmptyString (String.length sep - 1)
          else split_go sep s' (String c cur) O
      end
  end.

Definition split (sep s : string) : list string :=
  split_go sep s EmptyString O.

(** [s.split(sep, 1)] for a non-empty [sep]. *)
Fixpoint split1_go (sep s cur : string) : list string :=
  match s with
  | EmptyString => [rev cur]
  | String c s' =>
      if String.prefix sep s
      then [rev cur; drop (String.length sep) s]
      else split1_go sep s' (String c cur)
  end.

Definition split1 (sep s : string) : list string :=
  split1_go sep s EmptyString.

End Str.

(** ** Values decoded from tool output

    [lsblk --json] prints a device's [rota] and [mountpoint] as a string, a
    boolean or [null] depending on its version; the probe compares them with
    strings only. *)

Inductive jscalar : Set :=
| JNull
| JBool (b : bool)
| JStr (s : string).

(** [v == s] for a string [s]. *)
Definition jscalar_is (s : string) (v : jscalar) : bool :=
  match v with
  | JStr t => String.eqb t s
  | _ => false
  end.

Definition jscalar_eqb (a b : jscalar) : bool :=
  match a, b with
  | JNull, JNull => true
  | JBool x, JBool y => Bool.eqb x y
  | JStr x, JStr y => String.eqb x y
  | _, _ => false
  end.

(** One entry of [blockdevices], after the [device.get(key, default)]
    lookups of the storage probe. *)
Record BlockDevice : Set := mkBlockDevice {
  bd_name : string;
  bd_size : string;
  bd_type : string;
  bd_mountpoint : jscalar;
  bd_rota : jscalar
}.

(** One entry of [ip -json addr show], after the [interface.get] lookups;
    [if_addr_local] lists [addr.get('local', '')] of every [addr_info]. *)
Record IpInterface : Set := mkIpInterface {
  if_ifname : string;
  if_operstate : string;
  if_addr_local : list string
}.

(** ** The records a node carries *)

(** An element of [node.storage_devices]. *)
Record StorageDevice : Set := mkStorageDevice {
  sd_name : string;
  sd_size_gb : float;
  sd_type : string;
  sd_mountpoint : jscalar;
  sd_rotational : bool
}.

(** An element of [node.gpu_devices]. *)
Record GpuDevice : Set := mkGpuDevice {
  gd_index : Z;
  gd_name : string;
  gd_memory_gb : float;
  gd_type : string
}.

(** An element of [node.network_interfaces]. *)
Record NetworkInterface : Set := mkNetworkInterface {
  ni_name : string;
  ni_speed_gbps : float;
  ni_ip_addresses : list string;
  ni_state : string
}.

(** The dataclass [NodeCapabilities]. *)
Record NodeCapabilities : Type := mkNode {
  hostname : string;
  ip_address : string;
  username : string;
  ssh_key_path : string;
  cpu_cores : Z;
  cpu_model : string;
  cpu_frequency : float;
  total_memory_gb : float;
  available_memory_gb : float;
  storage_devices : list StorageDevice;
  total_storage_gb : float;
  fast_storage_gb : float;
  gpu_devices : list GpuDevice;
  total_gpu_memory_gb : float;
  gpu_count : Z;
  network_interfaces : list NetworkInterface;
  primary_interface : string;
  network_speed_gbps : float;
  os_name : string;
  os_version : string;
  kernel_version : string;
  docker_installed : bool;
  containerd_installed : bool;
  kubernetes_installed : bool;
  recommended_role : string;
  recommended_priority : Z
}.

Definition set_cpu_cores (v : Z) (n : NodeCapabilities) : NodeCapabilities :=
  mkNode (n.(hostname)) (n.(ip_address)) (n.(username)) (n.(ssh_key_path)) v
    (n.(cpu_model)) (n.(cpu_frequency)) (n.(total_memory_gb))
    (n.(available_memory_gb)) (n.(storage_devices)) (n.(total_storage_gb))
    (n.(fast_storage_gb)) (n.(gpu_devices)) (n.(total_gpu_memory_gb))
    (n.(gpu_count)) (n.(network_interfaces)) (n.(primary_interface))
    (n.(network_speed_gbps)) (n.(os_name)) (n.(os_version))
    (n.(kernel_version)) (n.(docker_installed)) (n.(containerd_installed))
    (n.(kubernetes_installed)) (n.(recommended_role))
    (n.(recommended_priority)).

Definition set_cpu_model (v : string) (n : NodeCapabilities) : NodeCapabilities :=
  mkNode (n.(hostname)) (n.(ip_address)) (n.(username)) (n.(ssh_key_path))
    (n.(cpu_cores)) v (n.(cpu_frequency)) (n.(total_memory_gb))
    (n.(available_memory_gb)) (n.(storage_devices)) (n.(total_storage_gb))
    (n.(fast_storage_gb)) (n.(gpu_devices)) (n.(total_gpu_memory_gb))
    (n.(gpu_count)) (n.(network_interfaces)) (n.(primary_interface))
    (n.(network_speed_gbps)) (n.(os_name)) (n.(os_version))
    (n.(kernel_version)) (n.(docker_installed)) (n.(containerd_installed))
    (n.(kubernetes_installed)) (n.(recommended_role))
    (n.(recommended_priority)).

Definition set_cpu_frequency (v : float) (n : NodeCapabilities) : NodeCapabilities :=
  mkNode (n.(hostname)) (n.(ip_address)) (n.(username)) (n.(ssh_key_path))
    (n.(cpu_cores)) (n.(cpu_model)) v (n.(total_memory_gb))
    (n.(available_memory_gb)) (n.(storage_devices)) (n.(total_storage_gb))
    (n.(fast_storage_gb)) (n.(gpu_devices)) (n.(total_gpu_memory_gb))
    (n.(gpu_count)) (n.(network_interfaces)) (n.(primary_interface))
    (n.(network_speed_gbps)) (n.(os_name)) (n.(os_version))
    (n.(kernel_version)) (n.(docker_installed)) (n.(containerd_installed))
    (n.(kubernetes_installed)) (n.(recommended_role))
    (n.(recommended_priority)).

Definition set_total_memory_gb (v : float) (n : NodeCapabilities) : NodeCapabilities :=
  mkNode (n.(hostname)) (n.(ip_address)) (n.(username)) (n.(ssh_key_path))
    (n.(cpu_cores)) (n.(cpu_model)) (n.(cpu_frequency)) v
    (n.(available_memory_gb)) (n.(storage_devices)) (n.(total_storage_gb))
    (n.(fast_storage_gb)) (n.(gpu_devices)) (n.(total_gpu_memory_gb))
    (n.(gpu_count)) (n.(network_interfaces)) (n.(primary_interface))
    (n.(network_speed_gbps)) (n.(os_name)) (n.(os_version))
    (n.(kernel_version)) (n.(docker_installed)) (n.(containerd_installed))
    (n.(kubernetes_installed)) (n.(recommended_role))
    (n.(recommended_priority)).

Definition set_available_memory_gb (v : float) (n : NodeCapabilities) : NodeCapabilities :=
  mkNode (n.(hostname)) (n.(ip_address)) (n.(username)) (n.(ssh_key_path))
    (n.(cpu_cores)) (n.(cpu_model)) (n.(cpu_frequency)) (n.(total_memory_gb))
    v (n.(storage_devices)) (n.(total_storage_gb)) (n.(fast_storage_gb))
    (n.(gpu_devices)) (n.(total_gpu_memory_gb)) (n.(gpu_count))
    (n.(network_interfaces)) (n.(primary_interface)) (n.(network_speed_gbps))
    (n.(os_name)) (n.(os_version)) (n.(kernel_version)) (n.(docker_installed))
    (n.(containerd_installed)) (n.(kubernetes_installed))
    (n.(recommended_role)) (n.(recommended_priority)).

Definition set_storage_devices (v : list StorageDevice) (n : NodeCapabilities) : NodeCapabilities :=
  mkNode (n.(hostname)) (n.(ip_address)) (n.(username)) (n.(ssh_key_path))
    (n.(cpu_cores)) (n.(cpu_model)) (n.(cpu_frequency)) (n.(total_memory_gb))
    (n.(available_memory_gb)) v (n.(total_storage_gb)) (n.(fast_storage_gb))
    (n.(gpu_devices)) (n.(total_gpu_memory_gb)) (n.(gpu_count))
    (n.(network_interfaces)) (n.(primary_interface)) (n.(network_speed_gbps))
    (n.(os_name)) (n.(os_version)) (n.(kernel_version)) (n.(docker_installed))
    (n.(containerd_installed)) (n.(kubernetes_installed))
    (n.(recommended_role)) (n.(recommended_priority)).

Definition set_total_storage_gb (v : float) (n : NodeCapabilities) : NodeCapabilities :=
  mkNode (n.(hostname)) (n.(ip_address)) (n.(username)) (n.(ssh_key_path))
    (n.(cpu_cores)) (n.(cpu_model)) (n.(cpu_frequency)) (n.(total_memory_gb))
    (n.(available_memory_gb)) (n.(storage_devices)) v (n.(fast_storage_gb))
    (n.(gpu_devices)) (n.(total_gpu_memory_gb)) (n.(gpu_count))
    (n.(network_interfaces)) (n.(primary_interface)) (n.(network_speed_gbps))
    (n.(os_name)) (n.(os_version)) (n.(kernel_version)) (n.(docker_installed))
    (n.(containerd_installed)) (n.(kubernetes_installed))
    (n.(recommended_role)) (n.(recommended_priority)).

Definition set_fast_storage_gb (v : float) (n : NodeCapabilities) : NodeCapabilities :=
  mkNode (n.(hostname)) (n.(ip_address)) (n.(username)) (n.(ssh_key_path))
    (n.(cpu_cores)) (n.(cpu_model)) (n.(cpu_frequency)) (n.(total_memory_gb))
    (n.(available_memory_gb)) (n.(storage_devices)) (n.(total_storage_gb)) v
    (n.(gpu_devices)) (n.(total_gpu_memory_gb)) (n.(gpu_count))
    (n.(network_interfaces)) (n.(primary_interface)) (n.(network_speed_gbps))
    (n.(os_name)) (n.(os_version)) (n.(kernel_version)) (n.(docker_installed))
    (n.(containerd_installed)) (n.(kubernetes_installed))
    (n.(recommended_role)) (n.(recommended_priority)).

Definition set_gpu_devices (v : list GpuDevice) (n : NodeCapabilities) : NodeCapabilities :=
  mkNode (n.(hostname)) (n.(ip_address)) (n.(username)) (n.(ssh_key_path))
    (n.(cpu_cores)) (n.(cpu_model)) (n.(cpu_frequency)) (n.(total_memory_gb))
    (n.(available_memory_gb)) (n.(storage_devices)) (n.(total_storage_gb))
    (n.(fast_storage_gb)) v (n.(total_gpu_memory_gb)) (n.(gpu_count))
    (n.(network_interfaces)) (n.(primary_interface)) (n.(network_speed_gbps))
    (n.(os_name)) (n.(os_version)) (n.(kernel_version)) (n.(docker_installed))
    (n.(containerd_installed)) (n.(kubernetes_installed))
    (n.(recommended_role)) (n.(recommended_priority)).

Definition set_total_gpu_memory_gb (v : float) (n : NodeCapabilities) : NodeCapabilities :=
  mkNode (n.(hostname)) (n.(ip_address)) (n.(username)) (n.(ssh_key_path))
    (n.(cpu_cores)) (n.(cpu_model)) (n.(cpu_frequency)) (n.(total_memory_gb))
    (n.(available_memory_gb)) (n.(storage_devices)) (n.(total_storage_gb))
    (n.(fast_storage_gb)) (n.(gpu_devices)) v (n.(gpu_count))
    (n.(network_interfaces)) (n.(primary_interface)) (n.(network_speed_gbps))
    (n.(os_name)) (n.(os_version)) (n.(kernel_version)) (n.(docker_installed))
    (n.(containerd_installed)) (n.(kubernetes_installed))
    (n.(recommended_role)) (n.(recommended_priority)).

Definition set_gpu_count (v : Z) (n : NodeCapabilities) : NodeCapabilities :=
  mkNode (n.(hostname)) (n.(ip_address)) (n.(username)) (n.(ssh_key_path))
    (n.(cpu_cores)) (n.(cpu_model)) (n.(cpu_frequency)) (n.(total_memory_gb))
    (n.(available_memory_gb)) (n.(storage_devices)) (n.(total_storage_gb))
    (n.(fast_storage_gb)) (n.(gpu_devices)) (n.(total_gpu_memory_gb)) v
    (n.(network_interfaces)) (n.(primary_interface)) (n.(network_speed_gbps))
    (n.(os_name)) (n.(os_version)) (n.(kernel_version)) (n.(docker_installed))
    (n.(containerd_installed)) (n.(kubernetes_installed))
    (n.(recommended_role)) (n.(recommended_priority)).

Definition set_network_interfaces (v : list NetworkInterface) (n : NodeCapabilities) : NodeCapabilities :=
  mkNode (n.(hostname)) (n.(ip_address)) (n.(username)) (n.(ssh_key_path))
    (n.(cpu_cores)) (n.(cpu_model)) (n.(cpu_frequency)) (n.(total_memory_gb))
    (n.(available_memory_gb)) (n.(storage_devices)) (n.(total_storage_gb))
    (n.(fast_storage_gb)) (n.(gpu_devices)) (n.(total_gpu_memory_gb))
    (n.(gpu_count)) v (n.(primary_interface)) (n.(network_speed_gbps))
    (n.(os_name)) (n.(os_version)) (n.(kernel_version)) (n.(docker_installed))
    (n.(containerd_installed)) (n.(kubernetes_installed))
    (n.(recommended_role)) (n.(recommended_priority)).

Definition set_primary_interface (v : string) (n : NodeCapabilities) : NodeCapabilities :=
  mkNode (n.(hostname)) (n.(ip_address)) (n.(username)) (n.(ssh_key_path))
    (n.(cpu_cores)) (n.(cpu_model)) (n.(cpu_frequency)) (n.(total_memory_gb))
    (n.(available_memory_gb)) (n.(storage_devices)) (n.(total_storage_gb))
    (n.(fast_storage_gb)) (n.(gpu_devices)) (n.(total_gpu_memory_gb))
    (n.(gpu_count)) (n.(network_interfaces)) v (n.(network_speed_gbps))
    (n.(os_name)) (n.(os_version)) (n.(kernel_version)) (n.(docker_installed))
    (n.(containerd_installed)) (n.(kubernetes_installed))
    (n.(recommended_role)) (n.(recommended_priority)).

Definition set_network_speed_gbps (v : float) (n : NodeCapabilities) : NodeCapabilities :=
  mkNode (n.(hostname)) (n.(ip_address)) (n.(username)) (n.(ssh_key_path))
    (n.(cpu_cores)) (n.(cpu_model)) (n.(cpu_frequency)) (n.(total_memory_gb))
    (n.(available_memory_gb)) (n.(storage_devices)) (n.(total_storage_gb))
    (n.(fast_storage_gb)) (n.(gpu_devices)) (n.(total_gpu_memory_gb))
    (n.(gpu_count)) (n.(network_interfaces)) (n.(primary_interface)) v
    (n.(os_name)) (n.(os_version)) (n.(kernel_version)) (n.(docker_installed))
    (n.(containerd_installed)) (n.(kubernetes_installed))
    (n.(recommended_role)) (n.(recommended_priority)).

Definition set_os_name (v : string) (n : NodeCapabilities) : NodeCapabilities :=
  mkNode (n.(hostname)) (n.(ip_address)) (n.(username)) (n.(ssh_key_path))
    (n.(cpu_cores)) (n.(cpu_model)) (n.(cpu_frequency)) (n.(total_memory_gb))
    (n.(available_memory_gb)) (n.(storage_devices)) (n.(total_storage_gb))
    (n.(fast_storage_gb)) (n.(gpu_devices)) (n.(total_gpu_memory_gb))
    (n.(gpu_count)) (n.(network_interfaces)) (n.(primary_interface))
    (n.(network_speed_gbps)) v (n.(os_version)) (n.(kernel_version))
    (n.(docker_installed)) (n.(containerd_installed))
    (n.(kubernetes_installed)) (n.(recommended_role))
    (n.(recommended_priority)).

Definition set_os_version (v : string) (n : NodeCapabilities) : NodeCapabilities :=
  mkNode (n.(hostname)) (n.(ip_address)) (n.(username)) (n.(ssh_key_path))
    (n.(cpu_cores)) (n.(cpu_model)) (n.(cpu_frequency)) (n.(total_memory_gb))
    (n.(available_memory_gb)) (n.(storage_devices)) (n.(total_storage_gb))
    (n.(fast_storage_gb)) (n.(gpu_devices)) (n.(total_gpu_memory_gb))
    (n.(gpu_count)) (n.(network_interfaces)) (n.(primary_interface))
    (n.(network_speed_gbps)) (n.(os_name)) v (n.(kernel_version))
    (n.(docker_installed)) (n.(containerd_installed))
    (n.(kubernetes_installed)) (n.(recommended_role))
    (n.(recommended_priority)).

Definition set_kernel_version (v : string) (n : NodeCapabilities) : NodeCapabilities :=
  mkNode (n.(hostname)) (n.(ip_address)) (n.(username)) (n.(ssh_key_path))
    (n.(cpu_cores)) (n.(cpu_model)) (n.(cpu_frequency)) (n.(total_memory_gb))
    (n.(available_memory_gb)) (n.(storage_devices)) (n.(total_storage_gb))
    (n.(fast_storage_gb)) (n.(gpu_devices)) (n.(total_gpu_memory_gb))
    (n.(gpu_count)) (n.(network_interfaces)) (n.(primary_interface))
    (n.(network_speed_gbps)) (n.(os_name)) (n.(os_version)) v
    (n.(docker_installed)) (n.(containerd_installed))
    (n.(kubernetes_installed)) (n.(recommended_role))
    (n.(recommended_priority)).

Definition set_docker_installed (v : bool) (n : NodeCapabilities) : NodeCapabilities :=
  mkNode (n.(hostname)) (n.(ip_address)) (n.(username)) (n.(ssh_key_path))
    (n.(cpu_cores)) (n.(cpu_model)) (n.(cpu_frequency)) (n.(total_memory_gb))
    (n.(available_memory_gb)) (n.(storage_devices)) (n.(total_storage_gb))
    (n.(fast_storage_gb)) (n.(gpu_devices)) (n.(total_gpu_memory_gb))
    (n.(gpu_count)) (n.(network_interfaces)) (n.(primary_interface))
    (n.(network_speed_gbps)) (n.(os_name)) (n.(os_version))
    (n.(kernel_version)) v (n.(containerd_installed))
    (n.(kubernetes_installed)) (n.(recommended_role))
    (n.(recommended_priority)).

Definition set_containerd_installed (v : bool) (n : NodeCapabilities) : NodeCapabilities :=
  mkNode (n.(hostname)) (n.(ip_address)) (n.(username)) (n.(ssh_key_path))
    (n.(cpu_cores)) (n.(cpu_model)) (n.(cpu_frequency)) (n.(total_memory_gb))
    (n.(available_memory_gb)) (n.(storage_devices)) (n.(total_storage_gb))
    (n.(fast_storage_gb)) (n.(gpu_devices)) (n.(total_gpu_memory_gb))
    (n.(gpu_count)) (n.(network_interfaces)) (n.(primary_interface))
    (n.(network_speed_gbps)) (n.(os_name)) (n.(os_version))
    (n.(kernel_version)) (n.(docker_installed)) v (n.(kubernetes_installed))
    (n.(recommended_role)) (n.(recommended_priority)).

Definition set_kubernetes_installed (v : bool) (n : NodeCapabilities) : NodeCapabilities :=
  mkNode (n.(hostname)) (n.(ip_address)) (n.(username)) (n.(ssh_key_path))
    (n.(cpu_cores)) (n.(cpu_model)) (n.(cpu_frequency)) (n.(total_memory_gb))
    (n.(available_memory_gb)) (n.(storage_devices)) (n.(total_storage_gb))
    (n.(fast_storage_gb)) (n.(gpu_devices)) (n.(total_gpu_memory_gb))
    (n.(gpu_count)) (n.(network_interfaces)) (n.(primary_interface))
    (n.(network_speed_gbps)) (n.(os_name)) (n.(os_version))
    (n.(kernel_version)) (n.(docker_installed)) (n.(containerd_installed)) v
    (n.(recommended_role)) (n.(recommended_priority)).

Definition set_recommended_role (v : string) (n : NodeCapabilities) : NodeCapabilities :=
  mkNode (n.(hostname)) (n.(ip_address)) (n.(username)) (n.(ssh_key_path))
    (n.(cpu_cores)) (n.(cpu_model)) (n.(cpu_frequency)) (n.(total_memory_gb))
    (n.(available_memory_gb)) (n.(storage_devices)) (n.(total_storage_gb))
    (n.(fast_storage_gb)) (n.(gpu_devices)) (n.(total_gpu_memory_gb))
    (n.(gpu_count)) (n.(network_interfaces)) (n.(primary_interface))
    (n.(network_speed_gbps)) (n.(os_name)) (n.(os_version))
    (n.(kernel_version)) (n.(docker_installed)) (n.(containerd_installed))
    (n.(kubernetes_installed)) v (n.(recommended_priority)).

Definition set_recommended_priority (v : Z) (n : NodeCapabilities) : NodeCapabilities :=
  mkNode (n.(hostname)) (n.(ip_address)) (n.(username)) (n.(ssh_key_path))
    (n.(cpu_cores)) (n.(cpu_model)) (n.(cpu_frequency)) (n.(total_memory_gb))
    (n.(available_memory_gb)) (n.(storage_devices)) (n.(total_storage_gb))
    (n.(fast_storage_gb)) (n.(gpu_devices)) (n.(total_gpu_memory_gb))
    (n.(gpu_count)) (n.(network_interfaces)) (n.(primary_interface))
    (n.(network_speed_gbps)) (n.(os_name)) (n.(os_version))
    (n.(kernel_version)) (n.(docker_installed)) (n.(containerd_installed))
    (n.(kubernetes_installed)) (n.(recommended_role)) v.
(** [NodeCapabilities(hostname=..., ip_address=..., username=...,
    ssh_key_path=...)]: the dataclass defaults, with the three list fields
    set to fresh empty lists by [__post_init__]. *)
Definition NodeCapabilities_init (host ip user key : string) : NodeCapabilities :=
  mkNode host ip user key
    0 EmptyString 0%float
    0%float 0%float
    [] 0%float 0%float
    [] 0%float 0
    [] EmptyString 0%float
    EmptyString EmptyString EmptyString
    false false false
    "worker" 1.

(** ** The remote host

    What a host answers over SSH: whether the [k]-th connection opened for it
    succeeds ([0] is [_test_ssh_connection], [1] to [8] are the eight probes in
    the order they run), and the decoded standard output of a command, or
    [None] when running or reading it raises. *)
Record Remote : Type := mkRemote {
  connects : nat -> bool;
  exec_command : string -> option string
}.

(** The body of a [try] block run against a node: when a step raises
    ([None]) the handler only logs, so the block ends with the node as it
    was updated so far. *)
Notation "'attempt' x <- e 'keep' n ; k" :=
  (match e with Some x => k | None => n end)
  (at level 10, x name, e at level 100, n at level 100, k at level 200,
   only parsing).

Definition newline : string := String (ascii_of_nat 10) EmptyString.
Definition dquote : ascii := ascii_of_nat 34.

Section Probes.

(** Python's [int(text)] and [float(text)], [None] when they raise
    [ValueError]; [json.loads] on the output of [lsblk] and of [ip], read
    through the probes' [get] lookups, [None] when decoding raises. *)
Variable py_int : string -> option Z.
Variable py_float : string -> option float.
Variable lsblk_loads : string -> option (list BlockDevice).
Variable ip_loads : string -> option (list IpInterface).

Definition _test_ssh_connection (r : Remote) : bool := connects r 0.

Definition _discover_cpu_info (r : Remote) (node : NodeCapabilities)
  : NodeCapabilities :=
  if negb (connects r 1) then node else
  attempt out <- exec_command r "nproc" keep node;
  attempt cores <- py_int (Str.strip out) keep node;
  let node := set_cpu_cores cores node in
  attempt out <- exec_command r
    "cat /proc/cpuinfo | grep 'model name' | head -1 | cut -d: -f2 | xargs"
    keep node;
  let node := set_cpu_model (Str.strip out) node in
  attempt out <- exec_command r
    "cat /proc/cpuinfo | grep 'cpu MHz' | head -1 | cut -d: -f2 | xargs"
    keep node;
  let freq_str := Str.strip out in
  if Str.truthy freq_str then
    attempt f <- py_float freq_str keep node;
    set_cpu_frequency (f / 1000)%float node
  else node.

Definition _discover_memory_info (r : Remote) (node : NodeCapabilities)
  : NodeCapabilities :=
  if negb (connects r 2) then node else
  attempt out <- exec_command r "free -g | grep Mem | awk '{print $2}'"
    keep node;
  attempt total <- py_float (Str.strip out) keep node;
  let node := set_total_memory_gb total node in
  attempt out <- exec_command r "free -g | grep Mem | awk '{print $7}'"
    keep node;
  attempt avail <- py_float (Str.strip out) keep node;
  set_available_memory_gb avail node.

(** The bare [except] turns every parse failure into [0.0]. *)
Definition _parse_size_to_gb (size_str : string) : float :=
  let size_str := Str.upper (Str.strip size_str) in
  let parsed :=
    if Str.endswith "G" size_str then
      py_float (Str.drop_last size_str)
    else if Str.endswith "T" size_str then
      option_map (fun x => x * 1024)%float (py_float (Str.drop_last size_str))
    else if Str.endswith "M" size_str then
      option_map (fun x => x / 1024)%float (py_float (Str.drop_last size_str))
    else
      option_map (fun x => x / 1073741824)%float (py_float size_str) in
  match parsed with
  | Some x => x
  | None => 0%float
  end.

(** The locals of the storage loop: [total_storage], [fast_storage] and the
    list [node.storage_devices] the loop appends to. *)
Record StorageAcc : Set := mkStorageAcc {
  acc_total_storage : float;
  acc_fast_storage : float;
  acc_devices : list StorageDevice
}.

(** One iteration of [for device in devices_data.get('blockdevices', [])]. *)
Definition storage_step (acc : StorageAcc) (device : BlockDevice) : StorageAcc :=
  let device_name := bd_name device in
  let device_type := bd_type device in
  let device_rota := bd_rota device in
  let size_gb := _parse_size_to_gb (bd_size device) in
  let total_storage := (acc_total_storage acc + size_gb)%float in
  if String.eqb device_type "disk" then
    let '(fast_storage, device_type) :=
      if Str.startswith "nvme" device_name then
        ((acc_fast_storage acc + size_gb)%float, "nvme"%string)
      else if jscalar_is "0" device_rota then
        ((acc_fast_storage acc + size_gb)%float, "ssd"%string)
      else (acc_fast_storage acc, device_type) in
    mkStorageAcc total_storage fast_storage
      (acc_devices acc ++
       [mkStorageDevice device_name size_gb device_type (bd_mountpoint device)
          (jscalar_is "1" device_rota)])
  else
    mkStorageAcc total_storage (acc_fast_storage acc) (acc_devices acc).

Definition storage_loop (devices : list BlockDevice) (node : NodeCapabilities)
  : StorageAcc :=
  fold_left storage_step devices
    (mkStorageAcc 0%float 0%float (storage_devices node)).

Definition _discover_storage_info (r : Remote) (node : NodeCapabilities)
  : NodeCapabilities :=
  if negb (connects r 3) then node else
  attempt out <- exec_command r
    "lsblk -d -o NAME,SIZE,TYPE,MOUNTPOINT,ROTA --json" keep node;
  let devices_json := Str.strip out in
  if Str.truthy devices_json then
    attempt devices <- lsblk_loads devices_json keep node;
    let acc := storage_loop devices node in
    set_fast_storage_gb (acc_fast_storage acc)
      (set_total_storage_gb (acc_total_storage acc)
         (set_storage_devices (acc_devices acc) node))
  else node.

Definition _classify_gpu (gpu_name : string) : string :=
  let gpu_name := Str.lower gpu_name in
  if Str.contains "a100" gpu_name then "A100"
  else if Str.contains "h100" gpu_name then "H100"
  else if Str.contains "v100" gpu_name then "V100"
  else if Str.contains "rtx 4090" gpu_name then "RTX4090"
  else if Str.contains "rtx 4080" gpu_name then "RTX4080"
  else if Str.contains "m6000" gpu_name then "M6000"
  else if Str.contains "l40" gpu_name then "L40"
  else if Str.contains "t4" gpu_name then "T4"
  else if Str.contains "l4" gpu_name then "L4"
  else if Str.contains "rtx 6000" gpu_name then "RTX6000"
  else "Other".

(** [for line in gpu_info.split('\n')]: the devices appended so far, and the
    locals [(total_gpu_memory, gpu_count)] when no iteration raised. *)
Fixpoint gpu_loop (lines : list string) (total_gpu_memory : float)
  (gpu_count : Z) (devices : list GpuDevice)
  : list GpuDevice * option (float * Z) :=
  match lines with
  | [] => (devices, Some (total_gpu_memory, gpu_count))
  | line :: rest =>
      if Str.truthy (Str.strip line) then
        let parts := Str.split ", " line in
        if (2 <=? length parts)%nat then
          let gpu_name := Str.strip (nth 0 parts EmptyString) in
          match py_float (Str.strip (nth 1 parts EmptyString)) with
          | None => (devices, None)
          | Some gpu_memory =>
              match (if (2 <? length parts)%nat
                     then py_int (Str.strip (nth 2 parts EmptyString))
                     else Some gpu_count) with
              | None => (devices, None)
              | Some gpu_index =>
                  gpu_loop rest (total_gpu_memory + gpu_memory)%float
                    (gpu_count + 1)
                    (devices ++
                     [mkGpuDevice gpu_index gpu_name gpu_memory
                        (_classify_gpu gpu_name)])
              end
          end
        else gpu_loop rest total_gpu_memory gpu_count devices
      else gpu_loop rest total_gpu_memory gpu_count devices
  end.

Definition _discover_gpu_info (r : Remote) (node : NodeCapabilities)
  : NodeCapabilities :=
  if negb (connects r 4) then node else
  attempt out <- exec_command r "which nvidia-smi" keep node;
  if Str.truthy (Str.strip out) then
    attempt out <- exec_command r
      "nvidia-smi --query-gpu=name,memory.total,index --format=csv,noheader,nounits"
      keep node;
    let gpu_info := Str.strip out in
    if Str.truthy gpu_info then
      match gpu_loop (Str.split newline gpu_info) 0%float 0 (gpu_devices node) with
      | (devices, None) => set_gpu_devices devices node
      | (devices, Some (total_gpu_memory, gpu_count)) =>
          set_gpu_count gpu_count
            (set_total_gpu_memory_gb total_gpu_memory
               (set_gpu_devices devices node))
      end
    else node
  else node.

(** [for interface in interfaces_data]; an iteration that raises ends the
    loop with the node as updated so far. *)
Fixpoint network_loop (r : Remote) (interfaces : list IpInterface)
  (node : NodeCapabilities) : NodeCapabilities :=
  match interfaces with
  | [] => node
  | interface :: rest =>
      let ifname := if_ifname interface in
      if Str.truthy ifname && negb (String.eqb ifname "lo") then
        attempt out <- exec_command r
          ("cat /sys/class/net/" ++ ifname ++ "/speed 2>/dev/null || echo '1000'")
          keep node;
        let speed_str := Str.strip out in
        attempt speed_gbps <-
          (if Str.isdigit speed_str
           then option_map (fun x => x / 1000)%float (py_float speed_str)
           else Some 1%float)
          keep node;
        let ip_addresses := List.filter Str.truthy (if_addr_local interface) in
        let node :=
          set_network_interfaces
            (network_interfaces node ++
             [mkNetworkInterface ifname speed_gbps ip_addresses
                (if_operstate interface)]) node in
        let node :=
          match primary_interface node, ip_addresses with
          | EmptyString, _ :: _ =>
              set_network_speed_gbps speed_gbps
                (set_primary_interface ifname node)
          | _, _ => node
          end in
        network_loop r rest node
      else network_loop r rest node
  end.

Definition _discover_network_info (r : Remote) (node : NodeCapabilities)
  : NodeCapabilities :=
  if negb (connects r 5) then node else
  attempt out <- exec_command r "ip -json addr show" keep node;
  let interfaces_json := Str.strip out in
  if Str.truthy interfaces_json then
    attempt interfaces <- ip_loads interfaces_json keep node;
    network_loop r interfaces node
  else node.

(** One iteration of [for line in os_info.split('\n')]. *)
Definition os_step (node : NodeCapabilities) (line : string) : NodeCapabilities :=
  if Str.startswith "NAME=" line then
    set_os_name
      (Str.strip_char dquote (nth 1 (Str.split1 "=" line) EmptyString)) node
  else if Str.startswith "VERSION_ID=" line then
    set_os_version
      (Str.strip_char dquote (nth 1 (Str.split1 "=" line) EmptyString)) node
  else node.

Definition _discover_os_info (r : Remote) (node : NodeCapabilities)
  : NodeCapabilities :=
  if negb (connects r 6) then node else
  attempt out <- exec_command r
    "cat /etc/os-release | grep -E '^(NAME|VERSION_ID)'" keep node;
  let os_info := Str.strip out in
  let node := fold_left os_step (Str.split newline os_info) node in
  attempt out <- exec_command r "uname -r" keep node;
  set_kernel_version (Str.strip out) node.

Definition _discover_container_runtime (r : Remote) (node : NodeCapabilities)
  : NodeCapabilities :=
  if negb (connects r 7) then node else
  attempt out <- exec_command r "which docker" keep node;
  let node := set_docker_installed (Str.truthy (Str.strip out)) node in
  attempt out <- exec_command r "which containerd" keep node;
  set_containerd_installed (Str.truthy (Str.strip out)) node.

Definition _discover_kubernetes_info (r : Remote) (node : NodeCapabilities)
  : NodeCapabilities :=
  if negb (connects r 8) then node else
  attempt out <- exec_command r "which kubectl" keep node;
  set_kubernetes_installed (Str.truthy (Str.strip out)) node.

End Probes.

(** ** The scorer *)

(** [# CPU scoring] *)
Definition cpu_scoring (node : NodeCapabilities) : Z :=
  if 16 <=? cpu_cores node then 10
  else if 8 <=? cpu_cores node then 5
  else if 4 <=? cpu_cores node then 2
  else 0.

(** [# Memory scoring] *)
Definition memory_scoring (node : NodeCapabilities) : Z :=
  if (64 <=? total_memory_gb node)%float then 10
  else if (32 <=? total_memory_gb node)%float then 5
  else if (16 <=? total_memory_gb node)%float then 2
  else 0.

(** [# Storage scoring] *)
Definition storage_scoring (node : NodeCapabilities) : Z :=
  if (500 <=? fast_storage_gb node)%float then 10
  else if (100 <=? fast_storage_gb node)%float then 5
  else if (50 <=? fast_storage_gb node)%float then 2
  else 0.

(** [# Network scoring] *)
Definition network_scoring (node : NodeCapabilities) : Z :=
  if (25 <=? network_speed_gbps node)%float then 10
  else if (10 <=? network_speed_gbps node)%float then 5
  else if (1 <=? network_speed_gbps node)%float then 2
  else 0.

(** [# GPU scoring (heavily weighted)] *)
Definition gpu_scoring (node : NodeCapabilities) : Z :=
  if 0 <? gpu_count node then
    20 +
    (if (80 <=? total_gpu_memory_gb node)%float then 15
     else if (48 <=? total_gpu_memory_gb node)%float then 12
     else if (40 <=? total_gpu_memory_gb node)%float then 10
     else if (24 <=? total_gpu_memory_gb node)%float then 8
     else if (16 <=? total_gpu_memory_gb node)%float then 5
     else if (8 <=? total_gpu_memory_gb node)%float then 3
     else 0)
  else 0.

(** The local [priority_score] when the role is determined. *)
Definition priority_score (node : NodeCapabilities) : Z :=
  0 + cpu_scoring node + memory_scoring node + storage_scoring node
    + network_scoring node + gpu_scoring node.

Definition _generate_recommendations (node : NodeCapabilities)
  : NodeCapabilities :=
  let score := priority_score node in
  let node :=
    if 0 <? gpu_count node then set_recommended_role "gpu_worker" node
    else if 15 <=? score then set_recommended_role "master" node
    else set_recommended_role "worker" node in
  set_recommended_priority score node.

(** ** Discovery of one node *)

Section Discovery.

Variable py_int : string -> option Z.
Variable py_float : string -> option float.
Variable lsblk_loads : string -> option (list BlockDevice).
Variable ip_loads : string -> option (list IpInterface).

(** The node after the call, and whether the call raised: the only step
    that raises is the failed connection test, before any probe has run. *)
Definition _discover_node_capabilities (r : Remote) (node : NodeCapabilities)
  : NodeCapabilities * bool :=
  if negb (_test_ssh_connection r) then (node, true)
  else
    let node := _discover_cpu_info py_int py_float r node in
    let node := _discover_memory_info py_float r node in
    let node := _discover_storage_info py_float lsblk_loads r node in
    let node := _discover_gpu_info py_int py_float r node in
    let node := _discover_network_info py_float ip_loads r node in
    let node := _discover_os_info r node in
    let node := _discover_container_runtime r node in
    let node := _discover_kubernetes_info r node in
    let node := _generate_recommendations node in
    (node, false).

End Discovery.

(** ** The deployment plan *)

(** The dictionary [_node_to_dict] returns: the node without its identity
    fields. *)
Record NodeDict : Type := mkNodeDict {
  cap_cpu_cores : Z;
  cap_cpu_model : string;
  cap_cpu_frequency : float;
  cap_total_memory_gb : float;
  cap_available_memory_gb : float;
  cap_storage_devices : list StorageDevice;
  cap_total_storage_gb : float;
  cap_fast_storage_gb : float;
  cap_gpu_devices : list GpuDevice;
  cap_total_gpu_memory_gb : float;
  cap_gpu_count : Z;
  cap_network_interfaces : list NetworkInterface;
  cap_primary_interface : string;
  cap_network_speed_gbps : float;
  cap_os_name : string;
  cap_os_version : string;
  cap_kernel_version : string;
  cap_docker_installed : bool;
  cap_containerd_installed : bool;
  cap_kubernetes_installed : bool;
  cap_recommended_role : string;
  cap_recommended_priority : Z
}.

Definition _node_to_dict (node : NodeCapabilities) : NodeDict :=
  mkNodeDict (node.(cpu_cores)) (node.(cpu_model)) (node.(cpu_frequency))
    (node.(total_memory_gb)) (node.(available_memory_gb))
    (node.(storage_devices)) (node.(total_storage_gb))
    (node.(fast_storage_gb)) (node.(gpu_devices)) (node.(total_gpu_memory_gb))
    (node.(gpu_count)) (node.(network_interfaces)) (node.(primary_interface))
    (node.(network_speed_gbps)) (node.(os_name)) (node.(os_version))
    (node.(kernel_version)) (node.(docker_installed))
    (node.(containerd_installed)) (node.(kubernetes_installed))
    (node.(recommended_role)) (node.(recommended_priority)).


(** An entry of the plan: [{'hostname', 'ip_address', 'capabilities'}]. *)
Record PlanEntry : Type := mkPlanEntry {
  pe_hostname : string;
  pe_ip_address : string;
  pe_capabilities : NodeDict
}.

Definition plan_entry (node : NodeCapabilities) : PlanEntry :=
  mkPlanEntry (hostname node) (ip_address node) (_node_to_dict node).

(** The plan's ['summary']. *)
Record Summary : Type := mkSummary {
  sum_total_nodes : Z;
  sum_master_nodes : Z;
  sum_gpu_worker_nodes : Z;
  sum_worker_nodes : Z;
  sum_total_gpus : Z;
  sum_total_gpu_memory_gb : float;
  sum_total_cpu_cores : Z;
  sum_total_memory_gb : float;
  sum_total_storage_gb : float
}.

Record DeploymentPlan : Type := mkDeploymentPlan {
  plan_timestamp : string;
  plan_master_node : PlanEntry;
  plan_gpu_worker_nodes : list PlanEntry;
  plan_worker_nodes : list PlanEntry;
  plan_summary : Summary;
  plan_recommendations : list string
}.

(** The instance [self]. *)
Record PreflightChecker : Type := mkChecker {
  checker_ssh_key_path : string;
  nodes : list NodeCapabilities;
  deployment_plan : option DeploymentPlan
}.

Definition set_nodes (v : list NodeCapabilities) (self : PreflightChecker)
  : PreflightChecker :=
  mkChecker (checker_ssh_key_path self) v (deployment_plan self).

Definition set_deployment_plan (v : DeploymentPlan) (self : PreflightChecker)
  : PreflightChecker :=
  mkChecker (checker_ssh_key_path self) (nodes self) (Some v).

(** [PreflightChecker(ssh_key_path)], the path already expanded. *)
Definition PreflightChecker_init (key : string) : PreflightChecker :=
  mkChecker key [] None.

(** ** The coordinator *)

(** An element of [node_list], with the three keys the coordinator reads. *)
Record NodeDescriptor : Set := mkNodeDescriptor {
  nd_hostname : string;
  nd_ip_address : string;
  nd_username : string
}.

(** The node object created for an element of [node_list]. *)
Definition fresh_node (key : string) (node_info : NodeDescriptor)
  : NodeCapabilities :=
  NodeCapabilities_init (nd_hostname node_info) (nd_ip_address node_info)
    (nd_username node_info) key.

(** [concurrent.futures.ThreadPoolExecutor(max_workers=n)]: the constructor
    raises [ValueError] when [n <= 0]. *)
Definition ThreadPoolExecutor (max_workers : Z) : result Z :=
  if max_workers <=? 0 then Raise ValueError else OK max_workers.

Section Coordinator.

Variable py_int : string -> option Z.
Variable py_float : string -> option float.
Variable lsblk_loads : string -> option (list BlockDevice).
Variable ip_loads : string -> option (list IpInterface).

(** The host reached at an address with a user name and a key. *)
Variable net : string -> string -> string -> Remote.

(** What the task submitted for a node leaves of it: the call
    [self._discover_node_capabilities(node)], whose exception, if any,
    the loop over [as_completed] catches and logs. *)
Definition discovered (key : string) (node : NodeCapabilities)
  : NodeCapabilities :=
  fst (_discover_node_capabilities py_int py_float lsblk_loads ip_loads
         (net (ip_address node) (username node) key) node).

(** The task of the node at position [i] updates that node in place. *)
Definition run_task (key : string) (store : list NodeCapabilities) (i : nat)
  : list NodeCapabilities :=
  match store !! i with
  | Some node => <[i := discovered key node]> store
  | None => store
  end.

(** [order] is the order in which the pool runs the submitted tasks, each
    task once: the tasks write to distinct nodes. *)
Definition discover_nodes (order : list nat) (node_list : list NodeDescriptor)
  (self : PreflightChecker)
  : result (list NodeCapabilities) * PreflightChecker :=
  let self := set_nodes [] self in
  let self :=
    fold_left
      (fun self node_info =>
         set_nodes
           (nodes self ++ [fresh_node (checker_ssh_key_path self) node_info])
           self)
      node_list self in
  match ThreadPoolExecutor (Z.min (Z.of_nat (length (nodes self))) 10) with
  | Raise e => (Raise e, self)
  | OK _ =>
      let self :=
        set_nodes
          (fold_left (run_task (checker_ssh_key_path self)) order (nodes self))
          self in
      (OK (nodes self), self)
  end.

End Coordinator.

(** ** The planner *)

Section SortedReverse.

Context {A : Type} (key : A -> Z).

(** [sorted(l, key=key, reverse=True)] is stable: decreasing keys, elements
    of equal key in the order of [l]. An element is placed before the
    later elements whose key is not larger. *)
Fixpoint insert_reverse (x : A) (l : list A) : list A :=
  match l with
  | [] => [x]
  | y :: l' => if key x <? key y then y :: insert_reverse x l' else x :: l
  end.

Definition sorted_reverse (l : list A) : list A :=
  fold_right insert_reverse [] l.

End SortedReverse.

(** [list(range(n))]: the objects of a store of [n] nodes. *)
Definition refs (store : list NodeCapabilities) : list nat :=
  seq 0 (length store).

(** The node an object denotes in the store. *)
Definition deref (store : list NodeCapabilities) (i : nat) : NodeCapabilities :=
  nth i store (NodeCapabilities_init EmptyString EmptyString EmptyString
                 EmptyString).

Fixpoint list_eqb {A : Type} (eqb : A -> A -> bool) (l1 l2 : list A) : bool :=
  match l1, l2 with
  | [], [] => true
  | x :: l1', y :: l2' => eqb x y && list_eqb eqb l1' l2'
  | _, _ => false
  end.

Definition StorageDevice_eqb (a b : StorageDevice) : bool :=
  String.eqb (sd_name a) (sd_name b)
  && PrimFloat.eqb (sd_size_gb a) (sd_size_gb b)
  && String.eqb (sd_type a) (sd_type b)
  && jscalar_eqb (sd_mountpoint a) (sd_mountpoint b)
  && Bool.eqb (sd_rotational a) (sd_rotational b).

Definition GpuDevice_eqb (a b : GpuDevice) : bool :=
  Z.eqb (gd_index a) (gd_index b)
  && String.eqb (gd_name a) (gd_name b)
  && PrimFloat.eqb (gd_memory_gb a) (gd_memory_gb b)
  && String.eqb (gd_type a) (gd_type b).

Definition NetworkInterface_eqb (a b : NetworkInterface) : bool :=
  String.eqb (ni_name a) (ni_name b)
  && PrimFloat.eqb (ni_speed_gbps a) (ni_speed_gbps b)
  && list_eqb String.eqb (ni_ip_addresses a) (ni_ip_addresses b)
  && String.eqb (ni_state a) (ni_state b).

(** The [__eq__] the dataclass decorator generates: the tuples of all fields,
    compared field by field with [==]. *)
Definition NodeCapabilities_eqb (a b : NodeCapabilities) : bool :=
  String.eqb (a.(hostname)) (b.(hostname))
  && String.eqb (a.(ip_address)) (b.(ip_address))
  && String.eqb (a.(username)) (b.(username))
  && String.eqb (a.(ssh_key_path)) (b.(ssh_key_path))
  && Z.eqb (a.(cpu_cores)) (b.(cpu_cores))
  && String.eqb (a.(cpu_model)) (b.(cpu_model))
  && PrimFloat.eqb (a.(cpu_frequency)) (b.(cpu_frequency))
  && PrimFloat.eqb (a.(total_memory_gb)) (b.(total_memory_gb))
  && PrimFloat.eqb (a.(available_memory_gb)) (b.(available_memory_gb))
  && list_eqb StorageDevice_eqb (a.(storage_devices)) (b.(storage_devices))
  && PrimFloat.eqb (a.(total_storage_gb)) (b.(total_storage_gb))
  && PrimFloat.eqb (a.(fast_storage_gb)) (b.(fast_storage_gb))
  && list_eqb GpuDevice_eqb (a.(gpu_devices)) (b.(gpu_devices))
  && PrimFloat.eqb (a.(total_gpu_memory_gb)) (b.(total_gpu_memory_gb))
  && Z.eqb (a.(gpu_count)) (b.(gpu_count))
  && list_eqb NetworkInterface_eqb (a.(network_interfaces)) (b.(network_interfaces))
  && String.eqb (a.(primary_interface)) (b.(primary_interface))
  && PrimFloat.eqb (a.(network_speed_gbps)) (b.(network_speed_gbps))
  && String.eqb (a.(os_name)) (b.(os_name))
  && String.eqb (a.(os_version)) (b.(os_version))
  && String.eqb (a.(kernel_version)) (b.(kernel_version))
  && Bool.eqb (a.(docker_installed)) (b.(docker_installed))
  && Bool.eqb (a.(containerd_installed)) (b.(containerd_installed))
  && Bool.eqb (a.(kubernetes_installed)) (b.(kubernetes_installed))
  && String.eqb (a.(recommended_role)) (b.(recommended_role))
  && Z.eqb (a.(recommended_priority)) (b.(recommended_priority)).

(** [store[i] == store[j]]: one object is equal to itself; two objects are
    compared by [__eq__]. *)
Definition node_eq (store : list NodeCapabilities) (i j : nat) : bool :=
  Nat.eqb i j || NodeCapabilities_eqb (deref store i) (deref store j).

(** The locals of [build_deployment_plan] once the roles are selected: the
    store after the fallback assignment, and the three selections as objects
    of the store. *)
Record Selection : Type := mkSelection {
  sel_store : list NodeCapabilities;
  sel_sorted_nodes : list nat;
  sel_master_node : nat;
  sel_gpu_workers : list nat;
  sel_regular_workers : list nat
}.

Definition has_role (role : string) (store : list NodeCapabilities) (i : nat)
  : bool :=
  String.eqb (recommended_role (deref store i)) role.

(** [x.recommended_priority] of the sort key. *)
Definition priority_of (store : list NodeCapabilities) (i : nat) : Z :=
  recommended_priority (deref store i).

(** [sorted(self.nodes, key=lambda x: x.recommended_priority, reverse=True)],
    as objects of the store. *)
Definition sorted_nodes (store : list NodeCapabilities) : list nat :=
  sorted_reverse (priority_of store) (refs store).

(** [master_node.recommended_role = "master"]: the assignment reaches the
    store, and with it every list that holds the object. *)
Definition flagged (store : list NodeCapabilities) (m : nat)
  : list NodeCapabilities :=
  <[m := set_recommended_role "master" (deref store m)]> store.

Definition select_roles (store : list NodeCapabilities) : result Selection :=
  let sorted_nodes := sorted_nodes store in
  let master_node := List.find (has_role "master" store) sorted_nodes in
  let selected :=
    match master_node with
    | Some m => OK (m, store)
    | None =>
        match sorted_nodes with
        | [] => Raise IndexError
        | m :: _ => OK (m, flagged store m)
        end
    end in
  match selected with
  | Raise e => Raise e
  | OK (master_node, store) =>
      let gpu_workers :=
        List.filter (has_role "gpu_worker" store) sorted_nodes in
      let regular_workers :=
        List.filter
          (fun i => has_role "worker" store i
                    && negb (node_eq store i master_node))
          sorted_nodes in
      OK (mkSelection store sorted_nodes master_node gpu_workers
            regular_workers)
  end.

Definition sum_int (l : list Z) : Z := fold_left Z.add l 0.

(** [sum] starts from the integer [0]; adding the first float converts it. *)
Definition sum_float (l : list float) : float :=
  fold_left PrimFloat.add l 0%float.

Definition _generate_recommendations_summary (store : list NodeCapabilities)
  : list string :=
  let total_gpus := sum_int (map gpu_count store) in
  let total_memory := sum_float (map total_memory_gb store) in
  let total_storage := sum_float (map total_storage_gb store) in
  let fast_storage := sum_float (map fast_storage_gb store) in
  [ if Z.eqb total_gpus 0 then
      "⚠️  No GPUs detected. RAG performance will be limited to CPU-only operations."
    else if Z.ltb total_gpus 2 then
      "⚠️  Limited GPU resources. Consider adding more GPU nodes for production workloads."
    else
      "✅ Sufficient GPU resources detected for production RAG workloads.";
    if PrimFloat.ltb total_memory 64%float then
      "⚠️  Limited memory resources. Consider adding more RAM for optimal performance."
    else "✅ Sufficient memory resources detected.";
    if PrimFloat.ltb total_storage 500%float then
      "⚠️  Limited storage resources. Consider adding more storage for large datasets."
    else "✅ Sufficient storage resources detected.";
    if PrimFloat.ltb fast_storage 100%float then
      "⚠️  Limited fast storage (NVMe/SSD). Consider adding NVMe storage for better performance."
    else "✅ Sufficient fast storage detected." ]%string.

(** [now] is [datetime.now().isoformat()] at the time of the call. *)
Definition build_deployment_plan (now : string) (self : PreflightChecker)
  : result DeploymentPlan * PreflightChecker :=
  match select_roles (nodes self) with
  | Raise e => (Raise e, self)
  | OK sel =>
      let store := sel_store sel in
      let self := set_nodes store self in
      let plan :=
        mkDeploymentPlan now
          (plan_entry (deref store (sel_master_node sel)))
          (map (fun i => plan_entry (deref store i)) (sel_gpu_workers sel))
          (map (fun i => plan_entry (deref store i)) (sel_regular_workers sel))
          (mkSummary
             (Z.of_nat (length store))
             1
             (Z.of_nat (length (sel_gpu_workers sel)))
             (Z.of_nat (length (sel_regular_workers sel)))
             (sum_int (map gpu_count store))
             (sum_float (map total_gpu_memory_gb store))
             (sum_int (map cpu_cores store))
             (sum_float (map total_memory_gb store))
             (sum_float (map total_storage_gb store)))
          (_generate_recommendations_summary store) in
      let self := set_deployment_plan plan self in
      (OK plan, self)
  end.

(** ** The artifacts rendered from a plan *)

(** A missing dictionary key. *)
Inductive key_error : Set :=
| KeyError (key : string).

(** A Python [dict] with string keys, in insertion order: [d[k] = v]
    replaces the value of a key already present, in place, and appends a
    new key. *)
Fixpoint dict_set {V : Type} (k : string) (v : V) (d : list (string * V))
  : list (string * V) :=
  match d with
  | [] => [(k, v)]
  | (k', v') :: d' =>
      if String.eqb k' k then (k, v) :: d' else (k', v') :: dict_set k v d'
  end.

(** [d.get(k)] *)
Fixpoint dict_get {V : Type} (k : string) (d : list (string * V)) : option V :=
  match d with
  | [] => None
  | (k', v) :: d' => if String.eqb k' k then Some v else dict_get k d'
  end.

(** The variables of one host of the inventory; the control-plane host has
    no [gpu_enabled] key. *)
Record HostVars : Set := mkHostVars {
  ansible_host : string;
  ansible_user : string;
  ansible_ssh_private_key_file : string;
  ansible_ssh_common_args : string;
  gpu_enabled : option bool
}.

(** [inventory['all']['children']]. *)
Record Inventory : Set := mkInventory {
  kube_control_plane_hosts : list (string * HostVars);
  kube_node_hosts : list (string * HostVars);
  k8s_cluster_children : list string;
  k8s_cluster_vars : list (string * string)
}.

Definition host_vars (ip user key : string) (gpu : option bool) : HostVars :=
  mkHostVars ip user key "-o StrictHostKeyChecking=no" gpu.

(** The two loops of [generate_inventory] over the plan's worker lists. *)
Definition add_hosts (user key : string) (gpu : bool) (entries : list PlanEntry)
  (hosts : list (string * HostVars)) : list (string * HostVars) :=
  fold_left
    (fun hosts entry =>
       dict_set (pe_hostname entry)
         (host_vars (pe_ip_address entry) user key (Some gpu)) hosts)
    entries hosts.

(** The dictionary [generate_inventory] builds from a plan. *)
Definition inventory_of (user key : string) (plan : DeploymentPlan) : Inventory :=
  let master := plan_master_node plan in
  mkInventory
    [(pe_hostname master, host_vars (pe_ip_address master) user key None)]
    (add_hosts user key false (plan_worker_nodes plan)
       (add_hosts user key true (plan_gpu_worker_nodes plan) []))
    ["kube_control_plane"; "kube_node"]%string
    [("ansible_python_interpreter", "/usr/bin/python3");
     ("ansible_user", user);
     ("ansible_ssh_private_key_file", key);
     ("ansible_ssh_common_args", "-o StrictHostKeyChecking=no")]%string.

Section Inventory.

(** [yaml.dump(inventory, default_flow_style=False, sort_keys=False)]. *)
Variable yaml_dump : Inventory -> string.

(** [self.deployment_plan] is [{}] until a plan is built or loaded: the
    first lookup, of ['master_node'], then raises [KeyError]. *)
Definition generate_inventory (user : string) (self : PreflightChecker)
  : string + key_error :=
  match deployment_plan self with
  | None => inr (KeyError "master_node")
  | Some plan =>
      inl (yaml_dump (inventory_of user (checker_ssh_key_path self) plan))
  end.

End Inventory.

(** The dictionary [generate_kubespray_config] returns; the key
    [kube_controller_manager_extra_args] is present from ten nodes on, and
    holds [{'node-cidr-mask-size': '24'}]. *)
Record KubesprayConfig : Set := mkKubesprayConfig {
  kube_version : string;
  container_manager : string;
  network_plugin : string;
  dns_mode : string;
  helm_enabled : bool;
  metrics_server_enabled : bool;
  local_path_provisioner_enabled : bool;
  prometheus_enabled : bool;
  grafana_enabled : bool;
  nvidia_gpu_enabled : bool;
  nvidia_driver_enabled : bool;
  podsecuritypolicy_enabled : bool;
  rbac_enabled : bool;
  containerd_version : string;
  containerd_systemd_cgroup : bool;
  calico_version : string;
  calico_ipip_mode : string;
  calico_vxlan_mode : string;
  local_volume_provisioner_enabled : bool;
  local_volume_provisioner_storage_class : string;
  etcd_deployment_type : string;
  kube_controller_manager_extra_args : option (list (string * string))
}.

Definition generate_kubespray_config (plan : DeploymentPlan) : KubesprayConfig :=
  let total_nodes := sum_total_nodes (plan_summary plan) in
  let total_gpus := sum_total_gpus (plan_summary plan) in
  mkKubesprayConfig "v1.28.0" "containerd" "calico" "coredns"
    true true true true true
    (0 <? total_gpus) (0 <? total_gpus)
    false true
    "1.6.21" true
    "v3.26.0" "Always" "Never"
    true "local-path"
    (if 10 <=? total_nodes then "host" else "host")
    (if 10 <=? total_nodes then Some [("node-cidr-mask-size", "24")]%string
     else None).

(** A [requests] or [limits] block. *)
Record Resources : Set := mkResources {
  res_cpu : string;
  res_memory : string;
  res_gpu : string
}.

(** A service of the application: its replica count and resource blocks. *)
Record Service : Set := mkService {
  svc_replicas : Z;
  svc_requests : Resources;
  svc_limits : Resources
}.

(** The parts of the dictionary [generate_rag_config] returns that depend
    on the plan; the rest of it is constant. *)
Record RagConfig : Set := mkRagConfig {
  rag_server : Service;
  rag_playground_replicas : Z;
  ingestor_server_replicas : Z;
  milvus_gpu_enabled : bool;
  milvus_requests : Resources;
  milvus_limits : Resources;
  nemo_embedding : Service;
  nemo_reranking : Service;
  nemo_llm : Service
}.

Definition generate_rag_config (plan : DeploymentPlan) : RagConfig :=
  let total_gpus := sum_total_gpus (plan_summary plan) in
  let gpu_worker_count := Z.of_nat (length (plan_gpu_worker_nodes plan)) in
  let gpu := if 0 <? total_gpus then "1"%string else "0"%string in
  let small := mkService (Z.max 1 gpu_worker_count)
                 (mkResources "500m" "2Gi" gpu) (mkResources "2000m" "8Gi" gpu) in
  let large := mkService (Z.max 1 gpu_worker_count)
                 (mkResources "1000m" "4Gi" gpu) (mkResources "4000m" "16Gi" gpu) in
  mkRagConfig small 1 1
    (0 <? total_gpus)
    (mkResources "1000m" "4Gi" gpu) (mkResources "4000m" "16Gi" gpu)
    small small large.

(** ** Auxiliary notions and sample inputs *)

(** A bare host with four GPUs and no other capacity: score 20. *)
Definition gpu_only_node : NodeCapabilities :=
  set_gpu_count 4 (NodeCapabilities_init "gpu-0" "10.0.0.7" "ubuntu" "id_rsa").

(** One facet of [n] raised, every other field kept: [n'] is the result. *)
Inductive facet_raised (n n' : NodeCapabilities) : Prop :=
| raised_cpu_cores (v : Z) :
    cpu_cores n <= v -> n' = set_cpu_cores v n -> facet_raised n n'
| raised_total_memory_gb (v : float) :
    (total_memory_gb n <=? v)%float = true ->
    n' = set_total_memory_gb v n -> facet_raised n n'
| raised_fast_storage_gb (v : float) :
    (fast_storage_gb n <=? v)%float = true ->
    n' = set_fast_storage_gb v n -> facet_raised n n'
| raised_network_speed_gbps (v : float) :
    (network_speed_gbps n <=? v)%float = true ->
    n' = set_network_speed_gbps v n -> facet_raised n n'
| raised_total_gpu_memory_gb (v : float) :
    0 < gpu_count n ->
    (total_gpu_memory_gb n <=? v)%float = true ->
    n' = set_total_gpu_memory_gb v n -> facet_raised n n'.

(** A host with 16 cores and 64 GB of memory and no GPU: score 20, role
    [master]. *)
Definition cpu_node (host ip : string) : NodeCapabilities :=
  _generate_recommendations
    (set_total_memory_gb 64
       (set_cpu_cores 16 (NodeCapabilities_init host ip "ubuntu" "id_rsa"))).

Definition two_cpu_nodes : list NodeCapabilities :=
  [cpu_node "node-a" "10.0.0.1"; cpu_node "node-b" "10.0.0.2"].

(** Three hosts that all carry GPUs, as the scorer leaves them: scores 20,
    35 and 35. *)
Definition gpu_node (host ip : string) (memory : float) : NodeCapabilities :=
  _generate_recommendations
    (set_total_gpu_memory_gb memory
       (set_gpu_count 2 (NodeCapabilities_init host ip "ubuntu" "id_rsa"))).

Definition all_gpu_nodes : list NodeCapabilities :=
  [gpu_node "gpu-a" "10.0.1.1" 0; gpu_node "gpu-b" "10.0.1.2" 80;
   gpu_node "gpu-c" "10.0.1.3" 96].

(** A host the scorer gave no points and the role [worker]. *)
Definition weak_node : NodeCapabilities :=
  _generate_recommendations
    (NodeCapabilities_init "node-a" "10.0.0.1" "ubuntu" "id_rsa").

(** The fields that say which host a node is. *)
Definition identity (n : NodeCapabilities) : string * string * string * string :=
  (hostname n, ip_address n, username n, ssh_key_path n).

(** The dictionary of a node no probe has touched. *)
Definition default_dict : NodeDict :=
  mkNodeDict 0 EmptyString 0%float 0%float 0%float [] 0%float 0%float
    [] 0%float 0 [] EmptyString 0%float EmptyString EmptyString EmptyString
    false false false "worker" 1.

(** A fleet of two: the first host accepts connections and prints nothing,
    the second cannot be reached. *)
Definition quiet_host : Remote :=
  mkRemote (fun _ => true) (fun _ => Some EmptyString).

Definition down_host : Remote :=
  mkRemote (fun _ => false) (fun _ => None).

Definition two_host_net (ip user key : string) : Remote :=
  if String.eqb ip "10.0.0.1" then quiet_host else down_host.

Definition two_hosts : list NodeDescriptor :=
  [mkNodeDescriptor "node-a" "10.0.0.1" "ubuntu";
   mkNodeDescriptor "node-b" "10.0.0.2" "ubuntu"].

(** [int] and [float] raise on the empty text; no document is decoded. *)
Definition no_int (_ : string) : option Z := None.
Definition no_float (_ : string) : option float := None.
Definition no_lsblk (_ : string) : option (list BlockDevice) := None.
Definition no_ip (_ : string) : option (list IpInterface) := None.

Definition two_host_run
  : result (list NodeCapabilities) * PreflightChecker :=
  discover_nodes no_int no_float no_lsblk no_ip two_host_net [1%nat; 0%nat]
    two_hosts (PreflightChecker_init "id_rsa").

(** [device_type == 'disk'] *)
Definition is_disk (device : BlockDevice) : bool :=
  String.eqb (bd_type device) "disk".

Definition lsblk_command : string :=
  "lsblk -d -o NAME,SIZE,TYPE,MOUNTPOINT,ROTA --json".

(** A host whose [lsblk] lists one loop device of 4G and one rotating disk
    of 100G. The text stands for the JSON document [lsblk] prints;
    [sample_float] reads the two sizes as [float] does. *)
Definition lsblk_text : string := "blockdevices: loop0 4G loop, sda 100G disk".

Definition loop_and_disk : list BlockDevice :=
  [mkBlockDevice "loop0" "4G" "loop" JNull (JStr "0");
   mkBlockDevice "sda" "100G" "disk" JNull (JStr "1")].

Definition sample_lsblk (text : string) : option (list BlockDevice) :=
  if String.eqb text lsblk_text then Some loop_and_disk else None.

Definition sample_float (text : string) : option float :=
  if String.eqb text "4" then Some 4%float
  else if String.eqb text "100" then Some 100%float
  else None.

Definition storage_host : Remote :=
  mkRemote (fun _ => true)
    (fun command =>
       if String.eqb command lsblk_command then Some lsblk_text
       else Some EmptyString).

Definition storage_probed : NodeCapabilities :=
  _discover_storage_info sample_float sample_lsblk storage_host
    (NodeCapabilities_init "node-a" "10.0.0.1" "ubuntu" "id_rsa").

(** The three nodes of the specification's first scenario, before scoring:
    two GPUs of 48 GB each; 32 cores and 64 GB of memory; 4 cores and 8 GB. *)
Definition scenario_nodes : list NodeCapabilities :=
  map _generate_recommendations
    [set_total_gpu_memory_gb 96
       (set_gpu_count 2 (NodeCapabilities_init "node1" "10.0.2.1" "ubuntu" "id_rsa"));
     set_total_memory_gb 64
       (set_cpu_cores 32 (NodeCapabilities_init "node2" "10.0.2.2" "ubuntu" "id_rsa"));
     set_total_memory_gb 8
       (set_cpu_cores 4 (NodeCapabilities_init "node3" "10.0.2.3" "ubuntu" "id_rsa"))].

(** The single node of its third scenario: 8 cores, 16 GB, no GPU. *)
Definition single_node : list NodeCapabilities :=
  [_generate_recommendations
     (set_total_memory_gb 16
        (set_cpu_cores 8 (NodeCapabilities_init "node1" "10.0.2.1" "ubuntu" "id_rsa")))].

(** The three roles the scorer assigns. *)
Definition valid_role (role : string) : Prop :=
  role = "gpu_worker"%string \/ role = "master"%string \/ role = "worker"%string.

(** How many nodes of a store carry a role. *)
Definition count_role (role : string) (store : list NodeCapabilities) : nat :=
  length (List.filter (has_role role store) (refs store)).

(** The points of the four axes that do not depend on GPUs. *)
Definition axis_points (n : NodeCapabilities) : list Z :=
  [cpu_scoring n; memory_scoring n; storage_scoring n; network_scoring n].

(** A node with the fields one probe writes put back to their defaults:
    two nodes that agree on it differ in those fields at most. *)
Definition without_cpu (n : NodeCapabilities) : NodeCapabilities :=
  set_cpu_frequency 0%float (set_cpu_model EmptyString (set_cpu_cores 0 n)).

Definition without_memory (n : NodeCapabilities) : NodeCapabilities :=
  set_available_memory_gb 0%float (set_total_memory_gb 0%float n).

Definition without_storage (n : NodeCapabilities) : NodeCapabilities :=
  set_fast_storage_gb 0%float
    (set_total_storage_gb 0%float (set_storage_devices [] n)).

Definition without_gpu (n : NodeCapabilities) : NodeCapabilities :=
  set_gpu_count 0 (set_total_gpu_memory_gb 0%float (set_gpu_devices [] n)).

Definition without_network (n : NodeCapabilities) : NodeCapabilities :=
  set_network_speed_gbps 0%float
    (set_primary_interface EmptyString (set_network_interfaces [] n)).

Definition without_os (n : NodeCapabilities) : NodeCapabilities :=
  set_kernel_version EmptyString
    (set_os_version EmptyString (set_os_name EmptyString n)).

Definition without_runtime (n : NodeCapabilities) : NodeCapabilities :=
  set_containerd_installed false (set_docker_installed false n).

Definition without_kubernetes (n : NodeCapabilities) : NodeCapabilities :=
  set_kubernetes_installed false n.

Definition without_recommendation (n : NodeCapabilities) : NodeCapabilities :=
  set_recommended_priority 0 (set_recommended_role EmptyString n).

(** The kind the storage loop records for a device of type [disk]. *)
Definition storage_kind (device : BlockDevice) : string :=
  if Str.startswith "nvme" (bd_name device) then "nvme"
  else if jscalar_is "0" (bd_rota device) then "ssd"
  else bd_type device.

(** The record the storage loop appends for a device of type [disk]. *)
Definition storage_record (py_float : string -> option float)
  (device : BlockDevice) : StorageDevice :=
  mkStorageDevice (bd_name device) (_parse_size_to_gb py_float (bd_size device))
    (storage_kind device) (bd_mountpoint device)
    (jscalar_is "1" (bd_rota device)).

(** [kind != 'disk']: the record is of an NVMe or a solid-state device. *)
Definition is_fast (device : StorageDevice) : bool :=
  negb (String.eqb (sd_type device) "disk").

(** What the network probe may do to a node [n], giving [n']: it appends
    interfaces, none of them the loopback; a primary interface already set
    stays; otherwise the primary interface is the first appended interface
    that has an address, with its speed, if there is one. *)
Definition network_outcome (n n' : NodeCapabilities) : Prop :=
  exists new,
    network_interfaces n' = network_interfaces n ++ new
    /\ Forall (fun i => ni_name i <> "lo"%string /\ ni_name i <> EmptyString)
         new
    /\ (primary_interface n <> EmptyString ->
        primary_interface n' = primary_interface n
        /\ network_speed_gbps n' = network_speed_gbps n)
    /\ (primary_interface n = EmptyString ->
        (primary_interface n' = EmptyString
         /\ network_speed_gbps n' = network_speed_gbps n
         /\ Forall (fun i => ni_ip_addresses i = []) new)
        \/ exists l1 i l2,
             new = l1 ++ i :: l2
             /\ Forall (fun i => ni_ip_addresses i = []) l1
             /\ ni_ip_addresses i <> []
             /\ primary_interface n' = ni_name i
             /\ network_speed_gbps n' = ni_speed_gbps i).

(** The labels [_classify_gpu] returns. *)
Definition gpu_labels : list string :=
  ["A100"; "H100"; "V100"; "RTX4090"; "RTX4080"; "M6000"; "L40"; "T4"; "L4";
   "RTX6000"; "Other"]%string.

(** A cluster of one node, which carries two GPUs. *)
Definition lone_gpu_node : list NodeCapabilities :=
  [gpu_node "gpu-a" "10.0.1.1" 80].

(** * Properties *)

(** ** Text helpers on sample input *)

Example strip_sample : Str.strip "  32 " = "32"%string.
Proof. reflexivity. Qed.

Example split_sample :
  Str.split ", " "NVIDIA A100, 81920, 0" = ["NVIDIA A100"; "81920"; "0"]%string.
Proof. reflexivity. Qed.

Example split1_sample :
  Str.split1 "=" "NAME=a=b" = ["NAME"; "a=b"]%string.
Proof. reflexivity. Qed.

Example endswith_sample :
  Str.endswith "G" (Str.upper "1.8g") = true
  /\ Str.drop_last "1.8G" = "1.8"%string.
Proof. split; reflexivity. Qed.

Example classify_gpu_sample :
  _classify_gpu "NVIDIA A100-SXM4-80GB" = "A100"%string
  /\ _classify_gpu "Tesla T4" = "T4"%string.
Proof. split; reflexivity. Qed.

(** ** Order on floats *)

Lemma SFleb_trans (x y z : spec_float) :
  SFleb x y = true -> SFleb y z = true -> SFleb x z = true.
Proof.
  unfold SFleb, SFcompare.
  destruct x as [sx|sx| |sx mx ex], y as [sy|sy| |sy my ey],
           z as [sz|sz| |sz mz ez];
    repeat match goal with s : bool |- _ => destruct s end;
    try congruence; try reflexivity.
  all: change (Pos.compare_cont Eq) with Pos.compare.
  all: destruct (Z.compare_spec ex ey), (Z.compare_spec ey ez),
         (Z.compare_spec ex ez); try congruence; try lia; subst.
  all: destruct (Pos.compare_spec mx my), (Pos.compare_spec my mz),
         (Pos.compare_spec mx mz); simpl; try congruence; try lia.
Qed.

Lemma float_leb_trans (a b c : float) :
  (a <=? b)%float = true -> (b <=? c)%float = true -> (a <=? c)%float = true.
Proof. rewrite !leb_spec. apply SFleb_trans. Qed.

(** ** The scorer *)

(** A threshold reached by a value is reached by every value above it. *)
Ltac float_tiers Hxy :=
  repeat match goal with
    | |- context [PrimFloat.leb ?t ?x] =>
        let E := fresh "E" in
        destruct (PrimFloat.leb t x) eqn:E
    end;
  try lia;
  exfalso;
  repeat match goal with
    | Hx : PrimFloat.leb ?t _ = true |- _ =>
        pose proof (float_leb_trans _ _ _ Hx Hxy); clear Hx
    end;
  congruence.

Lemma cpu_scoring_mono (n : NodeCapabilities) (v : Z) :
  cpu_cores n <= v ->
  cpu_scoring n <= cpu_scoring (set_cpu_cores v n).
Proof.
  intros Hxy. unfold cpu_scoring. simpl.
  repeat match goal with
    | |- context [?a <=? ?b] => destruct (Z.leb_spec a b)
    end; lia.
Qed.

Lemma memory_scoring_mono (n : NodeCapabilities) (v : float) :
  (total_memory_gb n <=? v)%float = true ->
  memory_scoring n <= memory_scoring (set_total_memory_gb v n).
Proof. intros Hxy. unfold memory_scoring. simpl. float_tiers Hxy. Qed.

Lemma storage_scoring_mono (n : NodeCapabilities) (v : float) :
  (fast_storage_gb n <=? v)%float = true ->
  storage_scoring n <= storage_scoring (set_fast_storage_gb v n).
Proof. intros Hxy. unfold storage_scoring. simpl. float_tiers Hxy. Qed.

Lemma network_scoring_mono (n : NodeCapabilities) (v : float) :
  (network_speed_gbps n <=? v)%float = true ->
  network_scoring n <= network_scoring (set_network_speed_gbps v n).
Proof. intros Hxy. unfold network_scoring. simpl. float_tiers Hxy. Qed.

Lemma gpu_scoring_mono (n : NodeCapabilities) (v : float) :
  (total_gpu_memory_gb n <=? v)%float = true ->
  gpu_scoring n <= gpu_scoring (set_total_gpu_memory_gb v n).
Proof.
  intros Hxy. unfold gpu_scoring. simpl.
  destruct (0 <? gpu_count n); [| lia].
  float_tiers Hxy.
Qed.

Lemma recommended_priority_scored (n : NodeCapabilities) :
  recommended_priority (_generate_recommendations n) = priority_score n.
Proof. reflexivity. Qed.

Lemma priority_score_bounds (n : NodeCapabilities) :
  0 <= priority_score n <= 75.
Proof.
  unfold priority_score, cpu_scoring, memory_scoring, storage_scoring,
    network_scoring, gpu_scoring.
  repeat match goal with
    | |- context [if ?b then _ else _] => destruct b
    end; lia.
Qed.

(** The roles the scorer assigns. *)
Lemma _generate_recommendations_role (n : NodeCapabilities) :
  recommended_role (_generate_recommendations n) =
    if 0 <? gpu_count n then "gpu_worker"%string
    else if 15 <=? priority_score n then "master"%string
    else "worker"%string.
Proof.
  unfold _generate_recommendations.
  destruct (0 <? gpu_count n); [reflexivity |].
  destruct (15 <=? priority_score n); reflexivity.
Qed.

(** C5. For every node the scorer processes, a positive [gpu_count] gives
    the role [gpu_worker], whatever the priority score is. *)
Theorem gpu_count_positive_gives_gpu_worker (n : NodeCapabilities) :
  0 < gpu_count n ->
  recommended_role (_generate_recommendations n) = "gpu_worker"%string.
Proof.
  intros Hgpu. rewrite _generate_recommendations_role.
  apply Z.ltb_lt in Hgpu. rewrite Hgpu. reflexivity.
Qed.

Lemma gpu_count_positive_gives_gpu_worker_witness :
  0 < gpu_count gpu_only_node
  /\ recommended_role (_generate_recommendations gpu_only_node)
     = "gpu_worker"%string.
Proof.
  split; [reflexivity |].
  apply (gpu_count_positive_gives_gpu_worker gpu_only_node). reflexivity.
Defined.

(** C6. Scoring is monotonic per axis: raising one of [cpu_cores],
    [total_memory_gb], [fast_storage_gb], [network_speed_gbps] or (with
    [gpu_count > 0]) [total_gpu_memory_gb], the other fields fixed, never
    lowers the priority the scorer computes. *)
Theorem scoring_monotonic_per_axis (n n' : NodeCapabilities) :
  facet_raised n n' ->
  recommended_priority (_generate_recommendations n)
  <= recommended_priority (_generate_recommendations n').
Proof.
  rewrite !recommended_priority_scored.
  intros [v Hle ->|v Hle ->|v Hle ->|v Hle ->|v _ Hle ->];
    unfold priority_score.
  - pose proof (cpu_scoring_mono n v Hle).
    change (memory_scoring (set_cpu_cores v n)) with (memory_scoring n).
    change (storage_scoring (set_cpu_cores v n)) with (storage_scoring n).
    change (network_scoring (set_cpu_cores v n)) with (network_scoring n).
    change (gpu_scoring (set_cpu_cores v n)) with (gpu_scoring n).
    lia.
  - pose proof (memory_scoring_mono n v Hle).
    change (cpu_scoring (set_total_memory_gb v n)) with (cpu_scoring n).
    change (storage_scoring (set_total_memory_gb v n)) with (storage_scoring n).
    change (network_scoring (set_total_memory_gb v n)) with (network_scoring n).
    change (gpu_scoring (set_total_memory_gb v n)) with (gpu_scoring n).
    lia.
  - pose proof (storage_scoring_mono n v Hle).
    change (cpu_scoring (set_fast_storage_gb v n)) with (cpu_scoring n).
    change (memory_scoring (set_fast_storage_gb v n)) with (memory_scoring n).
    change (network_scoring (set_fast_storage_gb v n)) with (network_scoring n).
    change (gpu_scoring (set_fast_storage_gb v n)) with (gpu_scoring n).
    lia.
  - pose proof (network_scoring_mono n v Hle).
    change (cpu_scoring (set_network_speed_gbps v n)) with (cpu_scoring n).
    change (memory_scoring (set_network_speed_gbps v n)) with (memory_scoring n).
    change (storage_scoring (set_network_speed_gbps v n)) with (storage_scoring n).
    change (gpu_scoring (set_network_speed_gbps v n)) with (gpu_scoring n).
    lia.
  - pose proof (gpu_scoring_mono n v Hle).
    change (cpu_scoring (set_total_gpu_memory_gb v n)) with (cpu_scoring n).
    change (memory_scoring (set_total_gpu_memory_gb v n)) with (memory_scoring n).
    change (storage_scoring (set_total_gpu_memory_gb v n)) with (storage_scoring n).
    change (network_scoring (set_total_gpu_memory_gb v n)) with (network_scoring n).
    lia.
Qed.

Lemma scoring_monotonic_per_axis_witness :
  recommended_priority (_generate_recommendations gpu_only_node)
  <= recommended_priority
       (_generate_recommendations (set_total_gpu_memory_gb 80 gpu_only_node)).
Proof.
  apply (scoring_monotonic_per_axis gpu_only_node
           (set_total_gpu_memory_gb 80 gpu_only_node)).
  apply (raised_total_gpu_memory_gb _ _ 80%float);
    [reflexivity | reflexivity | reflexivity].
Defined.

(** ** The stable decreasing sort *)

Section SortedReverseFacts.

Context {A : Type} (key : A -> Z).

Lemma insert_reverse_perm (x : A) (l : list A) :
  Permutation (insert_reverse key x l) (x :: l).
Proof.
  induction l as [|y l IH]; simpl; [reflexivity |].
  destruct (key x <? key y); [| reflexivity].
  rewrite IH. apply perm_swap.
Qed.

Lemma sorted_reverse_perm (l : list A) :
  Permutation (sorted_reverse key l) l.
Proof.
  induction l as [|x l IH]; simpl; [reflexivity |].
  rewrite insert_reverse_perm. apply perm_skip, IH.
Qed.

Lemma sorted_reverse_length (l : list A) :
  length (sorted_reverse key l) = length l.
Proof. apply Permutation_length, sorted_reverse_perm. Qed.

Lemma sorted_reverse_In (x : A) (l : list A) :
  In x (sorted_reverse key l) <-> In x l.
Proof.
  split; apply Permutation_in;
    [| symmetry]; apply sorted_reverse_perm.
Qed.

Lemma insert_reverse_sorted (x : A) (l : list A) :
  StronglySorted (fun a b => key b <= key a) l ->
  StronglySorted (fun a b => key b <= key a) (insert_reverse key x l).
Proof.
  induction 1 as [|y l Hs IH Hy]; simpl.
  - constructor; constructor.
  - destruct (Z.ltb_spec (key x) (key y)) as [Hlt | Hge].
    + constructor; [exact IH |].
      rewrite List.Forall_forall in *. intros z Hz.
      apply (Permutation_in _ (insert_reverse_perm x l)) in Hz.
      destruct Hz as [<- | Hz]; [lia | auto].
    + constructor; [constructor; assumption |].
      constructor; [lia |].
      rewrite List.Forall_forall in *. intros z Hz.
      specialize (Hy z Hz). lia.
Qed.

Lemma sorted_reverse_sorted (l : list A) :
  StronglySorted (fun a b => key b <= key a) (sorted_reverse key l).
Proof.
  induction l as [|x l IH]; simpl; [constructor |].
  apply insert_reverse_sorted, IH.
Qed.

(** Stability: among the elements of one key, the order of the input. *)
Lemma insert_reverse_stable (k : Z) (x : A) (l : list A) :
  StronglySorted (fun a b => key b <= key a) l ->
  List.filter (fun a => key a =? k) (insert_reverse key x l)
  = List.filter (fun a => key a =? k) (x :: l).
Proof.
  induction 1 as [|y l Hs IH Hy]; [reflexivity |].
  cbn [insert_reverse].
  destruct (Z.ltb_spec (key x) (key y)) as [Hlt | Hge]; [| reflexivity].
  cbn [List.filter] in *. rewrite IH.
  destruct (Z.eqb_spec (key x) k) as [Hx | Hx];
    destruct (Z.eqb_spec (key y) k) as [Hy' | Hy']; try reflexivity.
  lia.
Qed.

Lemma sorted_reverse_stable (k : Z) (l : list A) :
  List.filter (fun a => key a =? k) (sorted_reverse key l)
  = List.filter (fun a => key a =? k) l.
Proof.
  induction l as [|x l IH]; [reflexivity |].
  cbn [sorted_reverse fold_right].
  rewrite insert_reverse_stable by apply sorted_reverse_sorted.
  cbn [List.filter]. fold (sorted_reverse key l). rewrite IH. reflexivity.
Qed.

(** The first element of the result is the first element of the input
    among those of largest key. *)
Lemma sorted_reverse_head (l : list A) (m : A) (s : list A) :
  sorted_reverse key l = m :: s ->
  exists l1 l2,
    l = l1 ++ m :: l2
    /\ Forall (fun x => key x < key m) l1
    /\ Forall (fun x => key x <= key m) l2.
Proof.
  revert m s. induction l as [|x l IH]; intros m s; [discriminate |].
  cbn [sorted_reverse fold_right]. fold (sorted_reverse key l).
  destruct (sorted_reverse key l) as [|y s'] eqn:Hs.
  - pose proof (sorted_reverse_length l) as Hlen. rewrite Hs in Hlen.
    destruct l; [| discriminate].
    simpl. intros [= <- <-]. exists [], []. repeat split; constructor.
  - cbn [insert_reverse].
    destruct (Z.ltb_spec (key x) (key y)) as [Hlt | Hge].
    + intros [= <- <-].
      destruct (IH y s' eq_refl) as (l1 & l2 & -> & H1 & H2).
      exists (x :: l1), l2. repeat split; [| assumption].
      constructor; assumption.
    + intros [= <- <-].
      exists [], l. repeat split; [constructor |].
      destruct (IH y s' eq_refl) as (l1 & l2 & -> & H1 & H2).
      rewrite List.Forall_forall in *. intros z Hz.
      apply in_app_or in Hz. destruct Hz as [Hz | [<- | Hz]].
      * specialize (H1 z Hz). lia.
      * lia.
      * specialize (H2 z Hz). lia.
Qed.

Lemma sorted_reverse_nil (l : list A) :
  sorted_reverse key l = [] -> l = [].
Proof.
  intros H. pose proof (sorted_reverse_length l) as Hlen.
  rewrite H in Hlen. destruct l; [reflexivity | discriminate].
Qed.

(** The result depends on the keys only. *)
Lemma insert_reverse_ext (key' : A -> Z) (x : A) (l : list A) :
  key x = key' x ->
  (forall y, In y l -> key y = key' y) ->
  insert_reverse key x l = insert_reverse key' x l.
Proof.
  intros Hx. induction l as [|y l IH]; intros Hl; [reflexivity |].
  cbn [insert_reverse].
  rewrite Hx, (Hl y) by (left; reflexivity).
  rewrite IH by (intros; apply Hl; right; assumption).
  reflexivity.
Qed.

Lemma sorted_reverse_ext (key' : A -> Z) (l : list A) :
  (forall x, In x l -> key x = key' x) ->
  sorted_reverse key l = sorted_reverse key' l.
Proof.
  induction l as [|x l IH]; intros Hk; [reflexivity |].
  cbn [sorted_reverse fold_right].
  fold (sorted_reverse key l). fold (sorted_reverse key' l).
  rewrite <- IH by (intros; apply Hk; right; assumption).
  apply insert_reverse_ext; [apply Hk; left; reflexivity |].
  intros y Hy. apply Hk. right. apply sorted_reverse_In. exact Hy.
Qed.

End SortedReverseFacts.

(** ** The store *)

Lemma refs_In (store : list NodeCapabilities) (i : nat) :
  In i (refs store) <-> (i < length store)%nat.
Proof. unfold refs. rewrite in_seq. lia. Qed.

Lemma refs_NoDup (store : list NodeCapabilities) : List.NoDup (refs store).
Proof. apply seq_NoDup. Qed.

Lemma deref_lookup (store : list NodeCapabilities) (i : nat)
  (n : NodeCapabilities) :
  store !! i = Some n -> deref store i = n.
Proof. apply nth_lookup_Some. Qed.

Lemma lookup_deref (store : list NodeCapabilities) (i : nat) :
  (i < length store)%nat -> store !! i = Some (deref store i).
Proof.
  intros Hi. destruct (lookup_lt_is_Some_2 store i Hi) as [n Hn].
  rewrite Hn. f_equal. symmetry. apply deref_lookup, Hn.
Qed.

Lemma deref_insert_eq (store : list NodeCapabilities) (i : nat)
  (n : NodeCapabilities) :
  (i < length store)%nat -> deref (<[i := n]> store) i = n.
Proof. intros Hi. apply deref_lookup, list_lookup_insert_eq, Hi. Qed.

Lemma deref_insert_ne (store : list NodeCapabilities) (i j : nat)
  (n : NodeCapabilities) :
  i <> j -> deref (<[i := n]> store) j = deref store j.
Proof.
  intros Hij. unfold deref. rewrite !nth_lookup.
  rewrite list_lookup_insert_ne by exact Hij. reflexivity.
Qed.

Lemma refs_insert (store : list NodeCapabilities) (i : nat)
  (n : NodeCapabilities) :
  refs (<[i := n]> store) = refs store.
Proof. unfold refs. rewrite length_insert. reflexivity. Qed.

(** Assigning a role changes that field only. *)
Lemma set_recommended_role_id (n : NodeCapabilities) :
  set_recommended_role (recommended_role n) n = n.
Proof. destruct n; reflexivity. Qed.

Lemma NodeCapabilities_eqb_role (a b : NodeCapabilities) :
  NodeCapabilities_eqb a b = true -> recommended_role a = recommended_role b.
Proof.
  unfold NodeCapabilities_eqb. intros H.
  repeat match goal with
    | H : _ && _ = true |- _ => apply andb_prop in H; destruct H
    end.
  apply String.eqb_eq. assumption.
Qed.

(** The comparison [node != master_node] never removes a node of role
    [worker]: the selected node has role [master] by then. *)
Lemma node_eq_other_role (store : list NodeCapabilities) (i m : nat) :
  has_role "worker" store i = true ->
  has_role "master" store m = true ->
  node_eq store i m = false.
Proof.
  unfold has_role, node_eq. intros Hi Hm.
  apply String.eqb_eq in Hi, Hm.
  apply orb_false_intro.
  - apply Nat.eqb_neq. intros ->. congruence.
  - destruct (NodeCapabilities_eqb _ _) eqn:E; [| reflexivity].
    apply NodeCapabilities_eqb_role in E. congruence.
Qed.

(** ** The planner *)

Lemma sorted_nodes_In (store : list NodeCapabilities) (i : nat) :
  In i (sorted_nodes store) <-> (i < length store)%nat.
Proof. unfold sorted_nodes. rewrite sorted_reverse_In. apply refs_In. Qed.

Lemma sorted_nodes_NoDup (store : list NodeCapabilities) :
  List.NoDup (sorted_nodes store).
Proof.
  apply (Permutation_NoDup (l := refs store)); [| apply refs_NoDup].
  symmetry. apply sorted_reverse_perm.
Qed.

Lemma flagged_length (store : list NodeCapabilities) (m : nat) :
  length (flagged store m) = length store.
Proof. apply length_insert. Qed.

Lemma flagged_master (store : list NodeCapabilities) (m : nat) :
  (m < length store)%nat -> has_role "master" (flagged store m) m = true.
Proof.
  intros Hm. unfold has_role, flagged.
  rewrite deref_insert_eq by exact Hm. reflexivity.
Qed.

Lemma flagged_other (store : list NodeCapabilities) (m i : nat) :
  i <> m -> deref (flagged store m) i = deref store i.
Proof. intros Hne. apply deref_insert_ne. congruence. Qed.

Lemma flagged_priority (store : list NodeCapabilities) (m i : nat) :
  priority_of (flagged store m) i = priority_of store i.
Proof.
  unfold priority_of. destruct (Nat.eq_dec i m) as [-> | Hne].
  - destruct (Nat.lt_ge_cases m (length store)) as [Hm | Hm].
    + unfold flagged. rewrite deref_insert_eq by exact Hm. reflexivity.
    + unfold flagged. rewrite list_insert_ge by exact Hm. reflexivity.
  - rewrite flagged_other by exact Hne. reflexivity.
Qed.

Lemma flagged_id (store : list NodeCapabilities) (m : nat) :
  has_role "master" store m = true -> flagged store m = store.
Proof.
  unfold has_role, flagged. intros Hm. apply String.eqb_eq in Hm.
  rewrite <- Hm, set_recommended_role_id.
  destruct (Nat.lt_ge_cases m (length store)) as [Hlt | Hge].
  - apply list_insert_id, lookup_deref, Hlt.
  - apply list_insert_ge, Hge.
Qed.

Lemma sorted_nodes_flagged (store : list NodeCapabilities) (m : nat) :
  sorted_nodes (flagged store m) = sorted_nodes store.
Proof.
  unfold sorted_nodes, flagged. rewrite refs_insert.
  apply sorted_reverse_ext. intros i _. apply flagged_priority.
Qed.

(** What [select_roles] returns, case by case. *)
Lemma select_roles_found (store : list NodeCapabilities) (m : nat) :
  List.find (has_role "master" store) (sorted_nodes store) = Some m ->
  select_roles store =
    OK (mkSelection store (sorted_nodes store) m
          (List.filter (has_role "gpu_worker" store) (sorted_nodes store))
          (List.filter
             (fun i => has_role "worker" store i && negb (node_eq store i m))
             (sorted_nodes store))).
Proof.
  intros Hfind. unfold select_roles. rewrite Hfind. reflexivity.
Qed.

Lemma select_roles_fallback (store : list NodeCapabilities) (m : nat)
  (rest : list nat) :
  List.find (has_role "master" store) (sorted_nodes store) = None ->
  sorted_nodes store = m :: rest ->
  select_roles store =
    OK (mkSelection (flagged store m) (sorted_nodes store) m
          (List.filter (has_role "gpu_worker" (flagged store m))
             (sorted_nodes store))
          (List.filter
             (fun i => has_role "worker" (flagged store m) i
                       && negb (node_eq (flagged store m) i m))
             (sorted_nodes store))).
Proof.
  intros Hfind Hsorted. unfold select_roles.
  rewrite Hfind, Hsorted. reflexivity.
Qed.

Lemma select_roles_empty : select_roles [] = Raise IndexError.
Proof. reflexivity. Qed.

Lemma filter_ext_In_bool {A : Type} (f g : A -> bool) (l : list A) :
  (forall x, In x l -> f x = g x) -> List.filter f l = List.filter g l.
Proof. apply List.filter_ext_in. Qed.

(** The selection in one statement: the store is the input with the
    selected node flagged, and the two worker lists are the nodes of role
    [gpu_worker] and [worker] in that store, in sorted order. *)
Lemma select_roles_OK (store : list NodeCapabilities) (sel : Selection) :
  select_roles store = OK sel ->
  let m := sel_master_node sel in
  (m < length store)%nat
  /\ sel_store sel = flagged store m
  /\ has_role "master" (sel_store sel) m = true
  /\ sel_sorted_nodes sel = sorted_nodes store
  /\ sel_gpu_workers sel
     = List.filter (has_role "gpu_worker" (sel_store sel)) (sorted_nodes store)
  /\ sel_regular_workers sel
     = List.filter (has_role "worker" (sel_store sel)) (sorted_nodes store)
  /\ (List.find (has_role "master" store) (sorted_nodes store) = Some m
      \/ List.find (has_role "master" store) (sorted_nodes store) = None
         /\ hd_error (sorted_nodes store) = Some m).
Proof.
  destruct (List.find (has_role "master" store) (sorted_nodes store))
    as [m|] eqn:Hfind.
  - rewrite (select_roles_found store m Hfind). intros [= <-].
    cbn [sel_store sel_master_node sel_sorted_nodes sel_gpu_workers
           sel_regular_workers].
    destruct (find_some _ _ Hfind) as [Hin Hrole].
    apply sorted_nodes_In in Hin.
    repeat split; try assumption; try reflexivity.
    + symmetry. apply flagged_id, Hrole.
    + apply filter_ext_In_bool. intros i _.
      destruct (has_role "worker" store i) eqn:Hw; [| reflexivity].
      rewrite (node_eq_other_role store i m Hw Hrole). reflexivity.
    + left. reflexivity.
  - destruct (sorted_nodes store) as [|m rest] eqn:Hsorted.
    + apply sorted_reverse_nil in Hsorted.
      unfold refs in Hsorted. destruct store; [| discriminate].
      rewrite select_roles_empty. discriminate.
    + assert (Hm : (m < length store)%nat).
      { apply sorted_nodes_In. rewrite Hsorted. left. reflexivity. }
      rewrite <- Hsorted in Hfind |- *.
      rewrite (select_roles_fallback store m rest) by assumption.
      intros [= <-].
      cbn [sel_store sel_master_node sel_sorted_nodes sel_gpu_workers
             sel_regular_workers].
      repeat split; try assumption; try reflexivity.
      * apply flagged_master, Hm.
      * apply filter_ext_In_bool. intros i _.
        destruct (has_role "worker" (flagged store m) i) eqn:Hw;
          [| reflexivity].
        rewrite (node_eq_other_role _ i m Hw (flagged_master store m Hm)).
        reflexivity.
      * right. rewrite Hsorted. split; reflexivity.
Qed.

Lemma select_roles_Raise (store : list NodeCapabilities) (e : exn) :
  select_roles store = Raise e -> store = [] /\ e = IndexError.
Proof.
  destruct (List.find (has_role "master" store) (sorted_nodes store))
    as [m|] eqn:Hfind.
  - rewrite (select_roles_found store m Hfind). discriminate.
  - destruct (sorted_nodes store) as [|m rest] eqn:Hsorted.
    + apply sorted_reverse_nil in Hsorted.
      unfold refs in Hsorted. destruct store; [| discriminate].
      rewrite select_roles_empty. intros [= <-]. split; reflexivity.
    + rewrite <- Hsorted in Hfind.
      rewrite (select_roles_fallback store m rest) by assumption.
      discriminate.
Qed.

Lemma select_roles_nonempty (store : list NodeCapabilities) :
  store <> [] -> exists sel, select_roles store = OK sel.
Proof.
  intros Hne. destruct (select_roles store) as [sel | e] eqn:E.
  - exists sel. reflexivity.
  - apply select_roles_Raise in E. destruct E as [-> _]. contradiction.
Qed.

(** The first node in sorted order has the largest priority, and is the
    first node of the store with that priority. *)
Lemma sorted_nodes_head (store : list NodeCapabilities) (m : nat)
  (rest : list nat) :
  sorted_nodes store = m :: rest ->
  (forall i, (i < length store)%nat ->
             priority_of store i <= priority_of store m)
  /\ (forall i, (i < m)%nat -> priority_of store i < priority_of store m).
Proof.
  intros Hsorted.
  destruct (sorted_reverse_head _ _ _ _ Hsorted) as (l1 & l2 & Hrefs & H1 & H2).
  rewrite List.Forall_forall in H1, H2.
  assert (Hlen : length l1 = m).
  { assert (Hlt : (length l1 < length store)%nat).
    { apply (f_equal (@length nat)) in Hrefs. unfold refs in Hrefs.
      rewrite length_seq, length_app in Hrefs. simpl in Hrefs. lia. }
    pose proof (lookup_seq_lt 0 (length store) (length l1) Hlt) as Hl.
    fold (refs store) in Hl. rewrite Hrefs in Hl.
    rewrite list_lookup_middle in Hl by reflexivity.
    injection Hl as ->. reflexivity. }
  split.
  - intros i Hi. apply refs_In in Hi. rewrite Hrefs in Hi.
    apply in_app_or in Hi. destruct Hi as [Hi | [<- | Hi]].
    + specialize (H1 i Hi). lia.
    + lia.
    + apply H2, Hi.
  - intros i Hi. apply H1.
    assert (Hlt : (i < length store)%nat).
    { apply (f_equal (@length nat)) in Hrefs. unfold refs in Hrefs.
      rewrite length_seq, length_app in Hrefs. simpl in Hrefs. lia. }
    pose proof (lookup_seq_lt 0 (length store) i Hlt) as Hl.
    fold (refs store) in Hl. rewrite Hrefs in Hl.
    rewrite lookup_app_l in Hl by lia.
    apply list_elem_of_In. apply list_elem_of_lookup. exists i. exact Hl.
Qed.

(** The three selections never overlap. *)
Lemma selection_disjoint (store : list NodeCapabilities) (sel : Selection) :
  select_roles store = OK sel ->
  ~ In (sel_master_node sel) (sel_gpu_workers sel)
  /\ ~ In (sel_master_node sel) (sel_regular_workers sel)
  /\ (forall i, In i (sel_gpu_workers sel) ->
                ~ In i (sel_regular_workers sel))
  /\ List.NoDup (sel_gpu_workers sel)
  /\ List.NoDup (sel_regular_workers sel).
Proof.
  intros Hsel.
  destruct (select_roles_OK store sel Hsel)
    as (Hm & Hstore & Hrole & _ & -> & -> & _).
  unfold has_role in *. apply String.eqb_eq in Hrole.
  repeat split.
  - rewrite filter_In. intros [_ H]. apply String.eqb_eq in H. congruence.
  - rewrite filter_In. intros [_ H]. apply String.eqb_eq in H. congruence.
  - intros i. rewrite !filter_In. intros [_ H1] [_ H2].
    apply String.eqb_eq in H1, H2. congruence.
  - apply List.NoDup_filter, sorted_nodes_NoDup.
  - apply List.NoDup_filter, sorted_nodes_NoDup.
Qed.

(** A node is in a worker selection exactly when the store after the
    selection gives it that role. *)
Lemma selection_members (store : list NodeCapabilities) (sel : Selection)
  (i : nat) :
  select_roles store = OK sel ->
  (In i (sel_gpu_workers sel) <->
     (i < length store)%nat /\ has_role "gpu_worker" (sel_store sel) i = true)
  /\ (In i (sel_regular_workers sel) <->
     (i < length store)%nat /\ has_role "worker" (sel_store sel) i = true).
Proof.
  intros Hsel.
  destruct (select_roles_OK store sel Hsel)
    as (_ & _ & _ & _ & -> & -> & _).
  rewrite !filter_In, !sorted_nodes_In. split; reflexivity.
Qed.

(** When the selected node is the only one of role [master], nothing is
    dropped. *)
Lemma selection_covers (store : list NodeCapabilities) (sel : Selection) :
  select_roles store = OK sel ->
  (forall i, (i < length store)%nat ->
     i = sel_master_node sel
     \/ has_role "gpu_worker" (sel_store sel) i = true
     \/ has_role "worker" (sel_store sel) i = true) ->
  forall i, (i < length store)%nat ->
    i = sel_master_node sel
    \/ In i (sel_gpu_workers sel)
    \/ In i (sel_regular_workers sel).
Proof.
  intros Hsel Hroles i Hi.
  destruct (selection_members store sel i Hsel) as [Hg Hw].
  destruct (Hroles i Hi) as [-> | [H | H]]; [left; reflexivity | |].
  - right; left. apply Hg. split; assumption.
  - right; right. apply Hw. split; assumption.
Qed.

(** C1. The plan does not partition every node set: of two nodes that
    both carry the role [master], the first in sorted order is selected as
    control plane and the second is in none of the three selections, so
    the union of the three is not the input node set. *)
Theorem second_master_node_dropped :
  map recommended_role two_cpu_nodes = ["master"; "master"]%string
  /\ exists sel,
       select_roles two_cpu_nodes = OK sel
       /\ sel_store sel = two_cpu_nodes
       /\ sel_master_node sel = 0%nat
       /\ sel_gpu_workers sel = []
       /\ sel_regular_workers sel = []
       /\ (1 < length two_cpu_nodes)%nat
       /\ 1%nat <> sel_master_node sel
       /\ ~ In 1%nat (sel_gpu_workers sel)
       /\ ~ In 1%nat (sel_regular_workers sel).
Proof.
  split; [reflexivity |].
  eexists. split; [reflexivity |]. cbn.
  repeat split; try reflexivity; try lia; intros [].
Qed.

(** C9. Planning over zero nodes raises ([IndexError], from
    [sorted_nodes[0]]) and leaves the checker without a plan; no empty plan
    is returned. *)
Theorem build_deployment_plan_empty_raises (now key : string)
  (old : option DeploymentPlan) :
  build_deployment_plan now (mkChecker key [] old)
  = (Raise IndexError, mkChecker key [] old).
Proof. reflexivity. Qed.

Lemma build_deployment_plan_OK (now : string) (self : PreflightChecker)
  (sel : Selection) :
  select_roles (nodes self) = OK sel ->
  exists plan,
    build_deployment_plan now self
    = (OK plan, set_deployment_plan plan (set_nodes (sel_store sel) self))
    /\ plan_timestamp plan = now
    /\ plan_master_node plan
       = plan_entry (deref (sel_store sel) (sel_master_node sel))
    /\ plan_gpu_worker_nodes plan
       = map (fun i => plan_entry (deref (sel_store sel) i))
           (sel_gpu_workers sel)
    /\ plan_worker_nodes plan
       = map (fun i => plan_entry (deref (sel_store sel) i))
           (sel_regular_workers sel).
Proof.
  intros Hsel. unfold build_deployment_plan. rewrite Hsel.
  eexists. split; [reflexivity |]. repeat split; reflexivity.
Qed.

(** A plan is returned exactly when there is a node. *)
Lemma build_deployment_plan_raises_iff (now : string) (self : PreflightChecker) :
  (exists e, fst (build_deployment_plan now self) = Raise e)
  <-> nodes self = [].
Proof.
  unfold build_deployment_plan.
  destruct (select_roles (nodes self)) as [sel | e] eqn:E; cbn.
  - split.
    + intros [e He]. discriminate.
    + intros Hnil. rewrite Hnil, select_roles_empty in E. discriminate.
  - apply select_roles_Raise in E. destruct E as [-> ->].
    split; [reflexivity | eauto].
Qed.

Lemma find_none_no_master (store : list NodeCapabilities) :
  Forall (fun n => recommended_role n <> "master"%string) store ->
  List.find (has_role "master" store) (sorted_nodes store) = None.
Proof.
  intros Hall.
  destruct (List.find _ _) as [m|] eqn:Hfind; [| reflexivity].
  destruct (find_some _ _ Hfind) as [Hin Hrole].
  apply sorted_nodes_In in Hin.
  unfold has_role in Hrole. apply String.eqb_eq in Hrole.
  rewrite Forall_lookup in Hall.
  specialize (Hall m _ (lookup_deref store m Hin)). contradiction.
Qed.

(** C7. When no input node has the role [master] (and there is a node),
    the planner selects the first node of highest priority, sets its role
    to [master] in the store, reports it as the plan's master node, and
    leaves it out of the GPU workers, whatever its [gpu_count] is. *)
Theorem fallback_selects_highest_priority (now : string)
  (self : PreflightChecker) :
  nodes self <> [] ->
  Forall (fun n => recommended_role n <> "master"%string) (nodes self) ->
  exists sel plan,
    select_roles (nodes self) = OK sel
    /\ build_deployment_plan now self
       = (OK plan, set_deployment_plan plan (set_nodes (sel_store sel) self))
    /\ let m := sel_master_node sel in
       (m < length (nodes self))%nat
       /\ (forall i, (i < length (nodes self))%nat ->
             priority_of (nodes self) i <= priority_of (nodes self) m)
       /\ (forall i, (i < m)%nat ->
             priority_of (nodes self) i < priority_of (nodes self) m)
       /\ sel_store sel = flagged (nodes self) m
       /\ deref (sel_store sel) m
          = set_recommended_role "master" (deref (nodes self) m)
       /\ plan_master_node plan
          = plan_entry (set_recommended_role "master" (deref (nodes self) m))
       /\ ~ In m (sel_gpu_workers sel)
       /\ ~ In m (sel_regular_workers sel)
       /\ (forall i, In i (sel_gpu_workers sel) <->
             (i < length (nodes self))%nat /\ i <> m
             /\ has_role "gpu_worker" (nodes self) i = true)
       /\ plan_gpu_worker_nodes plan
          = map (fun i => plan_entry (deref (nodes self) i))
              (sel_gpu_workers sel).
Proof.
  intros Hne Hall.
  destruct (select_roles_nonempty _ Hne) as [sel Hsel].
  destruct (build_deployment_plan_OK now self sel Hsel)
    as (plan & Hplan & _ & Hmaster & Hgpu & _).
  exists sel, plan. split; [exact Hsel |]. split; [exact Hplan |].
  destruct (select_roles_OK _ _ Hsel)
    as (Hm & Hstore & Hrole & _ & Hg & _ & Hcase).
  destruct (selection_disjoint _ _ Hsel) as (Hd1 & Hd2 & _).
  pose proof (find_none_no_master _ Hall) as Hnone.
  destruct Hcase as [Hfound | [_ Hhead]]; [congruence |].
  destruct (sorted_nodes (nodes self)) as [|m' rest] eqn:Hsorted;
    [discriminate |].
  injection Hhead as Hm'. subst m'.
  destruct (sorted_nodes_head _ _ _ Hsorted) as [Hmax Hfirst].
  assert (Hderef : deref (sel_store sel) (sel_master_node sel)
                   = set_recommended_role "master"
                       (deref (nodes self) (sel_master_node sel))).
  { rewrite Hstore. apply deref_insert_eq, Hm. }
  assert (Hmem : forall i, In i (sel_gpu_workers sel) <->
             (i < length (nodes self))%nat /\ i <> sel_master_node sel
             /\ has_role "gpu_worker" (nodes self) i = true).
  { intros i. destruct (selection_members _ _ i Hsel) as [Hmg _].
    rewrite Hmg. split.
    - intros [Hi Hr]. split; [exact Hi |].
      assert (Hnm : i <> sel_master_node sel).
      { intros ->. unfold has_role in Hr, Hrole.
        apply String.eqb_eq in Hr, Hrole. congruence. }
      split; [exact Hnm |].
      unfold has_role in *. rewrite Hstore in Hr.
      rewrite flagged_other in Hr by exact Hnm. exact Hr.
    - intros (Hi & Hnm & Hr). split; [exact Hi |].
      unfold has_role in *. rewrite Hstore.
      rewrite flagged_other by exact Hnm. exact Hr. }
  cbv zeta. repeat (split; [assumption |]).
  split; [rewrite Hmaster, Hderef; reflexivity |].
  repeat (split; [assumption |]).
  rewrite Hgpu. apply map_ext_in. intros i Hi.
  apply Hmem in Hi. destruct Hi as (_ & Hnm & _).
  rewrite Hstore, flagged_other by exact Hnm. reflexivity.
Qed.

Lemma fallback_selects_highest_priority_witness :
  exists sel plan,
    select_roles all_gpu_nodes = OK sel
    /\ fst (build_deployment_plan "2024-01-01T00:00:00"
              (mkChecker "id_rsa" all_gpu_nodes None)) = OK plan
    /\ sel_master_node sel = 1%nat
    /\ sel_gpu_workers sel = [2%nat; 0%nat]
    /\ pe_hostname (plan_master_node plan) = "gpu-b"%string
    /\ cap_recommended_role (pe_capabilities (plan_master_node plan))
       = "master"%string
    /\ cap_gpu_count (pe_capabilities (plan_master_node plan)) = 2
    /\ map pe_hostname (plan_gpu_worker_nodes plan) = ["gpu-c"; "gpu-a"]%string.
Proof.
  destruct (fallback_selects_highest_priority "2024-01-01T00:00:00"
              (mkChecker "id_rsa" all_gpu_nodes None))
    as (sel & plan & Hsel & Hplan & _).
  - cbn. discriminate.
  - repeat constructor; intros H; vm_compute in H; discriminate H.
  - exists sel, plan.
    split; [exact Hsel |].
    split; [rewrite Hplan; reflexivity |].
    cbn in Hsel. injection Hsel as <-.
    vm_compute in Hplan. injection Hplan as <-.
    repeat split; reflexivity.
Defined.

(** ** Repeated planning *)

Lemma find_head {A : Type} (f : A -> bool) (x : A) (l : list A) :
  f x = true -> List.find f (x :: l) = Some x.
Proof. intros H. simpl. rewrite H. reflexivity. Qed.

(** Selecting again on the store a selection left selects the same. *)
Lemma select_roles_idempotent (store : list NodeCapabilities)
  (sel : Selection) :
  select_roles store = OK sel -> select_roles (sel_store sel) = OK sel.
Proof.
  intros Hsel.
  destruct (select_roles_OK _ _ Hsel)
    as (Hm & Hstore & Hrole & Hsorted & Hg & Hw & Hcase).
  assert (Hsame : sorted_nodes (sel_store sel) = sorted_nodes store).
  { rewrite Hstore. apply sorted_nodes_flagged. }
  assert (Hfind : List.find (has_role "master" (sel_store sel))
                    (sorted_nodes (sel_store sel))
                  = Some (sel_master_node sel)).
  { rewrite Hsame. destruct Hcase as [Hfound | [_ Hhead]].
    - rewrite Hstore, flagged_id; [exact Hfound |].
      apply (find_some _ _ Hfound).
    - destruct (sorted_nodes store) as [|m rest]; [discriminate |].
      injection Hhead as ->. apply find_head, Hrole. }
  rewrite (select_roles_found _ _ Hfind), Hsame.
  destruct sel as [st so m g w]. cbn in *. subst so g w.
  do 2 f_equal. apply filter_ext_In_bool. intros i _.
  destruct (has_role "worker" st i) eqn:Hwi; [| reflexivity].
  rewrite (node_eq_other_role st i m Hwi Hrole). reflexivity.
Qed.

(** C4, as the code has it. Planning is a function of the nodes and the
    clock reading: the nodes are ordered by a stable sort on the priority,
    decreasing, ties in input order; the only change to the input nodes is
    the role of the selected node, set to [master] (no change at all when
    a node of role [master] exists); and planning again on the nodes it
    left returns the identical plan and changes nothing more. *)
Theorem build_deployment_plan_deterministic (now : string)
  (self : PreflightChecker) :
  match build_deployment_plan now self with
  | (Raise _, self') => self' = self /\ nodes self = []
  | (OK plan, self') =>
      exists sel,
        select_roles (nodes self) = OK sel
        /\ Permutation (sel_sorted_nodes sel) (refs (nodes self))
        /\ StronglySorted
             (fun i j => priority_of (nodes self) j <= priority_of (nodes self) i)
             (sel_sorted_nodes sel)
        /\ (forall k,
              List.filter (fun i => priority_of (nodes self) i =? k)
                (sel_sorted_nodes sel)
              = List.filter (fun i => priority_of (nodes self) i =? k)
                  (refs (nodes self)))
        /\ nodes self' = flagged (nodes self) (sel_master_node sel)
        /\ ((exists i, (i < length (nodes self))%nat
                       /\ has_role "master" (nodes self) i = true) ->
            nodes self' = nodes self)
        /\ build_deployment_plan now self' = (OK plan, self')
  end.
Proof.
  unfold build_deployment_plan at 1.
  destruct (select_roles (nodes self)) as [sel | e] eqn:Hsel.
  - exists sel. split; [reflexivity |].
    destruct (select_roles_OK _ _ Hsel)
      as (Hm & Hstore & Hrole & Hsorted & Hg & Hw & Hcase).
    rewrite Hsorted.
    split; [apply sorted_reverse_perm |].
    split; [apply (sorted_reverse_sorted (priority_of (nodes self))) |].
    split; [intros k; apply sorted_reverse_stable |].
    split; [exact Hstore |].
    split.
    + intros (i & Hi & Hri). cbn [nodes set_deployment_plan set_nodes].
      destruct Hcase as [Hfound | [Hnone _]].
      * rewrite Hstore. apply flagged_id. apply (find_some _ _ Hfound).
      * exfalso. apply sorted_nodes_In in Hi.
        rewrite (find_none _ _ Hnone i Hi) in Hri. discriminate.
    + unfold build_deployment_plan.
      cbn [nodes set_deployment_plan set_nodes].
      rewrite (select_roles_idempotent _ _ Hsel).
      destruct self as [key st old]. reflexivity.
  - apply select_roles_Raise in Hsel. destruct Hsel as [Hnil _].
    split; [reflexivity | exact Hnil].
Qed.

(** Planning over a single node of role [worker] modifies the input node:
    its role is [master] afterwards. *)
Lemma build_deployment_plan_modifies_input :
  let self := mkChecker "id_rsa" [weak_node] None in
  let self' := snd (build_deployment_plan "2024-01-01T00:00:00" self) in
  map recommended_role (nodes self) = ["worker"%string]
  /\ map recommended_role (nodes self') = ["master"%string]
  /\ nodes self' <> nodes self.
Proof.
  cbv zeta. split; [reflexivity |]. split; [reflexivity |].
  intros H. apply (f_equal (map recommended_role)) in H.
  vm_compute in H. discriminate H.
Qed.

(** ** Discovery *)

Ltac probe_cases :=
  repeat match goal with
    | |- context [match ?x with _ => _ end] => destruct x eqn:?
    end;
  try reflexivity.

Section ProbeFacts.

Variable py_int : string -> option Z.
Variable py_float : string -> option float.
Variable lsblk_loads : string -> option (list BlockDevice).
Variable ip_loads : string -> option (list IpInterface).

Lemma _discover_cpu_info_identity (r : Remote) (n : NodeCapabilities) :
  identity (_discover_cpu_info py_int py_float r n) = identity n.
Proof. unfold _discover_cpu_info. probe_cases. Qed.

Lemma _discover_memory_info_identity (r : Remote) (n : NodeCapabilities) :
  identity (_discover_memory_info py_float r n) = identity n.
Proof. unfold _discover_memory_info. probe_cases. Qed.

Lemma _discover_storage_info_identity (r : Remote) (n : NodeCapabilities) :
  identity (_discover_storage_info py_float lsblk_loads r n) = identity n.
Proof. unfold _discover_storage_info. probe_cases. Qed.

Lemma _discover_gpu_info_identity (r : Remote) (n : NodeCapabilities) :
  identity (_discover_gpu_info py_int py_float r n) = identity n.
Proof. unfold _discover_gpu_info. probe_cases. Qed.

Lemma network_loop_identity (r : Remote) (interfaces : list IpInterface)
  (n : NodeCapabilities) :
  identity (network_loop py_float r interfaces n) = identity n.
Proof.
  revert n. induction interfaces as [|interface rest IH]; intros n;
    [reflexivity |].
  cbn [network_loop].
  destruct (Str.truthy (if_ifname interface)
            && negb (String.eqb (if_ifname interface) "lo")); [| apply IH].
  destruct (exec_command r _); [| reflexivity].
  destruct (if Str.isdigit _ then _ else _); [| reflexivity].
  rewrite IH. probe_cases.
Qed.

Lemma _discover_network_info_identity (r : Remote) (n : NodeCapabilities) :
  identity (_discover_network_info py_float ip_loads r n) = identity n.
Proof.
  unfold _discover_network_info.
  destruct (negb (connects r 5)); [reflexivity |].
  destruct (exec_command r _); [| reflexivity].
  destruct (Str.truthy _); [| reflexivity].
  destruct (ip_loads _); [| reflexivity].
  apply network_loop_identity.
Qed.

Lemma os_loop_identity (lines : list string) (n : NodeCapabilities) :
  identity (fold_left os_step lines n) = identity n.
Proof.
  revert n. induction lines as [|line rest IH]; intros n; [reflexivity |].
  cbn [fold_left]. rewrite IH. unfold os_step. probe_cases.
Qed.

Lemma _discover_os_info_identity (r : Remote) (n : NodeCapabilities) :
  identity (_discover_os_info r n) = identity n.
Proof.
  unfold _discover_os_info.
  destruct (negb (connects r 6)); [reflexivity |].
  destruct (exec_command r _); [| reflexivity].
  destruct (exec_command r "uname -r").
  - change (identity (set_kernel_version ?v ?m)) with (identity m).
    apply os_loop_identity.
  - apply os_loop_identity.
Qed.

Lemma _discover_container_runtime_identity (r : Remote)
  (n : NodeCapabilities) :
  identity (_discover_container_runtime r n) = identity n.
Proof. unfold _discover_container_runtime. probe_cases. Qed.

Lemma _discover_kubernetes_info_identity (r : Remote) (n : NodeCapabilities) :
  identity (_discover_kubernetes_info r n) = identity n.
Proof. unfold _discover_kubernetes_info. probe_cases. Qed.

Lemma _generate_recommendations_identity (n : NodeCapabilities) :
  identity (_generate_recommendations n) = identity n.
Proof. unfold _generate_recommendations. probe_cases. Qed.

(** Discovery never changes which host a node is. *)
Lemma _discover_node_capabilities_identity (r : Remote)
  (n : NodeCapabilities) :
  identity (fst (_discover_node_capabilities py_int py_float lsblk_loads
                   ip_loads r n))
  = identity n.
Proof.
  unfold _discover_node_capabilities.
  destruct (negb (_test_ssh_connection r)); [reflexivity |].
  cbn [fst].
  rewrite _generate_recommendations_identity,
    _discover_kubernetes_info_identity,
    _discover_container_runtime_identity, _discover_os_info_identity,
    _discover_network_info_identity, _discover_gpu_info_identity,
    _discover_storage_info_identity, _discover_memory_info_identity,
    _discover_cpu_info_identity.
  reflexivity.
Qed.

(** A failed connection test raises before any probe: the node is left as
    it was. *)
Lemma _discover_node_capabilities_unreachable (r : Remote)
  (n : NodeCapabilities) :
  connects r 0 = false ->
  _discover_node_capabilities py_int py_float lsblk_loads ip_loads r n
  = (n, true).
Proof.
  intros H. unfold _discover_node_capabilities, _test_ssh_connection.
  rewrite H. reflexivity.
Qed.

(** With the connection test passed, the call returns and the scorer has
    run last. *)
Lemma _discover_node_capabilities_reachable (r : Remote)
  (n : NodeCapabilities) :
  connects r 0 = true ->
  exists probed,
    _discover_node_capabilities py_int py_float lsblk_loads ip_loads r n
    = (_generate_recommendations probed, false).
Proof.
  intros H. unfold _discover_node_capabilities, _test_ssh_connection.
  rewrite H. eexists. reflexivity.
Qed.

End ProbeFacts.

Section CoordinatorFacts.

Variable py_int : string -> option Z.
Variable py_float : string -> option float.
Variable lsblk_loads : string -> option (list BlockDevice).
Variable ip_loads : string -> option (list IpInterface).
Variable net : string -> string -> string -> Remote.

Local Abbreviation discovered' :=
  (discovered py_int py_float lsblk_loads ip_loads net).
Local Abbreviation run_task' :=
  (run_task py_int py_float lsblk_loads ip_loads net).
Local Abbreviation discover_nodes' :=
  (discover_nodes py_int py_float lsblk_loads ip_loads net).

Lemma discovered_identity (key : string) (n : NodeCapabilities) :
  identity (discovered' key n) = identity n.
Proof. apply _discover_node_capabilities_identity. Qed.

Lemma run_task_length (key : string) (store : list NodeCapabilities)
  (i : nat) :
  length (run_task' key store i) = length store.
Proof.
  unfold run_task. destruct (store !! i); [| reflexivity].
  apply length_insert.
Qed.

Lemma run_task_lookup (key : string) (store : list NodeCapabilities)
  (i j : nat) :
  run_task' key store i !! j
  = if Nat.eq_dec i j then discovered' key <$> store !! j else store !! j.
Proof.
  unfold run_task. destruct (Nat.eq_dec i j) as [<- | Hne].
  - destruct (store !! i) as [n|] eqn:Hn.
    + rewrite list_lookup_insert_eq by (eapply lookup_lt_Some, Hn).
      reflexivity.
    + rewrite Hn. reflexivity.
  - destruct (store !! i) as [n|] eqn:Hn; [| reflexivity].
    apply list_lookup_insert_ne, Hne.
Qed.

(** Tasks run in any order, each once: every node they name is discovered'
    once, every other node is untouched. *)
Lemma run_tasks_lookup (key : string) (order : list nat)
  (store : list NodeCapabilities) (j : nat) :
  List.NoDup order ->
  fold_left (run_task' key) order store !! j
  = if in_dec Nat.eq_dec j order
    then discovered' key <$> store !! j
    else store !! j.
Proof.
  intros Hnd. revert store.
  induction Hnd as [|i order Hi Hnd IH]; intros store; [reflexivity |].
  cbn [fold_left]. rewrite IH, !run_task_lookup.
  destruct (Nat.eq_dec i j) as [-> | Hne].
  - destruct (in_dec Nat.eq_dec j order) as [Hin | _]; [contradiction |].
    destruct (in_dec Nat.eq_dec j (j :: order)) as [_ | Hout];
      [reflexivity |].
    exfalso. apply Hout. left. reflexivity.
  - destruct (in_dec Nat.eq_dec j order) as [Hin | Hout];
      destruct (in_dec Nat.eq_dec j (i :: order)) as [Hin' | Hout'];
      try reflexivity.
    + exfalso. apply Hout'. right. exact Hin.
    + exfalso. destruct Hin' as [-> | Hin']; contradiction.
Qed.

(** The nodes after the pool has run do not depend on the order. *)
Lemma run_tasks_any_order (key : string) (order : list nat)
  (store : list NodeCapabilities) :
  Permutation order (seq 0 (length store)) ->
  fold_left (run_task' key) order store = map (discovered' key) store.
Proof.
  intros Hperm. apply list_eq. intros j.
  rewrite run_tasks_lookup
    by (apply (Permutation_NoDup (l := seq 0 (length store)));
        [symmetry; exact Hperm | apply seq_NoDup]).
  change (map (discovered' key) store) with (discovered' key <$> store).
  rewrite list_lookup_fmap.
  destruct (in_dec Nat.eq_dec j order) as [Hin | Hout]; [reflexivity |].
  rewrite (lookup_ge_None_2 store j); [reflexivity |].
  destruct (Nat.lt_ge_cases j (length store)) as [Hlt | Hge]; [| exact Hge].
  exfalso. apply Hout. apply (Permutation_in _ (Permutation_sym Hperm)).
  apply in_seq. lia.
Qed.

(** The loop that creates the node objects. *)
Lemma create_nodes (node_list : list NodeDescriptor) (self : PreflightChecker) :
  fold_left
    (fun self node_info =>
       set_nodes
         (nodes self ++ [fresh_node (checker_ssh_key_path self) node_info])
         self)
    node_list self
  = set_nodes
      (nodes self ++ map (fresh_node (checker_ssh_key_path self)) node_list)
      self.
Proof.
  revert self. induction node_list as [|d rest IH]; intros self.
  - cbn. rewrite app_nil_r. destruct self; reflexivity.
  - cbn [fold_left map]. rewrite IH. cbn [set_nodes nodes checker_ssh_key_path
      deployment_plan].
    rewrite <- app_assoc. reflexivity.
Qed.

Lemma discover_nodes_OK (order : list nat) (node_list : list NodeDescriptor)
  (self : PreflightChecker) :
  node_list <> [] ->
  Permutation order (seq 0 (length node_list)) ->
  let found :=
    map (fun d => discovered' (checker_ssh_key_path self)
                    (fresh_node (checker_ssh_key_path self) d))
      node_list in
  discover_nodes' order node_list self = (OK found, set_nodes found self).
Proof.
  intros Hne Hperm found. unfold discover_nodes.
  rewrite create_nodes.
  cbn [set_nodes nodes checker_ssh_key_path deployment_plan app].
  rewrite length_map.
  unfold ThreadPoolExecutor.
  destruct (Z.leb_spec (Z.min (Z.of_nat (length node_list)) 10) 0) as [Hle | _].
  - destruct node_list; [contradiction | cbn [length] in Hle; lia].
  - rewrite run_tasks_any_order by (rewrite length_map; exact Hperm).
    rewrite map_map. reflexivity.
Qed.

(** C8. For every non-empty host list, whatever the hosts answer and in
    whatever order the tasks complete, discovery returns one node per input
    host, in the order of the input. *)
Theorem discover_nodes_one_result_per_host (order : list nat)
  (node_list : list NodeDescriptor) (self : PreflightChecker) :
  node_list <> [] ->
  Permutation order (seq 0 (length node_list)) ->
  exists found,
    discover_nodes' order node_list self = (OK found, set_nodes found self)
    /\ length found = length node_list
    /\ map identity found
       = map (fun d => (nd_hostname d, nd_ip_address d, nd_username d,
                        checker_ssh_key_path self)) node_list.
Proof.
  intros Hne Hperm. eexists.
  split; [apply discover_nodes_OK; assumption |].
  split; [apply length_map |].
  rewrite map_map. apply map_ext. intros d.
  rewrite discovered_identity. reflexivity.
Qed.

(** C10. Discovery over an empty host list raises [ValueError]: the pool is
    created with [max_workers = min(0, 10) = 0]. No list is returned. *)
Theorem discover_nodes_empty_raises (order : list nat)
  (self : PreflightChecker) :
  discover_nodes' order [] self = (Raise ValueError, set_nodes [] self).
Proof. reflexivity. Qed.

End CoordinatorFacts.

(** ** Unreachable hosts *)

Section UnreachableHosts.

Variable py_int : string -> option Z.
Variable py_float : string -> option float.
Variable lsblk_loads : string -> option (list BlockDevice).
Variable ip_loads : string -> option (list IpInterface).
Variable net : string -> string -> string -> Remote.

(** C2, as the code has it. A host whose connection test fails is still in
    the plan with every capability facet at its zero default. Discovery
    leaves its node as created: role [worker] and the dataclass default of
    [recommended_priority], since the scorer does not run for it. The
    planner lists it among the workers, unless it selects it as master
    node, and then with the role [master]. *)
Theorem unreachable_host_in_plan (now : string) (order : list nat)
  (node_list : list NodeDescriptor) (self : PreflightChecker) (i : nat)
  (d : NodeDescriptor) :
  node_list !! i = Some d ->
  Permutation order (seq 0 (length node_list)) ->
  connects (net (nd_ip_address d) (nd_username d) (checker_ssh_key_path self)) 0
  = false ->
  let n0 := fresh_node (checker_ssh_key_path self) d in
  exists found sel plan,
    discover_nodes py_int py_float lsblk_loads ip_loads net order node_list self
    = (OK found, set_nodes found self)
    /\ found !! i = Some n0
    /\ _node_to_dict n0 = default_dict
    /\ select_roles found = OK sel
    /\ build_deployment_plan now (set_nodes found self)
       = (OK plan,
          set_deployment_plan plan
            (set_nodes (sel_store sel) (set_nodes found self)))
    /\ (sel_master_node sel = i
        /\ plan_master_node plan
           = plan_entry (set_recommended_role "master" n0)
        \/ In i (sel_regular_workers sel)
           /\ deref (sel_store sel) i = n0
           /\ In (plan_entry n0) (plan_worker_nodes plan)).
Proof.
  intros Hd Hperm Hconn n0.
  assert (Hne : node_list <> []) by (intros ->; discriminate).
  pose proof (discover_nodes_OK py_int py_float lsblk_loads ip_loads net
                order node_list self Hne Hperm) as Hfound.
  cbv zeta in Hfound.
  set (found := map _ node_list) in Hfound.
  assert (Hi : found !! i = Some n0).
  { unfold found.
    change (map ?f node_list) with (f <$> node_list).
    rewrite list_lookup_fmap, Hd. cbn [fmap option_fmap option_map].
    f_equal. unfold discovered.
    rewrite _discover_node_capabilities_unreachable by exact Hconn.
    reflexivity. }
  assert (Hne' : found <> []) by (intros E; rewrite E in Hi; discriminate).
  destruct (select_roles_nonempty _ Hne') as [sel Hsel].
  destruct (build_deployment_plan_OK now (set_nodes found self) sel Hsel)
    as (plan & Hplan & _ & Hmaster & _ & Hworkers).
  exists found, sel, plan.
  split; [exact Hfound |]. split; [exact Hi |].
  split; [reflexivity |]. split; [exact Hsel |]. split; [exact Hplan |].
  destruct (select_roles_OK _ _ Hsel) as (Hm & Hstore & _).
  pose proof (deref_lookup _ _ _ Hi) as Hderef.
  destruct (Nat.eq_dec i (sel_master_node sel)) as [Heq | Hneq].
  - left. split; [symmetry; exact Heq |].
    rewrite Hmaster, Hstore. unfold flagged.
    rewrite deref_insert_eq by exact Hm.
    rewrite <- Heq, Hderef. reflexivity.
  - right.
    assert (Hkeep : deref (sel_store sel) i = n0).
    { rewrite Hstore, flagged_other by exact Hneq. exact Hderef. }
    assert (Hin : In i (sel_regular_workers sel)).
    { apply (selection_members _ _ i Hsel). split.
      - eapply lookup_lt_Some, Hi.
      - unfold has_role. rewrite Hkeep. reflexivity. }
    split; [exact Hin |]. split; [exact Hkeep |].
    rewrite Hworkers. rewrite <- Hkeep.
    apply (in_map (fun j => plan_entry (deref (sel_store sel) j))), Hin.
Qed.

End UnreachableHosts.

Lemma unreachable_host_in_plan_witness :
  exists found sel plan,
    two_host_run = (OK found, set_nodes found (PreflightChecker_init "id_rsa"))
    /\ found !! 1%nat
       = Some (fresh_node "id_rsa" (mkNodeDescriptor "node-b" "10.0.0.2" "ubuntu"))
    /\ select_roles found = OK sel
    /\ fst (build_deployment_plan "2024-01-01T00:00:00"
              (set_nodes found (PreflightChecker_init "id_rsa"))) = OK plan.
Proof.
  destruct (unreachable_host_in_plan no_int no_float no_lsblk no_ip
              two_host_net "2024-01-01T00:00:00" [1%nat; 0%nat] two_hosts
              (PreflightChecker_init "id_rsa") 1%nat
              (mkNodeDescriptor "node-b" "10.0.0.2" "ubuntu"))
    as (found & sel & plan & Hfound & Hi & _ & Hsel & Hplan & _).
  - reflexivity.
  - apply perm_swap.
  - reflexivity.
  - exists found, sel, plan.
    split; [exact Hfound |]. split; [exact Hi |]. split; [exact Hsel |].
    rewrite Hplan. reflexivity.
Defined.

(** The claim as stated fails on this fleet: the unreachable host keeps the
    default priority 1, not 0, which ranks it above the probed host of
    score 0, so the planner selects it as master node and its role in the
    plan is [master], not [worker]. *)
Lemma unreachable_host_priority_and_role :
  exists found plan,
    fst two_host_run = OK found
    /\ map recommended_priority found = [0; 1]
    /\ fst (build_deployment_plan "2024-01-01T00:00:00"
              (set_nodes found (PreflightChecker_init "id_rsa"))) = OK plan
    /\ pe_hostname (plan_master_node plan) = "node-b"%string
    /\ cap_recommended_role (pe_capabilities (plan_master_node plan))
       = "master"%string
    /\ cap_recommended_priority (pe_capabilities (plan_master_node plan)) = 1
    /\ cap_recommended_priority (pe_capabilities (plan_master_node plan)) <> 0.
Proof.
  eexists. eexists.
  split; [vm_compute; reflexivity |].
  split; [reflexivity |].
  split; [vm_compute; reflexivity |].
  repeat split; try reflexivity. discriminate.
Qed.

Lemma discover_nodes_one_result_per_host_witness :
  exists found,
    two_host_run = (OK found, set_nodes found (PreflightChecker_init "id_rsa"))
    /\ length found = 2%nat
    /\ map hostname found = ["node-a"; "node-b"]%string.
Proof.
  destruct (discover_nodes_one_result_per_host no_int no_float no_lsblk no_ip
              two_host_net [1%nat; 0%nat] two_hosts
              (PreflightChecker_init "id_rsa"))
    as (found & Hfound & Hlen & Hid).
  - discriminate.
  - apply perm_swap.
  - exists found. split; [exact Hfound |]. split; [exact Hlen |].
    apply (f_equal (map (fun x => fst (fst (fst x))))) in Hid.
    rewrite !map_map in Hid. exact Hid.
Defined.

(** ** The storage probe *)

Section StorageFacts.

Variable py_float : string -> option float.
Variable lsblk_loads : string -> option (list BlockDevice).

Local Abbreviation step := (storage_step py_float).
Local Abbreviation size_of :=
  (fun device => _parse_size_to_gb py_float (bd_size device)).

Lemma storage_step_other (acc : StorageAcc) (device : BlockDevice) :
  is_disk device = false ->
  storage_step py_float acc device
  = mkStorageAcc (acc_total_storage acc + size_of device)%float
      (acc_fast_storage acc) (acc_devices acc).
Proof.
  unfold is_disk, storage_step. intros ->. reflexivity.
Qed.

Lemma storage_step_total (acc : StorageAcc) (device : BlockDevice) :
  acc_total_storage (step acc device)
  = (acc_total_storage acc + size_of device)%float.
Proof.
  unfold storage_step.
  destruct (String.eqb (bd_type device) "disk"); [| reflexivity].
  destruct (Str.startswith "nvme" (bd_name device)); [reflexivity |].
  destruct (jscalar_is "0" (bd_rota device)); reflexivity.
Qed.

(** What an iteration does to [fast_storage] and to the device list does
    not depend on [total_storage]. *)
Lemma storage_step_fast (acc acc' : StorageAcc) (device : BlockDevice) :
  acc_fast_storage acc = acc_fast_storage acc' ->
  acc_devices acc = acc_devices acc' ->
  acc_fast_storage (step acc device) = acc_fast_storage (step acc' device)
  /\ acc_devices (step acc device) = acc_devices (step acc' device).
Proof.
  intros Hf Hd. unfold storage_step. rewrite Hf, Hd.
  destruct (String.eqb (bd_type device) "disk"); [| split; reflexivity].
  destruct (Str.startswith "nvme" (bd_name device)); [split; reflexivity |].
  destruct (jscalar_is "0" (bd_rota device)); split; reflexivity.
Qed.

Lemma storage_fold_total (devices : list BlockDevice) (acc : StorageAcc) :
  acc_total_storage (fold_left step devices acc)
  = fold_left (fun total device => (total + size_of device)%float) devices
      (acc_total_storage acc).
Proof.
  revert acc. induction devices as [|device rest IH]; intros acc;
    [reflexivity |].
  cbn [fold_left]. rewrite IH, storage_step_total. reflexivity.
Qed.

Lemma storage_fold_disks (devices : list BlockDevice) (acc acc' : StorageAcc) :
  acc_fast_storage acc = acc_fast_storage acc' ->
  acc_devices acc = acc_devices acc' ->
  acc_fast_storage (fold_left step devices acc)
  = acc_fast_storage (fold_left step (List.filter is_disk devices) acc')
  /\ acc_devices (fold_left step devices acc)
     = acc_devices (fold_left step (List.filter is_disk devices) acc').
Proof.
  revert acc acc'. induction devices as [|device rest IH]; intros acc acc' Hf Hd.
  - split; assumption.
  - cbn [fold_left List.filter].
    destruct (is_disk device) eqn:Hdisk.
    + cbn [fold_left].
      destruct (storage_step_fast acc acc' device Hf Hd) as [Hf' Hd'].
      apply IH; assumption.
    + rewrite (storage_step_other acc device Hdisk).
      apply IH; assumption.
Qed.

Lemma _discover_storage_info_loop (r : Remote) (node : NodeCapabilities)
  (out : string) (devices : list BlockDevice) :
  connects r 3 = true ->
  exec_command r lsblk_command = Some out ->
  Str.truthy (Str.strip out) = true ->
  lsblk_loads (Str.strip out) = Some devices ->
  let acc := storage_loop py_float devices node in
  _discover_storage_info py_float lsblk_loads r node
  = set_fast_storage_gb (acc_fast_storage acc)
      (set_total_storage_gb (acc_total_storage acc)
         (set_storage_devices (acc_devices acc) node)).
Proof.
  intros Hc He Ht Hl. unfold _discover_storage_info.
  fold lsblk_command. rewrite Hc, He. cbn [negb]. rewrite Ht, Hl.
  reflexivity.
Qed.

(** C3, as the code has it. Only the entries of type [disk] contribute to
    [fast_storage_gb] and are recorded in [storage_devices]: both are what
    the probe computes from the [disk] entries alone. [total_storage_gb]
    is the sum of the sizes of all listed entries, whatever their type. *)
Theorem storage_totals_by_device_type (r : Remote) (node : NodeCapabilities)
  (out : string) (devices : list BlockDevice) :
  connects r 3 = true ->
  exec_command r lsblk_command = Some out ->
  Str.truthy (Str.strip out) = true ->
  lsblk_loads (Str.strip out) = Some devices ->
  let node' := _discover_storage_info py_float lsblk_loads r node in
  let disks := storage_loop py_float (List.filter is_disk devices) node in
  fast_storage_gb node' = acc_fast_storage disks
  /\ storage_devices node' = acc_devices disks
  /\ total_storage_gb node'
     = fold_left
         (fun total device =>
            (total + _parse_size_to_gb py_float (bd_size device))%float)
         devices 0%float.
Proof.
  intros Hc He Ht Hl node' disks. unfold node', disks.
  rewrite (_discover_storage_info_loop r node out devices Hc He Ht Hl).
  cbn [fast_storage_gb storage_devices total_storage_gb set_fast_storage_gb
         set_total_storage_gb set_storage_devices].
  unfold storage_loop.
  destruct (storage_fold_disks devices
              (mkStorageAcc 0%float 0%float (storage_devices node))
              (mkStorageAcc 0%float 0%float (storage_devices node))
              eq_refl eq_refl) as [Hf Hd].
  split; [exact Hf |]. split; [exact Hd |].
  apply storage_fold_total.
Qed.

End StorageFacts.

Lemma storage_totals_by_device_type_witness :
  fast_storage_gb storage_probed = 0%float
  /\ map sd_name (storage_devices storage_probed) = ["sda"%string]
  /\ total_storage_gb storage_probed = 104%float.
Proof.
  destruct (storage_totals_by_device_type sample_float sample_lsblk
              storage_host
              (NodeCapabilities_init "node-a" "10.0.0.1" "ubuntu" "id_rsa")
              lsblk_text loop_and_disk)
    as (Hf & Hd & Ht).
  - reflexivity.
  - reflexivity.
  - reflexivity.
  - reflexivity.
  - fold storage_probed in Hf, Hd, Ht.
    rewrite Hf, Hd, Ht. repeat split; reflexivity.
Defined.

(** The claim as stated fails on this host: the loop device is no [disk],
    yet its 4G are part of [total_storage_gb], which is 104 and not the 100
    of the disk entries alone. *)
Lemma loop_device_counts_toward_total :
  map bd_type loop_and_disk = ["loop"; "disk"]%string
  /\ total_storage_gb storage_probed = 104%float
  /\ acc_total_storage
       (storage_loop sample_float (List.filter is_disk loop_and_disk)
          (NodeCapabilities_init "node-a" "10.0.0.1" "ubuntu" "id_rsa"))
     = 100%float
  /\ total_storage_gb storage_probed
     <> acc_total_storage
          (storage_loop sample_float (List.filter is_disk loop_and_disk)
             (NodeCapabilities_init "node-a" "10.0.0.1" "ubuntu" "id_rsa")).
Proof.
  split; [reflexivity |]. split; [reflexivity |]. split; [reflexivity |].
  intros H.
  apply (f_equal (fun x => PrimFloat.eqb x 100)) in H.
  vm_compute in H. discriminate H.
Qed.

(** ** The scenarios of the specification *)

Example scenario_three_nodes :
  map recommended_role scenario_nodes = ["gpu_worker"; "master"; "worker"]%string
  /\ map recommended_priority scenario_nodes = [35; 20; 2]
  /\ exists sel,
       select_roles scenario_nodes = OK sel
       /\ sel_store sel = scenario_nodes
       /\ sel_master_node sel = 1%nat
       /\ sel_gpu_workers sel = [0%nat]
       /\ sel_regular_workers sel = [2%nat].
Proof.
  split; [reflexivity |]. split; [reflexivity |].
  eexists. split; [reflexivity |]. repeat split; reflexivity.
Qed.

Example scenario_single_node :
  map recommended_role single_node = ["worker"%string]
  /\ exists sel,
       select_roles single_node = OK sel
       /\ map recommended_role (sel_store sel) = ["master"%string]
       /\ sel_master_node sel = 0%nat
       /\ sel_gpu_workers sel = []
       /\ sel_regular_workers sel = [].
Proof.
  split; [reflexivity |].
  eexists. split; [reflexivity |]. repeat split; reflexivity.
Qed.

(** * Further properties *)

(** ** The scorer *)

(** X1. The priority the scorer computes lies between 0 and 75; without a
    GPU it is at most 40, with one it is at least 20. *)
Theorem scorer_priority_range (n : NodeCapabilities) :
  let p := recommended_priority (_generate_recommendations n) in
  if 0 <? gpu_count n then 20 <= p <= 75 else 0 <= p <= 40.
Proof.
  cbv zeta. rewrite recommended_priority_scored.
  unfold priority_score, cpu_scoring, memory_scoring, storage_scoring,
    network_scoring, gpu_scoring.
  repeat match goal with
    | |- context [if ?b then _ else _] => destruct b
    end; lia.
Qed.

Lemma axis_points_range (n : NodeCapabilities) :
  Forall (fun x => 0 <= x <= 10) (axis_points n).
Proof.
  unfold axis_points, cpu_scoring, memory_scoring, storage_scoring,
    network_scoring.
  repeat constructor;
    repeat match goal with
      | |- context [if ?b then _ else _] => destruct b
      end; lia.
Qed.

Lemma _generate_recommendations_valid_role (n : NodeCapabilities) :
  valid_role (recommended_role (_generate_recommendations n)).
Proof.
  rewrite _generate_recommendations_role. unfold valid_role.
  destruct (0 <? gpu_count n); [auto |].
  destruct (15 <=? priority_score n); auto.
Qed.

(** X2. The scorer assigns one of the three roles. It assigns [master]
    only to a node without GPU whose four axes give at least 15 points
    together; as one axis gives at most 10, at least two axes contribute. *)
Theorem scorer_master_needs_two_axes (n : NodeCapabilities) :
  valid_role (recommended_role (_generate_recommendations n))
  /\ (recommended_role (_generate_recommendations n) = "master"%string ->
      gpu_count n <= 0
      /\ 15 <= cpu_scoring n + memory_scoring n + storage_scoring n
               + network_scoring n
      /\ (2 <= length (List.filter (Z.ltb 0) (axis_points n)))%nat).
Proof.
  rewrite _generate_recommendations_role.
  destruct (Z.ltb_spec 0 (gpu_count n)) as [Hgpu | Hgpu].
  { split; [left; reflexivity | discriminate]. }
  assert (Hg : gpu_scoring n = 0).
  { unfold gpu_scoring. destruct (Z.ltb_spec 0 (gpu_count n)); [lia |].
    reflexivity. }
  unfold priority_score. rewrite Hg.
  destruct (Z.leb_spec 15 (0 + cpu_scoring n + memory_scoring n
                           + storage_scoring n + network_scoring n + 0))
    as [Hs | Hs].
  - split; [right; left; reflexivity |]. intros _.
    split; [exact Hgpu |]. split; [lia |].
    pose proof (axis_points_range n) as Hr. unfold axis_points in *.
    inversion Hr as [|? ? H1 Hr1]; subst.
    inversion Hr1 as [|? ? H2 Hr2]; subst.
    inversion Hr2 as [|? ? H3 Hr3]; subst.
    inversion Hr3 as [|? ? H4 _]; subst.
    cbn [List.filter].
    destruct (Z.ltb_spec 0 (cpu_scoring n));
      destruct (Z.ltb_spec 0 (memory_scoring n));
      destruct (Z.ltb_spec 0 (storage_scoring n));
      destruct (Z.ltb_spec 0 (network_scoring n)); cbn [length]; lia.
  - split; [right; right; reflexivity | discriminate].
Qed.

(** ** The planner *)

Lemma filter_length_perm {A : Type} (f : A -> bool) (l l' : list A) :
  Permutation l l' ->
  length (List.filter f l) = length (List.filter f l').
Proof.
  induction 1 as [|x l l' _ IH|x y l|l l' l'' _ IH1 _ IH2]; cbn [List.filter].
  - reflexivity.
  - destruct (f x); cbn [length]; congruence.
  - destruct (f x), (f y); reflexivity.
  - congruence.
Qed.

(** A selection only changes a role, to [master]: valid roles stay valid. *)
Lemma selection_roles_valid (store : list NodeCapabilities) (sel : Selection) :
  select_roles store = OK sel ->
  Forall (fun n => valid_role (recommended_role n)) store ->
  forall i, (i < length store)%nat ->
    valid_role (recommended_role (deref (sel_store sel) i)).
Proof.
  intros Hsel Hvalid i Hi.
  destruct (select_roles_OK _ _ Hsel) as (Hm & Hstore & Hrole & _).
  destruct (Nat.eq_dec i (sel_master_node sel)) as [-> | Hne].
  - unfold has_role in Hrole. apply String.eqb_eq in Hrole.
    rewrite Hrole. right; left; reflexivity.
  - rewrite Hstore, flagged_other by exact Hne.
    rewrite Forall_lookup in Hvalid.
    apply (Hvalid i), lookup_deref, Hi.
Qed.

Lemma valid_role_cases (store : list NodeCapabilities) (i : nat) :
  valid_role (recommended_role (deref store i)) ->
  (has_role "master" store i = true
   /\ has_role "gpu_worker" store i = false
   /\ has_role "worker" store i = false)
  \/ (has_role "master" store i = false
      /\ has_role "gpu_worker" store i = true
      /\ has_role "worker" store i = false)
  \/ (has_role "master" store i = false
      /\ has_role "gpu_worker" store i = false
      /\ has_role "worker" store i = true).
Proof.
  unfold has_role. intros [-> | [-> | ->]]; cbn; auto.
Qed.

Lemma role_counts (store : list NodeCapabilities) (l : list nat) :
  (forall i, In i l -> valid_role (recommended_role (deref store i))) ->
  length l
  = (length (List.filter (has_role "master" store) l)
     + length (List.filter (has_role "gpu_worker" store) l)
     + length (List.filter (has_role "worker" store) l))%nat.
Proof.
  induction l as [|i l IH]; intros Hvalid; [reflexivity |].
  cbn [List.filter length].
  rewrite IH by (intros; apply Hvalid; right; assumption).
  destruct (valid_role_cases store i (Hvalid i (or_introl eq_refl)))
    as [(-> & -> & ->) | [(-> & -> & ->) | (-> & -> & ->)]];
    cbn [length]; lia.
Qed.

(** X3. With valid roles, every node is the selected master, a GPU
    worker, a worker, or one of the other nodes of role [master]: the
    number of nodes the plan leaves out is the number of [master] nodes
    beyond the selected one. *)
Theorem plan_leaves_out_other_masters (store : list NodeCapabilities)
  (sel : Selection) :
  select_roles store = OK sel ->
  Forall (fun n => valid_role (recommended_role n)) store ->
  (1 <= count_role "master" (sel_store sel))%nat
  /\ length store
     = (count_role "master" (sel_store sel)
        + length (sel_gpu_workers sel)
        + length (sel_regular_workers sel))%nat.
Proof.
  intros Hsel Hvalid.
  destruct (select_roles_OK _ _ Hsel)
    as (Hm & Hstore & Hrole & _ & Hg & Hw & _).
  assert (Hrefs : refs (sel_store sel) = refs store).
  { rewrite Hstore. apply refs_insert. }
  unfold count_role. rewrite Hrefs. split.
  - assert (Hin : In (sel_master_node sel)
                    (List.filter (has_role "master" (sel_store sel))
                       (refs store))).
    { apply filter_In. split; [apply refs_In, Hm | exact Hrole]. }
    destruct (List.filter _ (refs store)); [contradiction | cbn; lia].
  - rewrite Hg, Hw.
    assert (Hlen : length store = length (sorted_nodes store)).
    { unfold sorted_nodes. rewrite sorted_reverse_length.
      unfold refs. rewrite length_seq. reflexivity. }
    rewrite Hlen.
    rewrite (filter_length_perm (has_role "master" (sel_store sel))
               (refs store) (sorted_nodes store))
      by (symmetry; apply sorted_reverse_perm).
    apply role_counts. intros i Hi.
    apply (selection_roles_valid _ _ Hsel Hvalid).
    apply sorted_nodes_In, Hi.
Qed.

Lemma plan_leaves_out_other_masters_witness :
  exists sel,
    select_roles two_cpu_nodes = OK sel
    /\ length two_cpu_nodes
       = (count_role "master" (sel_store sel)
          + length (sel_gpu_workers sel)
          + length (sel_regular_workers sel))%nat.
Proof.
  destruct (select_roles_nonempty two_cpu_nodes) as [sel Hsel];
    [discriminate |].
  exists sel. split; [exact Hsel |].
  apply (plan_leaves_out_other_masters two_cpu_nodes sel Hsel).
  unfold two_cpu_nodes.
  repeat apply List.Forall_cons; [| | apply List.Forall_nil];
    right; left; reflexivity.
Defined.

(** X4. With valid roles and at most one node of role [master], the plan
    is an exact partition: every node is in exactly one of the three
    selections. *)
Theorem partition_exact_with_one_master (store : list NodeCapabilities)
  (sel : Selection) :
  select_roles store = OK sel ->
  Forall (fun n => valid_role (recommended_role n)) store ->
  (forall i j, (i < length store)%nat -> (j < length store)%nat ->
     has_role "master" store i = true -> has_role "master" store j = true ->
     i = j) ->
  forall i, (i < length store)%nat ->
    let m := sel_master_node sel in
    let g := sel_gpu_workers sel in
    let w := sel_regular_workers sel in
    (i = m /\ ~ In i g /\ ~ In i w)
    \/ (i <> m /\ In i g /\ ~ In i w)
    \/ (i <> m /\ ~ In i g /\ In i w).
Proof.
  intros Hsel Hvalid Hone i Hi. cbv zeta.
  destruct (selection_disjoint _ _ Hsel) as (Hd1 & Hd2 & Hd3 & _).
  destruct (select_roles_OK _ _ Hsel)
    as (Hm & Hstore & Hrole & _ & _ & _ & Hcase).
  destruct (selection_members _ _ i Hsel) as [Hg Hw].
  destruct (Nat.eq_dec i (sel_master_node sel)) as [-> | Hne].
  { left. auto. }
  right.
  pose proof (selection_roles_valid _ _ Hsel Hvalid i Hi) as Hv.
  destruct (valid_role_cases _ _ Hv)
    as [(Hma & _) | [(_ & Hgw & Hwk) | (_ & Hgw & Hwk)]].
  - exfalso. unfold has_role in Hma.
    rewrite Hstore, flagged_other in Hma by exact Hne.
    destruct Hcase as [Hfound | [Hnone _]].
    + apply Hne, Hone; try assumption. apply (find_some _ _ Hfound).
    + assert (Hin : In i (sorted_nodes store)) by (apply sorted_nodes_In, Hi).
      pose proof (find_none _ _ Hnone i Hin) as Hno.
      unfold has_role in Hno. congruence.
  - left. split; [exact Hne |].
    assert (Hin : In i (sel_gpu_workers sel)) by (apply Hg; auto).
    split; [exact Hin | apply Hd3, Hin].
  - right. split; [exact Hne |].
    assert (Hin : In i (sel_regular_workers sel)) by (apply Hw; auto).
    split; [| exact Hin].
    intros Hin'. apply (Hd3 i Hin' Hin).
Qed.

Lemma partition_exact_with_one_master_witness :
  exists sel,
    select_roles scenario_nodes = OK sel
    /\ In 0%nat (sel_gpu_workers sel)
    /\ sel_master_node sel = 1%nat
    /\ In 2%nat (sel_regular_workers sel).
Proof.
  destruct (select_roles_nonempty scenario_nodes) as [sel Hsel];
    [discriminate |].
  exists sel. split; [exact Hsel |].
  assert (Hvalid : Forall (fun n => valid_role (recommended_role n))
                     scenario_nodes).
  { unfold scenario_nodes. cbn [map].
    repeat apply List.Forall_cons; [| | | apply List.Forall_nil].
    - left; reflexivity.
    - right; left; reflexivity.
    - right; right; reflexivity. }
  assert (Hone : forall i j, (i < length scenario_nodes)%nat ->
            (j < length scenario_nodes)%nat ->
            has_role "master" scenario_nodes i = true ->
            has_role "master" scenario_nodes j = true -> i = j).
  { intros [|[|[|i]]] [|[|[|j]]] Hi Hj H1 H2;
      try reflexivity; try discriminate; cbn in Hi, Hj; lia. }
  pose proof (partition_exact_with_one_master scenario_nodes sel Hsel
                Hvalid Hone) as Hpart.
  assert (Hmaster : sel_master_node sel = 1%nat).
  { cbn in Hsel. injection Hsel as <-. reflexivity. }
  split; [| split; [exact Hmaster |]].
  - destruct (Hpart 0%nat ltac:(cbn; lia))
      as [(H & _) | [(_ & H & _) | (_ & _ & H)]].
    + rewrite Hmaster in H. discriminate.
    + exact H.
    + exfalso. apply (selection_members _ _ _ Hsel) in H.
      destruct H as [_ H]. cbn in Hsel. injection Hsel as <-.
      discriminate H.
  - destruct (Hpart 2%nat ltac:(cbn; lia))
      as [(H & _) | [(_ & H & _) | (_ & _ & H)]].
    + rewrite Hmaster in H. discriminate.
    + exfalso. apply (selection_members _ _ _ Hsel) in H.
      destruct H as [_ H]. cbn in Hsel. injection Hsel as <-.
      discriminate H.
    + exact H.
Defined.

(** A field the role assignment does not touch reads the same in the store
    a selection leaves. *)
Lemma map_flagged {B : Type} (f : NodeCapabilities -> B)
  (store : list NodeCapabilities) (m : nat) :
  (forall role n, f (set_recommended_role role n) = f n) ->
  map f (flagged store m) = map f store.
Proof.
  intros Hf. apply list_eq. intros i.
  change (map f ?l) with (f <$> l). rewrite !list_lookup_fmap.
  unfold flagged. destruct (Nat.eq_dec m i) as [-> | Hne].
  - destruct (Nat.lt_ge_cases i (length store)) as [Hlt | Hge].
    + rewrite list_lookup_insert_eq by exact Hlt.
      rewrite (lookup_deref store i Hlt). cbn. rewrite Hf. reflexivity.
    + rewrite list_insert_ge by exact Hge. reflexivity.
  - rewrite list_lookup_insert_ne by exact Hne. reflexivity.
Qed.

Lemma selection_size (store : list NodeCapabilities) (sel : Selection) :
  select_roles store = OK sel ->
  (1 + length (sel_gpu_workers sel) + length (sel_regular_workers sel)
   <= length store)%nat.
Proof.
  intros Hsel.
  destruct (selection_disjoint _ _ Hsel) as (Hd1 & Hd2 & Hd3 & Hn1 & Hn2).
  destruct (select_roles_OK _ _ Hsel) as (Hm & _).
  assert (Hnd : List.NoDup (sel_master_node sel
                            :: sel_gpu_workers sel ++ sel_regular_workers sel)).
  { constructor.
    - rewrite in_app_iff. tauto.
    - apply List.NoDup_app; [exact Hn1 | exact Hn2 | exact Hd3]. }
  assert (Hincl : incl (sel_master_node sel
                        :: sel_gpu_workers sel ++ sel_regular_workers sel)
                    (refs store)).
  { intros i [<- | Hi]; [apply refs_In, Hm |].
    apply refs_In. apply in_app_or in Hi.
    destruct (selection_members _ _ i Hsel) as [Hg Hw].
    destruct Hi as [Hi | Hi]; [apply Hg in Hi | apply Hw in Hi]; tauto. }
  pose proof (List.NoDup_incl_length Hnd Hincl) as Hle.
  cbn [length] in Hle. rewrite length_app in Hle.
  unfold refs in Hle. rewrite length_seq in Hle. lia.
Qed.

(** X5. The summary of a plan counts and sums over all input nodes,
    whatever their role and whether or not the plan lists them: the totals
    are those of the nodes as given, the node counts of the three groups
    never exceed the total, and the two worker counts are the lengths of
    the plan's lists. *)
Theorem summary_totals_over_input (now : string) (self self' : PreflightChecker)
  (plan : DeploymentPlan) :
  build_deployment_plan now self = (OK plan, self') ->
  let s := plan_summary plan in
  sum_total_nodes s = Z.of_nat (length (nodes self))
  /\ sum_total_gpus s = sum_int (map gpu_count (nodes self))
  /\ sum_total_gpu_memory_gb s = sum_float (map total_gpu_memory_gb (nodes self))
  /\ sum_total_cpu_cores s = sum_int (map cpu_cores (nodes self))
  /\ sum_total_memory_gb s = sum_float (map total_memory_gb (nodes self))
  /\ sum_total_storage_gb s = sum_float (map total_storage_gb (nodes self))
  /\ sum_gpu_worker_nodes s = Z.of_nat (length (plan_gpu_worker_nodes plan))
  /\ sum_worker_nodes s = Z.of_nat (length (plan_worker_nodes plan))
  /\ sum_master_nodes s + sum_gpu_worker_nodes s + sum_worker_nodes s
     <= sum_total_nodes s.
Proof.
  unfold build_deployment_plan.
  destruct (select_roles (nodes self)) as [sel | e] eqn:Hsel; [| discriminate].
  intros [= <- _].
  cbn [plan_summary sum_total_nodes sum_total_gpus sum_total_gpu_memory_gb
         sum_total_cpu_cores sum_total_memory_gb sum_total_storage_gb
         sum_gpu_worker_nodes sum_worker_nodes sum_master_nodes
         plan_gpu_worker_nodes plan_worker_nodes].
  destruct (select_roles_OK _ _ Hsel) as (_ & Hstore & _).
  pose proof (selection_size _ _ Hsel) as Hsize.
  rewrite Hstore.
  rewrite flagged_length, !map_flagged by reflexivity.
  rewrite !length_map.
  repeat split; try reflexivity. lia.
Qed.

Lemma summary_totals_over_input_witness :
  exists plan,
    fst (build_deployment_plan "2024-01-01T00:00:00"
           (mkChecker "id_rsa" two_cpu_nodes None)) = OK plan
    /\ sum_total_nodes (plan_summary plan) = 2
    /\ sum_total_cpu_cores (plan_summary plan) = 32
    /\ sum_master_nodes (plan_summary plan)
       + sum_gpu_worker_nodes (plan_summary plan)
       + sum_worker_nodes (plan_summary plan) = 1.
Proof.
  destruct (build_deployment_plan "2024-01-01T00:00:00"
              (mkChecker "id_rsa" two_cpu_nodes None)) as [[plan | e] self']
    eqn:Hplan; [| vm_compute in Hplan; discriminate Hplan].
  exists plan. split; [reflexivity |].
  destruct (summary_totals_over_input _ _ _ _ Hplan)
    as (Hn & _ & _ & Hc & _ & _ & Hg & Hw & _).
  split; [rewrite Hn; reflexivity |]. split; [rewrite Hc; reflexivity |].
  vm_compute in Hplan. injection Hplan as <- _. reflexivity.
Defined.

Lemma filter_sorted {A : Type} (R : A -> A -> Prop) (f : A -> bool)
  (l : list A) :
  StronglySorted R l -> StronglySorted R (List.filter f l).
Proof.
  induction 1 as [|x l Hs IH Hx]; cbn [List.filter]; [constructor |].
  destruct (f x); [| exact IH].
  constructor; [exact IH |].
  rewrite List.Forall_forall in *. intros y Hy.
  apply Hx. apply filter_In in Hy. tauto.
Qed.

Lemma sorted_app_r {A : Type} (R : A -> A -> Prop) (l1 l2 : list A) :
  StronglySorted R (l1 ++ l2) -> StronglySorted R l2.
Proof.
  induction l1 as [|x l1 IH]; [trivial |].
  cbn [app]. intros H. apply StronglySorted_inv in H. apply IH, H.
Qed.

Lemma find_split {A : Type} (f : A -> bool) (l : list A) (x : A) :
  List.find f l = Some x ->
  exists l1 l2, l = l1 ++ x :: l2 /\ Forall (fun y => f y = false) l1.
Proof.
  induction l as [|y l IH]; [discriminate |].
  cbn [List.find]. destruct (f y) eqn:Hy.
  - intros [= ->]. exists [], l. split; [reflexivity | constructor].
  - intros Hfind. destruct (IH Hfind) as (l1 & l2 & -> & Hall).
    exists (y :: l1), l2. split; [reflexivity |].
    constructor; assumption.
Qed.

(** X6. The plan is ranked: the GPU workers and the workers are each
    listed in decreasing priority, and the master node has the largest
    priority among the nodes that had the role [master] when there is one,
    among all nodes otherwise. *)
Theorem plan_is_ranked (store : list NodeCapabilities) (sel : Selection) :
  select_roles store = OK sel ->
  let by_priority := fun i j => priority_of store j <= priority_of store i in
  StronglySorted by_priority (sel_gpu_workers sel)
  /\ StronglySorted by_priority (sel_regular_workers sel)
  /\ forall i, (i < length store)%nat ->
       has_role "master" store i = true
       \/ (forall j, (j < length store)%nat ->
             has_role "master" store j = false) ->
       priority_of store i <= priority_of store (sel_master_node sel).
Proof.
  intros Hsel by_priority.
  destruct (select_roles_OK _ _ Hsel) as (Hm & _ & _ & _ & -> & -> & Hcase).
  pose proof (sorted_reverse_sorted (priority_of store) (refs store)) as Hs.
  fold (sorted_nodes store) in Hs.
  split; [apply filter_sorted, Hs |]. split; [apply filter_sorted, Hs |].
  intros i Hi Hrole.
  assert (Hin : In i (sorted_nodes store)) by (apply sorted_nodes_In, Hi).
  destruct Hcase as [Hfound | [Hnone Hhead]].
  - destruct Hrole as [Hrole | Hnomaster].
    + destruct (find_split _ _ _ Hfound) as (l1 & l2 & Hl & Hall).
      rewrite Hl in Hin, Hs.
      apply in_app_or in Hin. destruct Hin as [Hin | [<- | Hin]].
      * rewrite List.Forall_forall in Hall.
        rewrite (Hall i Hin) in Hrole. discriminate.
      * lia.
      * apply sorted_app_r in Hs.
        apply StronglySorted_inv in Hs. destruct Hs as [_ Hall2].
        rewrite List.Forall_forall in Hall2. apply Hall2, Hin.
    + destruct (find_some _ _ Hfound) as [_ Hrm].
      rewrite (Hnomaster _ Hm) in Hrm. discriminate.
  - destruct (sorted_nodes store) as [|m rest] eqn:Hsorted; [discriminate |].
    injection Hhead as ->.
    apply (sorted_nodes_head _ _ _ Hsorted), Hi.
Qed.

Lemma plan_is_ranked_witness :
  exists sel,
    select_roles all_gpu_nodes = OK sel
    /\ StronglySorted
         (fun i j => priority_of all_gpu_nodes j <= priority_of all_gpu_nodes i)
         (sel_gpu_workers sel)
    /\ priority_of all_gpu_nodes 2 <= priority_of all_gpu_nodes (sel_master_node sel).
Proof.
  destruct (select_roles_nonempty all_gpu_nodes) as [sel Hsel];
    [discriminate |].
  exists sel. split; [exact Hsel |].
  destruct (plan_is_ranked all_gpu_nodes sel Hsel) as (Hg & _ & Hmax).
  split; [exact Hg |].
  apply Hmax; [cbn; lia |].
  right. intros [|[|[|j]]] Hj; try reflexivity. cbn in Hj. lia.
Defined.

(** ** Discovery *)

Section DiscoveryFurther.

Variable py_int : string -> option Z.
Variable py_float : string -> option float.
Variable lsblk_loads : string -> option (list BlockDevice).
Variable ip_loads : string -> option (list IpInterface).
Variable net : string -> string -> string -> Remote.

Local Abbreviation discover :=
  (discover_nodes py_int py_float lsblk_loads ip_loads net).
Local Abbreviation discovered_node :=
  (discovered py_int py_float lsblk_loads ip_loads net).

(** X7. The outcome of discovery does not depend on the order in which
    the tasks of the pool run and complete. *)
Theorem discover_nodes_order_irrelevant (order1 order2 : list nat)
  (node_list : list NodeDescriptor) (self : PreflightChecker) :
  Permutation order1 (seq 0 (length node_list)) ->
  Permutation order2 (seq 0 (length node_list)) ->
  discover order1 node_list self = discover order2 node_list self.
Proof.
  intros H1 H2. destruct node_list as [|d rest] eqn:E.
  - reflexivity.
  - rewrite <- E in *.
    assert (Hne : node_list <> []) by (rewrite E; discriminate).
    rewrite (discover_nodes_OK _ _ _ _ _ order1 node_list self Hne H1).
    rewrite (discover_nodes_OK _ _ _ _ _ order2 node_list self Hne H2).
    reflexivity.
Qed.

(** A node after its task: untouched when the host is unreachable, scored
    otherwise. *)
Lemma discovered_cases (key : string) (n : NodeCapabilities) :
  discovered_node key n = n
  \/ exists probed, discovered_node key n = _generate_recommendations probed.
Proof.
  unfold discovered.
  destruct (connects (net (ip_address n) (username n) key) 0) eqn:Hc.
  - right.
    destruct (_discover_node_capabilities_reachable py_int py_float
                lsblk_loads ip_loads _ n Hc) as [probed Hp].
    exists probed. rewrite Hp. reflexivity.
  - left. rewrite _discover_node_capabilities_unreachable by exact Hc.
    reflexivity.
Qed.

(** X8. Every node discovery returns carries one of the three roles and
    a priority between 0 and 75, whether its host answered or not. *)
Theorem discovered_nodes_well_scored (order : list nat)
  (node_list : list NodeDescriptor) (self : PreflightChecker)
  (found : list NodeCapabilities) (self' : PreflightChecker) :
  Permutation order (seq 0 (length node_list)) ->
  discover order node_list self = (OK found, self') ->
  Forall (fun n => valid_role (recommended_role n)
                   /\ 0 <= recommended_priority n <= 75) found.
Proof.
  intros Hperm Hrun.
  destruct node_list as [|d rest] eqn:E; [discriminate |].
  rewrite <- E in *.
  assert (Hne : node_list <> []) by (rewrite E; discriminate).
  rewrite (discover_nodes_OK _ _ _ _ _ order node_list self Hne Hperm) in Hrun.
  injection Hrun as <- _.
  apply List.Forall_forall. intros n Hn. apply in_map_iff in Hn.
  destruct Hn as (d' & <- & _).
  destruct (discovered_cases (checker_ssh_key_path self)
              (fresh_node (checker_ssh_key_path self) d'))
    as [-> | [probed ->]].
  - split; [right; right; reflexivity | cbn; lia].
  - split; [apply _generate_recommendations_valid_role |].
    rewrite recommended_priority_scored. apply priority_score_bounds.
Qed.

(** X9. Discovery of a non-empty host list followed by planning always
    produces a plan: it counts every input host, and its master node is one
    of the input hosts. *)
Theorem discover_then_plan (now : string) (order : list nat)
  (node_list : list NodeDescriptor) (self : PreflightChecker) :
  node_list <> [] ->
  Permutation order (seq 0 (length node_list)) ->
  exists found plan self',
    discover order node_list self = (OK found, set_nodes found self)
    /\ build_deployment_plan now (set_nodes found self) = (OK plan, self')
    /\ deployment_plan self' = Some plan
    /\ sum_total_nodes (plan_summary plan) = Z.of_nat (length node_list)
    /\ In (pe_hostname (plan_master_node plan),
           pe_ip_address (plan_master_node plan))
         (map (fun d => (nd_hostname d, nd_ip_address d)) node_list).
Proof.
  intros Hne Hperm.
  pose proof (discover_nodes_OK py_int py_float lsblk_loads ip_loads net
                order node_list self Hne Hperm) as Hrun.
  cbv zeta in Hrun. set (found := map _ node_list) in Hrun.
  assert (Hlen : length found = length node_list) by apply length_map.
  assert (Hid : map (fun n => (hostname n, ip_address n)) found
                = map (fun d => (nd_hostname d, nd_ip_address d)) node_list).
  { unfold found. rewrite map_map. apply map_ext. intros d.
    pose proof (discovered_identity py_int py_float lsblk_loads ip_loads net
                  (checker_ssh_key_path self)
                  (fresh_node (checker_ssh_key_path self) d)) as Hd.
    unfold identity in Hd. injection Hd as -> -> _ _. reflexivity. }
  assert (Hne' : found <> []).
  { intros E. rewrite E in Hlen. destruct node_list;
      [contradiction | discriminate]. }
  destruct (select_roles_nonempty _ Hne') as [sel Hsel].
  destruct (build_deployment_plan_OK now (set_nodes found self) sel Hsel)
    as (plan & Hplan & _ & Hmaster & _).
  exists found, plan,
    (set_deployment_plan plan
       (set_nodes (sel_store sel) (set_nodes found self))).
  split; [exact Hrun |]. split; [exact Hplan |].
  split; [reflexivity |].
  destruct (select_roles_OK _ _ Hsel) as (Hm & Hstore & _).
  split.
  - unfold build_deployment_plan in Hplan.
    cbn [nodes set_nodes] in Hplan. rewrite Hsel in Hplan.
    apply (f_equal fst) in Hplan. cbn [fst] in Hplan.
    injection Hplan as <-. cbn [plan_summary sum_total_nodes].
    rewrite Hstore, flagged_length. cbn [nodes set_nodes]. rewrite Hlen.
    reflexivity.
  - rewrite Hmaster, Hstore. unfold flagged.
    rewrite deref_insert_eq by exact Hm.
    cbn [plan_entry pe_hostname pe_ip_address set_recommended_role hostname
           ip_address].
    rewrite <- Hid.
    apply (in_map (fun n => (hostname n, ip_address n))).
    apply list_elem_of_In, list_elem_of_lookup. exists (sel_master_node sel).
    apply lookup_deref, Hm.
Qed.

End DiscoveryFurther.

Lemma discover_nodes_order_irrelevant_witness :
  discover_nodes no_int no_float no_lsblk no_ip two_host_net [0%nat; 1%nat]
    two_hosts (PreflightChecker_init "id_rsa")
  = two_host_run.
Proof.
  apply (discover_nodes_order_irrelevant no_int no_float no_lsblk no_ip
           two_host_net [0%nat; 1%nat] [1%nat; 0%nat] two_hosts
           (PreflightChecker_init "id_rsa")).
  - apply Permutation_refl.
  - apply perm_swap.
Defined.

Lemma discovered_nodes_well_scored_witness :
  exists found,
    fst two_host_run = OK found
    /\ Forall (fun n => valid_role (recommended_role n)
                        /\ 0 <= recommended_priority n <= 75) found.
Proof.
  destruct two_host_run as [[found | e] self'] eqn:Hrun;
    [| vm_compute in Hrun; discriminate Hrun].
  exists found. split; [reflexivity |].
  apply (discovered_nodes_well_scored no_int no_float no_lsblk no_ip
           two_host_net [1%nat; 0%nat] two_hosts
           (PreflightChecker_init "id_rsa") found self').
  - apply perm_swap.
  - exact Hrun.
Defined.

Lemma discover_then_plan_witness :
  exists found plan,
    fst two_host_run = OK found
    /\ fst (build_deployment_plan "2024-01-01T00:00:00"
              (set_nodes found (PreflightChecker_init "id_rsa"))) = OK plan
    /\ sum_total_nodes (plan_summary plan) = 2.
Proof.
  destruct (discover_then_plan no_int no_float no_lsblk no_ip two_host_net
              "2024-01-01T00:00:00" [1%nat; 0%nat] two_hosts
              (PreflightChecker_init "id_rsa"))
    as (found & plan & self' & Hrun & Hplan & _ & Hn & _).
  - discriminate.
  - apply perm_swap.
  - exists found, plan. unfold two_host_run. rewrite Hrun, Hplan.
    repeat split. exact Hn.
Defined.

(** ** The probes *)

Section ProbeFurther.

Variable py_int : string -> option Z.
Variable py_float : string -> option float.
Variable lsblk_loads : string -> option (list BlockDevice).
Variable ip_loads : string -> option (list IpInterface).

Lemma network_loop_frame (r : Remote) (interfaces : list IpInterface)
  (n : NodeCapabilities) :
  without_network (network_loop py_float r interfaces n) = without_network n.
Proof.
  revert n. induction interfaces as [|interface rest IH]; intros n;
    [reflexivity |].
  cbn [network_loop].
  destruct (Str.truthy (if_ifname interface)
            && negb (String.eqb (if_ifname interface) "lo")); [| apply IH].
  destruct (exec_command r _); [| reflexivity].
  destruct (if Str.isdigit _ then _ else _); [| reflexivity].
  rewrite IH. probe_cases.
Qed.

Lemma os_loop_frame (lines : list string) (n : NodeCapabilities) :
  without_os (fold_left os_step lines n) = without_os n.
Proof.
  revert n. induction lines as [|line rest IH]; intros n; [reflexivity |].
  cbn [fold_left]. rewrite IH. unfold os_step. probe_cases.
Qed.

(** X10. Each probe writes the fields of its own facet and nothing else,
    whatever the host answers, and the scorer writes the role and the
    priority only: no probe overwrites what another one found. *)
Theorem probes_write_own_fields (r : Remote) (n : NodeCapabilities) :
  without_cpu (_discover_cpu_info py_int py_float r n) = without_cpu n
  /\ without_memory (_discover_memory_info py_float r n) = without_memory n
  /\ without_storage (_discover_storage_info py_float lsblk_loads r n)
     = without_storage n
  /\ without_gpu (_discover_gpu_info py_int py_float r n) = without_gpu n
  /\ without_network (_discover_network_info py_float ip_loads r n)
     = without_network n
  /\ without_os (_discover_os_info r n) = without_os n
  /\ without_runtime (_discover_container_runtime r n) = without_runtime n
  /\ without_kubernetes (_discover_kubernetes_info r n) = without_kubernetes n
  /\ without_recommendation (_generate_recommendations n)
     = without_recommendation n.
Proof.
  split; [unfold _discover_cpu_info; probe_cases |].
  split; [unfold _discover_memory_info; probe_cases |].
  split; [unfold _discover_storage_info; probe_cases |].
  split; [unfold _discover_gpu_info; probe_cases |].
  split.
  { unfold _discover_network_info.
    destruct (negb (connects r 5)); [reflexivity |].
    destruct (exec_command r _); [| reflexivity].
    destruct (Str.truthy _); [| reflexivity].
    destruct (ip_loads _); [| reflexivity].
    apply network_loop_frame. }
  split.
  { unfold _discover_os_info.
    destruct (negb (connects r 6)); [reflexivity |].
    destruct (exec_command r _); [| reflexivity].
    destruct (exec_command r "uname -r").
    - change (without_os (set_kernel_version ?v ?m)) with (without_os m).
      apply os_loop_frame.
    - apply os_loop_frame. }
  split; [unfold _discover_container_runtime; probe_cases |].
  split; [unfold _discover_kubernetes_info; probe_cases |].
  unfold _generate_recommendations; probe_cases.
Qed.

Lemma storage_step_disk (acc : StorageAcc) (device : BlockDevice) :
  is_disk device = true ->
  let record := storage_record py_float device in
  acc_devices (storage_step py_float acc device) = acc_devices acc ++ [record]
  /\ acc_fast_storage (storage_step py_float acc device)
     = if is_fast record
       then (acc_fast_storage acc + sd_size_gb record)%float
       else acc_fast_storage acc.
Proof.
  unfold is_disk, storage_step, storage_record, storage_kind, is_fast.
  intros H. rewrite H. cbn [sd_type sd_size_gb].
  destruct (Str.startswith "nvme" (bd_name device)); [split; reflexivity |].
  destruct (jscalar_is "0" (bd_rota device)); [split; reflexivity |].
  rewrite H. split; reflexivity.
Qed.

(** The storage loop in closed form. *)
Lemma storage_fold_records (devices : list BlockDevice) (acc : StorageAcc) :
  let records := map (storage_record py_float) (List.filter is_disk devices) in
  acc_devices (fold_left (storage_step py_float) devices acc)
  = acc_devices acc ++ records
  /\ acc_fast_storage (fold_left (storage_step py_float) devices acc)
     = fold_left PrimFloat.add
         (map sd_size_gb (List.filter is_fast records)) (acc_fast_storage acc).
Proof.
  revert acc. induction devices as [|device rest IH]; intros acc.
  - cbn. rewrite app_nil_r. split; reflexivity.
  - cbn [fold_left List.filter]. destruct (is_disk device) eqn:Hdisk.
    + destruct (IH (storage_step py_float acc device)) as [Hd Hf].
      destruct (storage_step_disk acc device Hdisk) as [Hd1 Hf1].
      cbv zeta in *. rewrite Hd, Hf, Hd1, Hf1. clear Hd Hf Hd1 Hf1 IH.
      cbn [map List.filter].
      destruct (is_fast (storage_record py_float device));
        cbn [map fold_left]; rewrite <- app_assoc; split; reflexivity.
    + pose proof (IH (storage_step py_float acc device)) as H.
      rewrite (storage_step_other py_float acc device Hdisk) in H |- *.
      exact H.
Qed.

(** X11. When the storage probe reads a device list, it records exactly
    the entries of type [disk], in order, each with a kind among [disk],
    [ssd] and [nvme], and [fast_storage_gb] is the sum of the sizes of the
    recorded devices whose kind is [ssd] or [nvme]. *)
Theorem storage_devices_recorded (r : Remote) (node : NodeCapabilities)
  (out : string) (devices : list BlockDevice) :
  connects r 3 = true ->
  exec_command r lsblk_command = Some out ->
  Str.truthy (Str.strip out) = true ->
  lsblk_loads (Str.strip out) = Some devices ->
  let node' := _discover_storage_info py_float lsblk_loads r node in
  let records := map (storage_record py_float) (List.filter is_disk devices) in
  storage_devices node' = storage_devices node ++ records
  /\ Forall (fun d => In (sd_type d) ["disk"; "ssd"; "nvme"]%string) records
  /\ fast_storage_gb node'
     = sum_float (map sd_size_gb (List.filter is_fast records)).
Proof.
  intros Hc He Ht Hl node' records. unfold node'.
  rewrite (_discover_storage_info_loop py_float lsblk_loads r node out devices
             Hc He Ht Hl).
  cbn [fast_storage_gb storage_devices set_fast_storage_gb
         set_total_storage_gb set_storage_devices].
  unfold storage_loop.
  destruct (storage_fold_records devices
              (mkStorageAcc 0%float 0%float (storage_devices node)))
    as [Hd Hf].
  split; [exact Hd |]. split; [| exact Hf].
  apply List.Forall_forall. intros d Hd'. unfold records in Hd'.
  apply in_map_iff in Hd'. destruct Hd' as (device & <- & Hin).
  apply filter_In in Hin. destruct Hin as [_ Hdisk].
  unfold is_disk in Hdisk. apply String.eqb_eq in Hdisk.
  cbn [storage_record sd_type]. unfold storage_kind.
  destruct (Str.startswith "nvme" (bd_name device));
    [right; right; left; reflexivity |].
  destruct (jscalar_is "0" (bd_rota device));
    [right; left; reflexivity |].
  left. symmetry. exact Hdisk.
Qed.



End ProbeFurther.

Lemma storage_devices_recorded_witness :
  map sd_name (storage_devices storage_probed) = ["sda"%string]
  /\ map sd_type (storage_devices storage_probed) = ["disk"%string].
Proof.
  destruct (storage_devices_recorded sample_float sample_lsblk storage_host
              (NodeCapabilities_init "node-a" "10.0.0.1" "ubuntu" "id_rsa")
              lsblk_text loop_and_disk)
    as (Hd & _ & _).
  - reflexivity.
  - reflexivity.
  - reflexivity.
  - reflexivity.
  - fold storage_probed in Hd. rewrite Hd. split; reflexivity.
Defined.

Lemma network_outcome_refl (n : NodeCapabilities) : network_outcome n n.
Proof.
  exists []. rewrite app_nil_r. split; [reflexivity |].
  split; [constructor |]. split; [intros _; split; reflexivity |].
  intros H. left. split; [exact H |]. split; [reflexivity | constructor].
Qed.

Lemma truthy_nonempty (s : string) : Str.truthy s = true -> s <> EmptyString.
Proof. destruct s; [discriminate | discriminate]. Qed.

Section NetworkProbe.

Variable py_float : string -> option float.
Variable ip_loads : string -> option (list IpInterface).

Lemma network_loop_outcome (r : Remote) (interfaces : list IpInterface)
  (n : NodeCapabilities) :
  network_outcome n (network_loop py_float r interfaces n).
Proof.
  revert n. induction interfaces as [|interface rest IH]; intros n;
    [apply network_outcome_refl |].
  cbn [network_loop].
  destruct (Str.truthy (if_ifname interface)
            && negb (String.eqb (if_ifname interface) "lo")) eqn:Hname;
    [| apply IH].
  apply andb_prop in Hname. destruct Hname as [Htruthy Hlo].
  apply truthy_nonempty in Htruthy.
  apply Bool.negb_true_iff, String.eqb_neq in Hlo.
  destruct (exec_command r _); [| apply network_outcome_refl].
  destruct (if Str.isdigit _ then _ else _) as [speed|];
    [| apply network_outcome_refl].
  set (ips := List.filter Str.truthy (if_addr_local interface)).
  set (i0 := mkNetworkInterface (if_ifname interface) speed ips
               (if_operstate interface)).
  set (n1 := set_network_interfaces (network_interfaces n ++ [i0]) n).
  change (primary_interface n1) with (primary_interface n).
  destruct (primary_interface n) as [|pc ps] eqn:Hprimary.
  - destruct ips as [|a ips'].
    + destruct (IH n1) as (new & Hnew & Hall & Hkeep & Hfirst).
      exists (i0 :: new).
      change (network_interfaces n1) with (network_interfaces n ++ [i0]) in Hnew.
      change (primary_interface n1) with (primary_interface n) in Hkeep, Hfirst.
      change (network_speed_gbps n1) with (network_speed_gbps n) in Hkeep, Hfirst.
      rewrite <- app_assoc in Hnew.
      split; [exact Hnew |].
      split; [constructor; [split; assumption | exact Hall] |].
      split; [intros H; exfalso; apply H; exact Hprimary |].
      intros _. destruct (Hfirst Hprimary)
        as [(Hp & Hs & Hnone) | (l1 & i & l2 & -> & Hl1 & Hi & Hp & Hs)].
      * left. split; [exact Hp |]. split; [exact Hs |].
        constructor; [reflexivity | exact Hnone].
      * right. exists (i0 :: l1), i, l2.
        split; [reflexivity |].
        split; [constructor; [reflexivity | exact Hl1] |]. auto.
    + set (n2 := set_network_speed_gbps speed
                   (set_primary_interface (if_ifname interface) n1)).
      destruct (IH n2) as (new & Hnew & Hall & Hkeep & _).
      exists (i0 :: new).
      change (network_interfaces n2) with (network_interfaces n ++ [i0]) in Hnew.
      change (primary_interface n2) with (if_ifname interface) in Hkeep.
      change (network_speed_gbps n2) with speed in Hkeep.
      rewrite <- app_assoc in Hnew.
      destruct (Hkeep Htruthy) as [Hp Hs].
      split; [exact Hnew |].
      split; [constructor; [split; assumption | exact Hall] |].
      split; [intros H; exfalso; apply H; exact Hprimary |].
      intros _. right. exists [], i0, new.
      split; [reflexivity |]. split; [constructor |].
      split; [subst i0; cbn [ni_ip_addresses]; discriminate |].
      split; [exact Hp | exact Hs].
  - cbv beta iota.
    destruct (IH n1) as (new & Hnew & Hall & Hkeep & _).
    exists (i0 :: new).
    change (network_interfaces n1) with (network_interfaces n ++ [i0]) in Hnew.
    change (primary_interface n1) with (primary_interface n) in Hkeep.
    change (network_speed_gbps n1) with (network_speed_gbps n) in Hkeep.
    rewrite <- app_assoc in Hnew.
    split; [exact Hnew |].
    split; [constructor; [split; assumption | exact Hall] |].
    split; [exact Hkeep |].
    intros H. rewrite Hprimary in H. discriminate H.
Qed.

(** X13. The network probe never records the loopback interface or an
    interface without a name, only appends to [network_interfaces], keeps a
    primary interface that is already set, and otherwise makes the first
    recorded interface that has an address the primary one, with that
    interface's speed as [network_speed_gbps]. *)
Theorem network_probe_outcome (r : Remote) (n : NodeCapabilities) :
  network_outcome n (_discover_network_info py_float ip_loads r n).
Proof.
  unfold _discover_network_info.
  destruct (negb (connects r 5)); [apply network_outcome_refl |].
  destruct (exec_command r _); [| apply network_outcome_refl].
  destruct (Str.truthy _); [| apply network_outcome_refl].
  destruct (ip_loads _); [| apply network_outcome_refl].
  apply network_loop_outcome.
Qed.

End NetworkProbe.

(** ** Text read without regard to case *)

Lemma upper_lower_char (c : ascii) :
  Str.upper_char (Str.lower_char c) = Str.upper_char c.
Proof. destruct c as [[] [] [] [] [] [] [] []]; reflexivity. Qed.

Lemma lower_upper_char (c : ascii) :
  Str.lower_char (Str.upper_char c) = Str.lower_char c.
Proof. destruct c as [[] [] [] [] [] [] [] []]; reflexivity. Qed.

Lemma upper_upper_char (c : ascii) :
  Str.upper_char (Str.upper_char c) = Str.upper_char c.
Proof. destruct c as [[] [] [] [] [] [] [] []]; reflexivity. Qed.

Lemma is_space_lower_char (c : ascii) :
  Str.is_space (Str.lower_char c) = Str.is_space c.
Proof. destruct c as [[] [] [] [] [] [] [] []]; reflexivity. Qed.

Lemma is_space_upper_char (c : ascii) :
  Str.is_space (Str.upper_char c) = Str.is_space c.
Proof. destruct c as [[] [] [] [] [] [] [] []]; reflexivity. Qed.

Lemma str_map_map (f g : ascii -> ascii) (s : string) :
  Str.map f (Str.map g s) = Str.map (fun c => f (g c)) s.
Proof. induction s as [|c s IH]; cbn; [reflexivity | rewrite IH; reflexivity]. Qed.

Lemma str_map_ext (f g : ascii -> ascii) (s : string) :
  (forall c, f c = g c) -> Str.map f s = Str.map g s.
Proof.
  intros H. induction s as [|c s IH]; cbn; [reflexivity |].
  rewrite H, IH. reflexivity.
Qed.

Lemma rev_onto_map (f : ascii -> ascii) (s acc : string) :
  Str.rev_onto (Str.map f s) (Str.map f acc) = Str.map f (Str.rev_onto s acc).
Proof.
  revert acc. induction s as [|c s IH]; intros acc; [reflexivity |].
  cbn. apply (IH (String c acc)).
Qed.

Lemma rev_map (f : ascii -> ascii) (s : string) :
  Str.rev (Str.map f s) = Str.map f (Str.rev s).
Proof. apply (rev_onto_map f s EmptyString). Qed.

Lemma lstrip_by_map (p : ascii -> bool) (f : ascii -> ascii) (s : string) :
  (forall c, p (f c) = p c) ->
  Str.lstrip_by p (Str.map f s) = Str.map f (Str.lstrip_by p s).
Proof.
  intros H. induction s as [|c s IH]; [reflexivity |].
  cbn. rewrite H. destruct (p c); [exact IH | reflexivity].
Qed.

Lemma strip_map (f : ascii -> ascii) (s : string) :
  (forall c, Str.is_space (f c) = Str.is_space c) ->
  Str.strip (Str.map f s) = Str.map f (Str.strip s).
Proof.
  intros H. unfold Str.strip, Str.strip_by.
  rewrite lstrip_by_map, rev_map, lstrip_by_map, rev_map by exact H.
  reflexivity.
Qed.

(** X14. A size is read without regard to the case of its text: [1.8t]
    and [1.8T] give the same number of gigabytes, whatever [float] makes of
    the digits. *)
Theorem parse_size_ignores_case (py_float : string -> option float)
  (size_str : string) :
  _parse_size_to_gb py_float (Str.lower size_str)
  = _parse_size_to_gb py_float size_str
  /\ _parse_size_to_gb py_float (Str.upper size_str)
     = _parse_size_to_gb py_float size_str.
Proof.
  unfold _parse_size_to_gb.
  assert (Hl : Str.upper (Str.strip (Str.lower size_str))
               = Str.upper (Str.strip size_str)).
  { unfold Str.lower, Str.upper.
    rewrite strip_map by apply is_space_lower_char.
    rewrite str_map_map. apply str_map_ext, upper_lower_char. }
  assert (Hu : Str.upper (Str.strip (Str.upper size_str))
               = Str.upper (Str.strip size_str)).
  { unfold Str.upper.
    rewrite strip_map by apply is_space_upper_char.
    rewrite str_map_map. apply str_map_ext, upper_upper_char. }
  rewrite Hl, Hu. split; reflexivity.
Qed.

(** X15. A GPU is classified without regard to the case of its name, and
    the classification is always one of the eleven labels. *)
Theorem classify_gpu_ignores_case (gpu_name : string) :
  _classify_gpu (Str.upper gpu_name) = _classify_gpu gpu_name
  /\ In (_classify_gpu gpu_name) gpu_labels.
Proof.
  unfold _classify_gpu.
  assert (H : Str.lower (Str.upper gpu_name) = Str.lower gpu_name).
  { unfold Str.lower, Str.upper. rewrite str_map_map.
    apply str_map_ext, lower_upper_char. }
  rewrite H. split; [reflexivity |].
  unfold gpu_labels.
  repeat match goal with
    | |- context [if ?b then _ else _] => destruct b
    end; cbn; tauto.
Qed.

(** ** The inventory *)

Section DictFacts.

Context {V : Type}.

Lemma dict_get_set_eq (k : string) (v : V) (d : list (string * V)) :
  dict_get k (dict_set k v d) = Some v.
Proof.
  induction d as [|[k' v'] d IH]; cbn.
  - rewrite String.eqb_refl. reflexivity.
  - destruct (String.eqb k' k) eqn:E; cbn.
    + rewrite String.eqb_refl. reflexivity.
    + rewrite E. exact IH.
Qed.

Lemma dict_get_set_ne (k k' : string) (v : V) (d : list (string * V)) :
  k <> k' -> dict_get k' (dict_set k v d) = dict_get k' d.
Proof.
  intros Hne. induction d as [|[k0 v0] d IH]; cbn.
  - apply String.eqb_neq in Hne. rewrite Hne. reflexivity.
  - destruct (String.eqb k0 k) eqn:E; cbn.
    + apply String.eqb_eq in E. subst k0.
      apply String.eqb_neq in Hne. rewrite Hne. reflexivity.
    + rewrite IH. reflexivity.
Qed.

Lemma dict_set_keys (k k' : string) (v : V) (d : list (string * V)) :
  In k' (map fst (dict_set k v d)) <-> k' = k \/ In k' (map fst d).
Proof.
  induction d as [|[k0 v0] d IH]; cbn.
  - intuition.
  - destruct (String.eqb k0 k) eqn:E; cbn.
    + apply String.eqb_eq in E. subst k0. intuition.
    + rewrite IH. intuition.
Qed.

Lemma dict_set_NoDup (k : string) (v : V) (d : list (string * V)) :
  List.NoDup (map fst d) -> List.NoDup (map fst (dict_set k v d)).
Proof.
  induction d as [|[k0 v0] d IH]; cbn; intros Hnd.
  - constructor; [intros [] | constructor].
  - apply List.NoDup_cons_iff in Hnd. destruct Hnd as [Hnotin Hnd].
    destruct (String.eqb k0 k) eqn:E; cbn.
    + apply String.eqb_eq in E. subst k0. constructor; assumption.
    + constructor; [| apply IH, Hnd].
      rewrite dict_set_keys. intros [-> | Hin]; [| contradiction].
      rewrite String.eqb_refl in E. discriminate.
Qed.

Lemma dict_set_length (k : string) (v : V) (d : list (string * V)) :
  (length (dict_set k v d) <= S (length d))%nat.
Proof.
  induction d as [|[k0 v0] d IH]; cbn; [lia |].
  destruct (String.eqb k0 k); cbn; lia.
Qed.

End DictFacts.

Lemma add_hosts_snoc (user key : string) (gpu : bool) (entries : list PlanEntry)
  (entry : PlanEntry) (hosts : list (string * HostVars)) :
  add_hosts user key gpu (entries ++ [entry]) hosts
  = dict_set (pe_hostname entry)
      (host_vars (pe_ip_address entry) user key (Some gpu))
      (add_hosts user key gpu entries hosts).
Proof. unfold add_hosts. rewrite fold_left_app. reflexivity. Qed.

Lemma add_hosts_keys (user key : string) (gpu : bool) (entries : list PlanEntry)
  (hosts : list (string * HostVars)) (h : string) :
  In h (map fst (add_hosts user key gpu entries hosts))
  <-> In h (map pe_hostname entries) \/ In h (map fst hosts).
Proof.
  induction entries as [|entry entries IH] using rev_ind.
  - cbn. intuition.
  - rewrite add_hosts_snoc, dict_set_keys, IH, map_app, in_app_iff.
    cbn. intuition.
Qed.

Lemma add_hosts_NoDup (user key : string) (gpu : bool)
  (entries : list PlanEntry) (hosts : list (string * HostVars)) :
  List.NoDup (map fst hosts) ->
  List.NoDup (map fst (add_hosts user key gpu entries hosts)).
Proof.
  intros Hnd. induction entries as [|entry entries IH] using rev_ind.
  - exact Hnd.
  - rewrite add_hosts_snoc. apply dict_set_NoDup, IH.
Qed.

Lemma add_hosts_length (user key : string) (gpu : bool)
  (entries : list PlanEntry) (hosts : list (string * HostVars)) :
  (length (add_hosts user key gpu entries hosts)
   <= length entries + length hosts)%nat.
Proof.
  induction entries as [|entry entries IH] using rev_ind.
  - cbn. lia.
  - rewrite add_hosts_snoc, length_app. cbn [length].
    pose proof (dict_set_length (pe_hostname entry)
                  (host_vars (pe_ip_address entry) user key (Some gpu))
                  (add_hosts user key gpu entries hosts)).
    lia.
Qed.

(** A host name of the list gets the variables of an entry of the list;
    any other host name keeps what it had. *)
Lemma add_hosts_get (user key : string) (gpu : bool) (entries : list PlanEntry)
  (hosts : list (string * HostVars)) (h : string) :
  (In h (map pe_hostname entries) ->
   exists entry,
     In entry entries /\ pe_hostname entry = h
     /\ dict_get h (add_hosts user key gpu entries hosts)
        = Some (host_vars (pe_ip_address entry) user key (Some gpu)))
  /\ (~ In h (map pe_hostname entries) ->
      dict_get h (add_hosts user key gpu entries hosts) = dict_get h hosts).
Proof.
  induction entries as [|entry entries IH] using rev_ind.
  - split; [intros [] | reflexivity].
  - rewrite add_hosts_snoc, map_app. cbn [map].
    destruct (String.eqb_spec (pe_hostname entry) h) as [Heq | Hne].
    + split.
      * intros _. exists entry. rewrite in_app_iff. cbn.
        rewrite <- Heq, dict_get_set_eq. auto.
      * intros Hnot. exfalso. apply Hnot. rewrite in_app_iff. cbn. auto.
    + rewrite dict_get_set_ne by exact Hne. destruct IH as [IH1 IH2]. split.
      * rewrite in_app_iff. intros [Hin | [Heq | []]]; [| contradiction].
        destruct (IH1 Hin) as (e & He & Hh & Hget).
        exists e. rewrite in_app_iff. auto.
      * rewrite in_app_iff. intros Hnot. apply IH2. tauto.
Qed.

Lemma NoDup_app_disjoint {A : Type} (l1 l2 : list A) (a : A) :
  List.NoDup (l1 ++ l2) -> In a l1 -> In a l2 -> False.
Proof.
  induction l1 as [|x l1 IH]; cbn; intros Hnd H1 H2; [contradiction |].
  apply List.NoDup_cons_iff in Hnd. destruct Hnd as [Hx Hnd].
  destruct H1 as [-> | H1].
  - apply Hx. rewrite in_app_iff. auto.
  - apply IH; assumption.
Qed.

Lemma dict_set_length_new {V : Type} (k : string) (v : V)
  (d : list (string * V)) :
  ~ In k (map fst d) -> length (dict_set k v d) = S (length d).
Proof.
  induction d as [|[k0 v0] d IH]; cbn; intros Hnot; [reflexivity |].
  destruct (String.eqb_spec k0 k) as [-> | Hne]; [tauto |].
  cbn. rewrite IH by tauto. reflexivity.
Qed.

Lemma add_hosts_length_distinct (user key : string) (gpu : bool)
  (entries : list PlanEntry) (hosts : list (string * HostVars)) :
  List.NoDup (map pe_hostname entries ++ map fst hosts) ->
  length (add_hosts user key gpu entries hosts)
  = (length entries + length hosts)%nat.
Proof.
  induction entries as [|entry entries IH] using rev_ind; intros Hnd.
  - reflexivity.
  - rewrite add_hosts_snoc, length_app. cbn [length].
    rewrite map_app in Hnd. cbn [map] in Hnd. rewrite <- app_assoc in Hnd.
    cbn [app] in Hnd.
    pose proof (List.NoDup_remove_1 _ _ _ Hnd) as Hrest.
    pose proof (List.NoDup_remove_2 _ _ _ Hnd) as Hnotin.
    rewrite dict_set_length_new.
    + rewrite IH by exact Hrest. lia.
    + rewrite add_hosts_keys. rewrite in_app_iff in Hnotin. tauto.
Qed.

(** The keys of the worker group, and its size when no two entries share
    a host name. *)
Lemma inventory_worker_keys (user key : string) (plan : DeploymentPlan) :
  let hosts := kube_node_hosts (inventory_of user key plan) in
  let gpus := plan_gpu_worker_nodes plan in
  let workers := plan_worker_nodes plan in
  (forall h, In h (map fst hosts) <-> In h (map pe_hostname (gpus ++ workers)))
  /\ (List.NoDup (map pe_hostname (gpus ++ workers)) ->
      length hosts = (length gpus + length workers)%nat).
Proof.
  cbv zeta. cbn [inventory_of kube_node_hosts]. split.
  - intros h. rewrite !add_hosts_keys, map_app, in_app_iff. cbn. tauto.
  - rewrite map_app. intros Hnd.
    rewrite add_hosts_length_distinct.
    + rewrite add_hosts_length_distinct; [cbn; lia |].
      cbn [map]. rewrite app_nil_r.
      apply (List.NoDup_app_remove_r _ _ Hnd).
    + apply List.NoDup_app.
      * apply (List.NoDup_app_remove_l _ _ Hnd).
      * apply add_hosts_NoDup. constructor.
      * intros h Hw Hg. apply add_hosts_keys in Hg. cbn in Hg.
        destruct Hg as [Hg | []].
        exact (NoDup_app_disjoint _ _ h Hnd Hg Hw).
Qed.

(** X16. In the inventory built from a plan, the worker group is a
    dictionary keyed by host name: its keys are exactly the host names of
    the plan's GPU workers and workers, each once; every host carries the
    caller's user name and the checker's key path, and the address of an
    entry of that name; [gpu_enabled] is false for a name among the
    workers and true for every other name, so a GPU worker that shares its
    name with a worker is listed once, as a plain worker. *)
Theorem inventory_worker_group (user key : string) (plan : DeploymentPlan) :
  let hosts := kube_node_hosts (inventory_of user key plan) in
  let gpus := plan_gpu_worker_nodes plan in
  let workers := plan_worker_nodes plan in
  List.NoDup (map fst hosts)
  /\ (length hosts <= length gpus + length workers)%nat
  /\ (forall h, In h (map fst hosts)
                <-> In h (map pe_hostname (gpus ++ workers)))
  /\ forall h vars, dict_get h hosts = Some vars ->
       ansible_user vars = user
       /\ ansible_ssh_private_key_file vars = key
       /\ (exists entry, In entry (gpus ++ workers)
                         /\ pe_hostname entry = h
                         /\ ansible_host vars = pe_ip_address entry)
       /\ gpu_enabled vars
          = Some (negb (existsb (String.eqb h) (map pe_hostname workers))).
Proof.
  cbv zeta. cbn [inventory_of kube_node_hosts].
  set (gpus := plan_gpu_worker_nodes plan).
  set (workers := plan_worker_nodes plan).
  split; [apply add_hosts_NoDup, add_hosts_NoDup; constructor |].
  split.
  { pose proof (add_hosts_length user key false workers
                  (add_hosts user key true gpus [])).
    pose proof (add_hosts_length user key true gpus []).
    cbn [length] in *. lia. }
  split; [apply (inventory_worker_keys user key plan) |].
  intros h vars Hget.
  destruct (add_hosts_get user key false workers
              (add_hosts user key true gpus []) h) as [Hw1 Hw2].
  destruct (add_hosts_get user key true gpus [] h) as [Hg1 Hg2].
  destruct (existsb (String.eqb h) (map pe_hostname workers)) eqn:Hex.
  - apply existsb_exists in Hex. destruct Hex as (h' & Hin & Heq).
    apply String.eqb_eq in Heq. subst h'.
    destruct (Hw1 Hin) as (entry & He & Hh & Hval).
    rewrite Hval in Hget. injection Hget as <-. cbn.
    repeat split. exists entry. rewrite in_app_iff. auto.
  - assert (Hnot : ~ In h (map pe_hostname workers)).
    { intros Hin. assert (existsb (String.eqb h) (map pe_hostname workers) = true).
      { apply existsb_exists. exists h. split; [exact Hin |].
        apply String.eqb_refl. }
      congruence. }
    rewrite (Hw2 Hnot) in Hget.
    destruct (in_dec string_dec h (map pe_hostname gpus)) as [Hin | Hout].
    + destruct (Hg1 Hin) as (entry & He & Hh & Hval).
      rewrite Hval in Hget. injection Hget as <-. cbn.
      repeat split. exists entry. rewrite in_app_iff. auto.
    + rewrite (Hg2 Hout) in Hget. discriminate.
Qed.

Lemma hostname_flagged (store : list NodeCapabilities) (m i : nat) :
  hostname (deref (flagged store m) i) = hostname (deref store i).
Proof.
  destruct (Nat.eq_dec i m) as [-> | Hne].
  - destruct (Nat.lt_ge_cases m (length store)) as [Hlt | Hge].
    + unfold flagged. rewrite deref_insert_eq by exact Hlt. reflexivity.
    + unfold flagged. rewrite list_insert_ge by exact Hge. reflexivity.
  - rewrite flagged_other by exact Hne. reflexivity.
Qed.

Lemma hostname_distinct (store : list NodeCapabilities) (i j : nat) :
  List.NoDup (map hostname store) ->
  (i < length store)%nat -> (j < length store)%nat ->
  hostname (deref store i) = hostname (deref store j) -> i = j.
Proof.
  intros Hnd Hi Hj Heq.
  apply NoDup_ListNoDup in Hnd.
  change (map hostname store) with (hostname <$> store) in Hnd.
  apply (NoDup_lookup _ i j (hostname (deref store i)) Hnd).
  - rewrite list_lookup_fmap, (lookup_deref store i Hi). reflexivity.
  - rewrite list_lookup_fmap, (lookup_deref store j Hj), Heq. reflexivity.
Qed.

Section InventoryAfterPlanning.

Variable yaml_dump : Inventory -> string.

(** X17. The inventory cannot be rendered before a plan exists: the
    lookup of [master_node] raises [KeyError]. After a successful planning
    it is rendered, its control-plane group holds the plan's master node
    alone, under its host name and address; and when the nodes have
    distinct host names, the master node is not among the worker hosts and
    the worker group has one host per GPU worker and worker of the plan. *)
Theorem inventory_after_planning (now user : string)
  (self self' : PreflightChecker) (plan : DeploymentPlan) :
  build_deployment_plan now self = (OK plan, self') ->
  generate_inventory yaml_dump user (PreflightChecker_init (checker_ssh_key_path self))
  = inr (KeyError "master_node")
  /\ let inventory := inventory_of user (checker_ssh_key_path self) plan in
     generate_inventory yaml_dump user self' = inl (yaml_dump inventory)
     /\ kube_control_plane_hosts inventory
        = [(pe_hostname (plan_master_node plan),
            host_vars (pe_ip_address (plan_master_node plan)) user
              (checker_ssh_key_path self) None)]
     /\ (List.NoDup (map hostname (nodes self)) ->
         ~ In (pe_hostname (plan_master_node plan))
             (map fst (kube_node_hosts inventory))
         /\ length (kube_node_hosts inventory)
            = (length (plan_gpu_worker_nodes plan)
               + length (plan_worker_nodes plan))%nat).
Proof.
  intros Hplan. split; [reflexivity |].
  unfold build_deployment_plan in Hplan.
  destruct (select_roles (nodes self)) as [sel | e] eqn:Hsel; [| discriminate].
  injection Hplan as Hp Hs. cbv zeta.
  split; [rewrite <- Hs, <- Hp; reflexivity |].
  split; [reflexivity |].
  intros Hnd.
  destruct (select_roles_OK _ _ Hsel) as (Hm & Hstore & _).
  destruct (selection_disjoint _ _ Hsel) as (Hd1 & Hd2 & Hd3 & Hn1 & Hn2).
  set (store := nodes self) in *.
  set (name := fun i => hostname (deref store i)).
  assert (Hname : forall i, pe_hostname (plan_entry (deref (sel_store sel) i))
                            = name i).
  { intros i. cbn [plan_entry pe_hostname]. rewrite Hstore.
    apply hostname_flagged. }
  assert (Hinj : forall i j, (i < length store)%nat -> (j < length store)%nat ->
                   name i = name j -> i = j).
  { intros i j Hi Hj. apply hostname_distinct; assumption. }
  assert (Hlt : forall i, In i (sel_gpu_workers sel ++ sel_regular_workers sel)
                          -> (i < length store)%nat).
  { intros i Hi. apply in_app_or in Hi.
    destruct (selection_members _ _ i Hsel) as [Hg Hw].
    destruct Hi as [Hi | Hi]; [apply Hg in Hi | apply Hw in Hi]; tauto. }
  assert (Hgpus : map pe_hostname (plan_gpu_worker_nodes plan)
                  = map name (sel_gpu_workers sel)).
  { rewrite <- Hp. cbn [plan_gpu_worker_nodes]. rewrite map_map.
    apply map_ext, Hname. }
  assert (Hworkers : map pe_hostname (plan_worker_nodes plan)
                     = map name (sel_regular_workers sel)).
  { rewrite <- Hp. cbn [plan_worker_nodes]. rewrite map_map.
    apply map_ext, Hname. }
  assert (Hmaster : pe_hostname (plan_master_node plan)
                    = name (sel_master_node sel)).
  { rewrite <- Hp. cbn [plan_master_node]. apply Hname. }
  assert (Hndall : List.NoDup (sel_gpu_workers sel ++ sel_regular_workers sel)).
  { apply List.NoDup_app; assumption. }
  assert (Hndnames : List.NoDup
                       (map name (sel_gpu_workers sel ++ sel_regular_workers sel))).
  { apply (List.NoDup_map_NoDup_ForallPairs); [| exact Hndall].
    intros i j Hi Hj. apply Hinj; apply Hlt; assumption. }
  split.
  - destruct (inventory_worker_keys user (checker_ssh_key_path self) plan)
      as [Hkeys _].
    rewrite Hkeys, map_app, Hgpus, Hworkers, <- map_app, Hmaster.
    intros Hin. apply in_map_iff in Hin. destruct Hin as (i & Heq & Hi).
    apply Hinj in Heq; [| apply Hlt, Hi | exact Hm]. subst i.
    apply in_app_or in Hi. tauto.
  - destruct (inventory_worker_keys user (checker_ssh_key_path self) plan)
      as [_ Hlen].
    apply Hlen. rewrite map_app, Hgpus, Hworkers, <- map_app. exact Hndnames.
Qed.

End InventoryAfterPlanning.

Lemma inventory_after_planning_witness :
  exists plan self',
    build_deployment_plan "2024-01-01T00:00:00"
      (mkChecker "id_rsa" scenario_nodes None) = (OK plan, self')
    /\ map fst (kube_control_plane_hosts (inventory_of "ubuntu" "id_rsa" plan))
       = ["node2"%string]
    /\ length (kube_node_hosts (inventory_of "ubuntu" "id_rsa" plan)) = 2%nat.
Proof.
  destruct (build_deployment_plan "2024-01-01T00:00:00"
              (mkChecker "id_rsa" scenario_nodes None)) as [[plan | e] self']
    eqn:Hplan; [| vm_compute in Hplan; discriminate Hplan].
  exists plan, self'. split; [reflexivity |].
  destruct (inventory_after_planning (fun _ => EmptyString)
              "2024-01-01T00:00:00" "ubuntu" _ _ _ Hplan)
    as (_ & _ & Hcontrol & Hworkers).
  cbn [checker_ssh_key_path] in Hcontrol, Hworkers.
  assert (Hnd : List.NoDup (map hostname scenario_nodes)).
  { cbn. repeat constructor; cbn; intuition discriminate. }
  destruct (Hworkers Hnd) as [_ Hlen].
  rewrite Hcontrol, Hlen.
  vm_compute in Hplan. injection Hplan as <- _. split; reflexivity.
Defined.

(** ** The cluster and application configurations *)

Lemma fold_add_shift (l : list Z) (a : Z) :
  fold_left Z.add l a = a + fold_left Z.add l 0.
Proof.
  revert a. induction l as [|x l IH]; intros a; cbn [fold_left]; [lia |].
  rewrite (IH (a + x)), (IH (0 + x)). lia.
Qed.

Lemma sum_int_positive (l : list Z) :
  Forall (fun x => 0 <= x) l ->
  0 <= sum_int l /\ (0 < sum_int l <-> Exists (fun x => 0 < x) l).
Proof.
  unfold sum_int. induction 1 as [|x l Hx Hl IH]; cbn [fold_left].
  - split; [lia |]. split; [lia | intros H; inversion H].
  - rewrite (fold_add_shift l (0 + x)). destruct IH as [Hnn [Hpos1 Hpos2]].
    split; [lia |]. split.
    + intros Hsum. destruct (Z.lt_ge_cases 0 x) as [Hlt | Hge].
      * left. exact Hlt.
      * right. apply Hpos1. lia.
    + intros Hex. inversion Hex as [? ? Hlt | ? ? Hin]; subst; [lia |].
      apply Hpos2 in Hin. lia.
Qed.

(** X18. For the plan of a set of nodes, the cluster configuration turns
    both GPU switches on exactly when the GPU counts of all nodes sum to
    more than zero, which for counts that are not negative means that some
    node has a GPU; [etcd_deployment_type] is [host] for every cluster
    size, and the controller-manager arguments are present exactly from
    ten nodes on. *)
Theorem kubespray_config_of_plan (now : string) (self self' : PreflightChecker)
  (plan : DeploymentPlan) :
  build_deployment_plan now self = (OK plan, self') ->
  let config := generate_kubespray_config plan in
  nvidia_driver_enabled config = nvidia_gpu_enabled config
  /\ nvidia_gpu_enabled config = (0 <? sum_int (map gpu_count (nodes self)))
  /\ (Forall (fun n => 0 <= gpu_count n) (nodes self) ->
      (nvidia_gpu_enabled config = true
       <-> Exists (fun n => 0 < gpu_count n) (nodes self)))
  /\ etcd_deployment_type config = "host"%string
  /\ (kube_controller_manager_extra_args config <> None
      <-> (10 <= length (nodes self))%nat).
Proof.
  intros Hplan.
  unfold build_deployment_plan in Hplan.
  destruct (select_roles (nodes self)) as [sel | e] eqn:Hsel; [| discriminate].
  injection Hplan as <- _.
  destruct (select_roles_OK _ _ Hsel) as (_ & Hstore & _).
  cbv zeta. unfold generate_kubespray_config.
  cbn [plan_summary sum_total_nodes sum_total_gpus nvidia_driver_enabled
         nvidia_gpu_enabled etcd_deployment_type
         kube_controller_manager_extra_args].
  rewrite Hstore, flagged_length, map_flagged by reflexivity.
  split; [reflexivity |]. split; [reflexivity |].
  split.
  { intros Hnn. rewrite Z.ltb_lt.
    assert (Hnn' : Forall (fun x => 0 <= x) (map gpu_count (nodes self))).
    { apply List.Forall_forall. intros x Hx. apply in_map_iff in Hx.
      destruct Hx as (n & <- & Hn).
      rewrite List.Forall_forall in Hnn. apply Hnn, Hn. }
    rewrite (proj2 (sum_int_positive _ Hnn')), !List.Exists_exists.
    split.
    - intros (x & Hx & Hpos). apply in_map_iff in Hx.
      destruct Hx as (n & <- & Hn). exists n. auto.
    - intros (n & Hn & Hpos). exists (gpu_count n).
      split; [apply in_map, Hn | exact Hpos]. }
  split; [destruct (10 <=? _); reflexivity |].
  destruct (Z.leb_spec 10 (Z.of_nat (length (nodes self)))) as [Hle | Hlt].
  - split; [intros _; lia | discriminate].
  - split; [intros H; exfalso; apply H; reflexivity | lia].
Qed.

Lemma kubespray_config_of_plan_witness :
  exists plan self',
    build_deployment_plan "2024-01-01T00:00:00"
      (mkChecker "id_rsa" scenario_nodes None) = (OK plan, self')
    /\ nvidia_gpu_enabled (generate_kubespray_config plan) = true
    /\ kube_controller_manager_extra_args (generate_kubespray_config plan)
       = None.
Proof.
  destruct (build_deployment_plan "2024-01-01T00:00:00"
              (mkChecker "id_rsa" scenario_nodes None)) as [[plan | e] self']
    eqn:Hplan; [| vm_compute in Hplan; discriminate Hplan].
  exists plan, self'. split; [reflexivity |].
  destruct (kubespray_config_of_plan _ _ _ _ Hplan) as (_ & Hgpu & _).
  split; [rewrite Hgpu; reflexivity |].
  vm_compute in Hplan. injection Hplan as <- _. reflexivity.
Defined.

(** X19. For the plan of a set of nodes, every scaled service of the
    application gets [max(1, g)] replicas, [g] the number of GPU workers
    of the plan: at least one, and no more than the nodes other than the
    master node once there are two nodes. Every GPU request and limit is
    ["1"] when the GPU counts of all nodes sum to more than zero and ["0"]
    otherwise, whether or not the plan has a GPU worker. *)
Theorem rag_config_of_plan (now : string) (self self' : PreflightChecker)
  (plan : DeploymentPlan) :
  build_deployment_plan now self = (OK plan, self') ->
  let config := generate_rag_config plan in
  let replicas := Z.max 1 (Z.of_nat (length (plan_gpu_worker_nodes plan))) in
  let gpu := if 0 <? sum_int (map gpu_count (nodes self))
             then "1"%string else "0"%string in
  map svc_replicas
    [rag_server config; nemo_embedding config; nemo_reranking config;
     nemo_llm config]
  = [replicas; replicas; replicas; replicas]
  /\ 1 <= replicas <= Z.max 1 (Z.of_nat (length (nodes self)) - 1)
  /\ milvus_gpu_enabled config = (0 <? sum_int (map gpu_count (nodes self)))
  /\ Forall (fun r => res_gpu r = gpu)
       [svc_requests (rag_server config); svc_limits (rag_server config);
        milvus_requests config; milvus_limits config;
        svc_requests (nemo_embedding config); svc_limits (nemo_embedding config);
        svc_requests (nemo_reranking config); svc_limits (nemo_reranking config);
        svc_requests (nemo_llm config); svc_limits (nemo_llm config)].
Proof.
  intros Hplan.
  unfold build_deployment_plan in Hplan.
  destruct (select_roles (nodes self)) as [sel | e] eqn:Hsel; [| discriminate].
  injection Hplan as <- _.
  destruct (select_roles_OK _ _ Hsel) as (_ & Hstore & _).
  pose proof (selection_size _ _ Hsel) as Hsize.
  cbv zeta. unfold generate_rag_config.
  cbn [plan_summary sum_total_gpus plan_gpu_worker_nodes rag_server
         nemo_embedding nemo_reranking nemo_llm milvus_gpu_enabled
         milvus_requests milvus_limits svc_replicas svc_requests svc_limits
         res_gpu map].
  rewrite Hstore, map_flagged by reflexivity. rewrite length_map.
  split; [reflexivity |]. split; [lia |]. split; [reflexivity |].
  repeat constructor.
Qed.

Lemma rag_config_of_plan_witness :
  exists plan self',
    build_deployment_plan "2024-01-01T00:00:00"
      (mkChecker "id_rsa" lone_gpu_node None) = (OK plan, self')
    /\ plan_gpu_worker_nodes plan = []
    /\ svc_replicas (rag_server (generate_rag_config plan)) = 1
    /\ res_gpu (svc_requests (rag_server (generate_rag_config plan)))
       = "1"%string.
Proof.
  destruct (build_deployment_plan "2024-01-01T00:00:00"
              (mkChecker "id_rsa" lone_gpu_node None)) as [[plan | e] self']
    eqn:Hplan; [| vm_compute in Hplan; discriminate Hplan].
  exists plan, self'. split; [reflexivity |].
  destruct (rag_config_of_plan _ _ _ _ Hplan) as (Hrep & _ & _ & Hgpu).
  assert (Hnone : plan_gpu_worker_nodes plan = []).
  { vm_compute in Hplan. injection Hplan as <- _. reflexivity. }
  split; [exact Hnone |].
  apply (f_equal (hd 0)) in Hrep. cbn [hd map] in Hrep.
  rewrite Hnone in Hrep.
  split; [exact Hrep |].
  etransitivity; [exact (List.Forall_inv Hgpu) | reflexivity].
Defined.
